(** * Alert analysis and tenant rollup: a shallow embedding

    The development follows the Python sources of the repository:

    - [analyze_alerts.py] of run [20250822_171957] (module [Analyzer]),
      the per-subscription analysis and the numeric part of its report;
    - [analyze_alerts.py] of run [20250822_132921] (module [Analyzer0]),
      the earlier variant of the two breakdown loops;
    - [create_consolidated_dashboard.py] of run [20250822_171957]
      (modules [Rollup] and [Dashboard]), the tenant-level merge and the
      figures and cards of the dashboard.

    Python values are modelled as follows.  A value read by [json.load] is a
    [json] term (numbers are the integer numerals), a [dict] read from JSON is
    a finite map, a raised exception is the [Err] case of [res].  A [Counter]
    whose iteration order is observed ([most_common]) is an association list
    in insertion order, other counters are finite maps.  The binary64
    arithmetic of [count * 0.7] and of the report's percentages is that of
    [SpecFloat]. *)

From Stdlib Require Import ZArith List Permutation Lia Bool Ascii String.
From Stdlib Require Import SpecFloat.
From stdpp Require Import base option list gmap fin_maps strings countable pretty sorting.

Local Open Scope Z_scope.

(** ** Python values *)

#[local] Unset Elimination Schemes.
Inductive json : Type :=
| JNull
| JBool (b : bool)
| JNum (n : Z)
| JStr (s : string)
| JArr (xs : list json)
| JObj (fields : gmap string json).
#[local] Set Elimination Schemes.

(** The exceptions the modelled code can raise. *)
Inductive pyexn : Type :=
| TypeError        (* unhashable dictionary key *)
| KeyError         (* [d[k]] on a missing key *)
| AttributeError   (* method of a value that has none, e.g. [5 .replace] *)
| ValueError       (* [datetime.fromisoformat] on a malformed string *)
| ZeroDivisionError.

Inductive res (A : Type) : Type :=
| Ok (a : A)
| Err (e : pyexn).
Arguments Ok {A} a.
Arguments Err {A} e.

Definition res_bind {A B} (m : res A) (k : A → res B) : res B :=
  match m with
  | Ok a => k a
  | Err e => Err e
  end.

Global Instance res_ret : MRet res := fun A a => Ok a.
Global Instance res_mbind : MBind res := fun A B k m => res_bind m k.

(** A [for] loop whose body may raise. *)
Fixpoint for_each {A S} (body : S → A → res S) (xs : list A) (s : S) : res S :=
  match xs with
  | [] => Ok s
  | x :: xs' =>
      match body s x with
      | Ok s' => for_each body xs' s'
      | Err e => Err e
      end
  end.

(** Truth value of a Python object in a condition. *)
Definition truthy (v : json) : bool :=
  match v with
  | JNull => false
  | JBool b => b
  | JNum n => negb (n =? 0)
  | JStr s => negb (String.eqb s "")
  | JArr xs => match xs with [] => false | _ => true end
  | JObj m => negb (bool_decide (m = ∅))
  end.

(** [a or b] *)
Definition py_or (a b : json) : json := if truthy a then a else b.

(** [d.get(k)]: [None] when the key is missing. *)
Definition get (k : string) (d : gmap string json) : json :=
  default JNull (d !! k).

(** [d.get(k, dflt)] *)
Definition get_or (k : string) (dflt : json) (d : gmap string json) : json :=
  default dflt (d !! k).

(** [v and isinstance(v, str)]: the non-empty strings. *)
Definition nonempty_str (v : json) : option string :=
  match v with
  | JStr s => if String.eqb s "" then None else Some s
  | _ => None
  end.

(** Keys of a dictionary: the hashable values among the ones [json.load]
    produces.  [True] hashes and compares as [1], [False] as [0]. *)
Inductive pykey : Type :=
| KNone
| KInt (n : Z)
| KStr (s : string).

Global Instance pykey_eq_dec : EqDecision pykey.
Proof. solve_decision. Defined.

Global Instance pykey_countable : Countable pykey.
Proof.
  refine (inj_countable'
    (fun k => match k with
              | KNone => inl ()
              | KInt n => inr (inl n)
              | KStr s => inr (inr s)
              end)
    (fun x => match x with
              | inl _ => KNone
              | inr (inl n) => KInt n
              | inr (inr s) => KStr s
              end) _).
  intros []; reflexivity.
Defined.

Definition hash_key (v : json) : res pykey :=
  match v with
  | JNull => Ok KNone
  | JBool b => Ok (KInt (if b then 1 else 0))
  | JNum n => Ok (KInt n)
  | JStr s => Ok (KStr s)
  | JArr _ | JObj _ => Err TypeError
  end.

(** ** Strings *)

(** [s.replace('Z', '+00:00')] *)
Fixpoint replace_Z (s : string) : string :=
  match s with
  | EmptyString => EmptyString
  | String c s' =>
      if Ascii.eqb c "Z"%char then ("+00:00" ++ replace_Z s')%string
      else String c (replace_Z s')
  end.

(** [needle in s] for strings. *)
Fixpoint contains (needle s : string) : bool :=
  String.prefix needle s
  || match s with
     | EmptyString => false
     | String _ s' => contains needle s'
     end.

(** ** [datetime] objects

    [tzoffset] is [utcoffset()] in microseconds, [None] for a naive value. *)
Record datetime : Type := mk_datetime {
  year : Z; month : Z; day : Z;
  hour : Z; minute : Z; second : Z; microsecond : Z;
  tzoffset : option Z
}.

Global Instance datetime_eq_dec : EqDecision datetime.
Proof. solve_decision. Defined.

Definition is_leap (y : Z) : bool :=
  (y mod 4 =? 0) && (negb (y mod 100 =? 0) || (y mod 400 =? 0)).

Definition days_before_year (y : Z) : Z :=
  let y1 := y - 1 in y1 * 365 + y1 / 4 - y1 / 100 + y1 / 400.

Definition days_before_month (y m : Z) : Z :=
  nth (Z.to_nat m) [0; 0; 31; 59; 90; 120; 151; 181; 212; 243; 273; 304; 334] 0
  + (if (2 <? m) && is_leap y then 1 else 0).

(** [toordinal()] *)
Definition ymd2ord (y m d : Z) : Z :=
  days_before_year y + days_before_month y m + d.

(** Microseconds since the start of day 0 of the proleptic calendar, local
    time. *)
Definition local_us (t : datetime) : Z :=
  (((ymd2ord (year t) (month t) (day t) * 24 + hour t) * 60 + minute t) * 60
   + second t) * 1000000 + microsecond t.

(** What [==] and [hash] see of a [datetime]: a naive value is its fields,
    an aware value is its instant in UTC; a naive and an aware value are
    never equal. *)
Definition dt_key (t : datetime) : (Z * Z * Z * Z * Z * Z * Z) + Z :=
  match tzoffset t with
  | None => inl (year t, month t, day t, hour t, minute t, second t, microsecond t)
  | Some off => inr (local_us t - off)
  end.

Definition dt_eqb (a b : datetime) : bool := bool_decide (dt_key a = dt_key b).

(** [dt.replace(minute=(dt.minute // 5) * 5, second=0, microsecond=0)] *)
Definition window_of (t : datetime) : datetime :=
  {| year := year t; month := month t; day := day t; hour := hour t;
     minute := (minute t / 5) * 5; second := 0; microsecond := 0;
     tzoffset := tzoffset t |}.

(** ** Binary64 arithmetic *)

Definition prec : Z := 53.
Definition emax : Z := 1024.

(** [float(n)] for an [int], rounded to nearest even. *)
Definition float_of_int (n : Z) : spec_float := binary_normalize prec emax n 0 false.

(** The literal [0.7], that is [0x1.6666666666666p-1]. *)
Definition float_0_7 : spec_float := S754_finite false 6305039478318694 (-53).

Definition float_mul : spec_float → spec_float → spec_float := SFmul prec emax.
Definition float_div : spec_float → spec_float → spec_float := SFdiv prec emax.

(** [i > f] for an [int] and a [float]: Python compares the exact values. *)
Definition int_gt_float (i : Z) (f : spec_float) : bool :=
  match f with
  | S754_nan => false
  | S754_infinity s => s
  | S754_zero _ => 0 <? i
  | S754_finite s m e =>
      let v := cond_Zopp s (Z.pos m) in
      if 0 <=? e then v * 2 ^ e <? i else v <? i * 2 ^ (- e)
  end.

(** [f > i] *)
Definition float_gt_int (f : spec_float) (i : Z) : bool :=
  match f with
  | S754_nan => false
  | S754_infinity s => negb s
  | S754_zero _ => i <? 0
  | S754_finite s m e =>
      let v := cond_Zopp s (Z.pos m) in
      if 0 <=? e then i <? v * 2 ^ e else i * 2 ^ (- e) <? v
  end.

(** [a / b] for two [int]s, as the quotient of the two operands converted
    to floats.  Python rounds the exact quotient once: the two agree when
    both operands are exactly representable (below 2^53 in absolute value),
    as the lengths and counts divided here are, and may differ by one
    rounding otherwise.  [OverflowError], which needs a quotient above the
    largest float, is not modelled. *)
Definition py_truediv (a b : Z) : res spec_float :=
  if b =? 0 then Err ZeroDivisionError
  else Ok (float_div (float_of_int a) (float_of_int b)).

(** A number the report prints: the literal [0] of a guarded ratio, or a
    [float]. *)
Inductive pynum : Type :=
| PInt (n : Z)
| PFloat (f : spec_float).

(** ** Counters *)

(** [c[k] += 1] on a [Counter] or a [defaultdict(int)]. *)
Definition incr `{Countable K} (k : K) (c : gmap K nat) : gmap K nat :=
  <[k := S (default 0%nat (c !! k))]> c.

(** [c[k1][k2] += 1] on two levels. *)
Definition incr2 `{Countable K1} `{Countable K2}
    (k1 : K1) (k2 : K2) (c : gmap K1 (gmap K2 nat)) : gmap K1 (gmap K2 nat) :=
  <[k1 := incr k2 (default ∅ (c !! k1))]> c.

(** A counter whose order of insertion is kept. *)
Fixpoint oincr (k : string) (c : list (string * nat)) : list (string * nat) :=
  match c with
  | [] => [(k, 1%nat)]
  | (k', n) :: c' =>
      if String.eqb k k' then (k', S n) :: c' else (k', n) :: oincr k c'
  end.

Fixpoint olookup (k : string) (c : list (string * nat)) : option nat :=
  match c with
  | [] => None
  | (k', n) :: c' => if String.eqb k k' then Some n else olookup k c'
  end.

(** Insertion by decreasing count of an entry that comes before all those of
    [l] in the order of insertion: it goes before the first entry whose count
    is not above its own, so that entries of equal count keep their order. *)
Fixpoint insert_desc (x : string * nat) (l : list (string * nat)) : list (string * nat) :=
  match l with
  | [] => [x]
  | y :: l' =>
      if (snd y <=? snd x)%nat then x :: y :: l' else y :: insert_desc x l'
  end.

(** [sorted(items, key=itemgetter(1), reverse=True)], which is stable. *)
Definition sort_desc (l : list (string * nat)) : list (string * nat) :=
  foldr insert_desc [] l.

(** [c.most_common(n)] *)
Definition most_common (n : nat) (c : list (string * nat)) : list (string * nat) :=
  take n (sort_desc c).

(** [groups[k].append(x)] on a [defaultdict(list)], keys compared by [eqb]. *)
Fixpoint group_append {K A} (eqb : K → K → bool) (k : K) (x : A)
    (groups : list (K * list A)) : list (K * list A) :=
  match groups with
  | [] => [(k, [x])]
  | (k', xs) :: groups' =>
      if eqb k' k then (k', xs ++ [x]) :: groups'
      else (k', xs) :: group_append eqb k x groups'
  end.

(** An alert record as [json.load] returns it: a JSON object.  Array
    elements that are not objects are outside the model. *)
Abbreviation alert := (gmap string json).

(** ** [analyze_alerts.py], run 20250822_171957 *)

Module Analyzer.

Record lifecycle : Type := mk_lifecycle {
  new_alerts : nat;
  acknowledged_alerts : nat;
  closed_alerts : nat;
  avg_time_to_acknowledge : nat;
  avg_time_to_close : nat
}.

Record correlation_pattern : Type := mk_pattern {
  correlation_id : string;
  pattern_alert_count : nat;
  pattern_resources : list string;
  time_span : string
}.

Record tuning_recommendation : Type := mk_recommendation {
  resource : string;
  alert_count : nat;
  recommendation : string
}.

(** [storm_time] is the window whose [isoformat()] the source stores. *)
Record alert_storm : Type := mk_storm {
  storm_time : datetime;
  storm_count : nat;
  storm_resources : list string
}.

Record resource_health_detail : Type := mk_health {
  rh_alert_id : json; rh_name : string; rh_severity : json; rh_state : json;
  rh_resource : json; rh_resource_type : json; rh_resource_group : json;
  rh_start_time : json; rh_last_modified : json; rh_description : json;
  rh_monitor_condition : json; rh_monitor_service : json
}.

Record analysis : Type := mk_analysis {
  total_alerts : nat;
  severity_breakdown : gmap string nat;
  alert_state_breakdown : gmap string nat;
  alert_state_by_severity : gmap string (gmap string nat);
  resource_type_breakdown : gmap pykey nat;
  resource_group_breakdown : gmap string nat;
  hourly_distribution : gmap Z nat;
  daily_distribution : gmap string nat;
  top_alerting_resources : list (string * nat);
  top_alerts_by_severity : gmap string (gmap string nat);
  alert_lifecycle_metrics : lifecycle;
  correlation_patterns : list correlation_pattern;
  tuning_recommendations : list tuning_recommendation;
  alert_storms : list alert_storm;
  maintenance_windows : list json;
  resource_health_alerts : list resource_health_detail
}.

(** Field updates of the document, one per key the loops assign. *)
Definition with_severity f (a : analysis) : analysis :=
  mk_analysis (total_alerts a) (f (severity_breakdown a)) (alert_state_breakdown a)
    (alert_state_by_severity a) (resource_type_breakdown a)
    (resource_group_breakdown a) (hourly_distribution a) (daily_distribution a)
    (top_alerting_resources a) (top_alerts_by_severity a)
    (alert_lifecycle_metrics a) (correlation_patterns a)
    (tuning_recommendations a) (alert_storms a) (maintenance_windows a)
    (resource_health_alerts a).

Definition with_state f (a : analysis) : analysis :=
  mk_analysis (total_alerts a) (severity_breakdown a) (f (alert_state_breakdown a))
    (alert_state_by_severity a) (resource_type_breakdown a)
    (resource_group_breakdown a) (hourly_distribution a) (daily_distribution a)
    (top_alerting_resources a) (top_alerts_by_severity a)
    (alert_lifecycle_metrics a) (correlation_patterns a)
    (tuning_recommendations a) (alert_storms a) (maintenance_windows a)
    (resource_health_alerts a).

Definition with_state_by_severity f (a : analysis) : analysis :=
  mk_analysis (total_alerts a) (severity_breakdown a) (alert_state_breakdown a)
    (f (alert_state_by_severity a)) (resource_type_breakdown a)
    (resource_group_breakdown a) (hourly_distribution a) (daily_distribution a)
    (top_alerting_resources a) (top_alerts_by_severity a)
    (alert_lifecycle_metrics a) (correlation_patterns a)
    (tuning_recommendations a) (alert_storms a) (maintenance_windows a)
    (resource_health_alerts a).

Definition with_resource_type f (a : analysis) : analysis :=
  mk_analysis (total_alerts a) (severity_breakdown a) (alert_state_breakdown a)
    (alert_state_by_severity a) (f (resource_type_breakdown a))
    (resource_group_breakdown a) (hourly_distribution a) (daily_distribution a)
    (top_alerting_resources a) (top_alerts_by_severity a)
    (alert_lifecycle_metrics a) (correlation_patterns a)
    (tuning_recommendations a) (alert_storms a) (maintenance_windows a)
    (resource_health_alerts a).

Definition with_resource_group f (a : analysis) : analysis :=
  mk_analysis (total_alerts a) (severity_breakdown a) (alert_state_breakdown a)
    (alert_state_by_severity a) (resource_type_breakdown a)
    (f (resource_group_breakdown a)) (hourly_distribution a) (daily_distribution a)
    (top_alerting_resources a) (top_alerts_by_severity a)
    (alert_lifecycle_metrics a) (correlation_patterns a)
    (tuning_recommendations a) (alert_storms a) (maintenance_windows a)
    (resource_health_alerts a).

Definition with_time fh fd (a : analysis) : analysis :=
  mk_analysis (total_alerts a) (severity_breakdown a) (alert_state_breakdown a)
    (alert_state_by_severity a) (resource_type_breakdown a)
    (resource_group_breakdown a) (fh (hourly_distribution a))
    (fd (daily_distribution a))
    (top_alerting_resources a) (top_alerts_by_severity a)
    (alert_lifecycle_metrics a) (correlation_patterns a)
    (tuning_recommendations a) (alert_storms a) (maintenance_windows a)
    (resource_health_alerts a).

Definition with_top_resources f (a : analysis) : analysis :=
  mk_analysis (total_alerts a) (severity_breakdown a) (alert_state_breakdown a)
    (alert_state_by_severity a) (resource_type_breakdown a)
    (resource_group_breakdown a) (hourly_distribution a) (daily_distribution a)
    (f (top_alerting_resources a)) (top_alerts_by_severity a)
    (alert_lifecycle_metrics a) (correlation_patterns a)
    (tuning_recommendations a) (alert_storms a) (maintenance_windows a)
    (resource_health_alerts a).

Definition with_top_alerts f (a : analysis) : analysis :=
  mk_analysis (total_alerts a) (severity_breakdown a) (alert_state_breakdown a)
    (alert_state_by_severity a) (resource_type_breakdown a)
    (resource_group_breakdown a) (hourly_distribution a) (daily_distribution a)
    (top_alerting_resources a) (f (top_alerts_by_severity a))
    (alert_lifecycle_metrics a) (correlation_patterns a)
    (tuning_recommendations a) (alert_storms a) (maintenance_windows a)
    (resource_health_alerts a).

Definition with_lifecycle f (a : analysis) : analysis :=
  mk_analysis (total_alerts a) (severity_breakdown a) (alert_state_breakdown a)
    (alert_state_by_severity a) (resource_type_breakdown a)
    (resource_group_breakdown a) (hourly_distribution a) (daily_distribution a)
    (top_alerting_resources a) (top_alerts_by_severity a)
    (f (alert_lifecycle_metrics a)) (correlation_patterns a)
    (tuning_recommendations a) (alert_storms a) (maintenance_windows a)
    (resource_health_alerts a).

Definition with_details (cp : list correlation_pattern)
    (tr : list tuning_recommendation) (st : list alert_storm)
    (rh : list resource_health_detail) (a : analysis) : analysis :=
  mk_analysis (total_alerts a) (severity_breakdown a) (alert_state_breakdown a)
    (alert_state_by_severity a) (resource_type_breakdown a)
    (resource_group_breakdown a) (hourly_distribution a) (daily_distribution a)
    (top_alerting_resources a) (top_alerts_by_severity a)
    (alert_lifecycle_metrics a) cp tr st (maintenance_windows a) rh.

(** The five recognised severities, each with an empty counter. *)
Definition five_severities : list string := ["Sev0"; "Sev1"; "Sev2"; "Sev3"; "Sev4"]%string.

Definition empty_top_alerts : gmap string (gmap string nat) :=
  list_to_map (map (fun s => (s, ∅)) five_severities).

(** Lines 21-50: the initial containers. *)
Definition init (activity_alerts alert_history : list alert) : analysis :=
  {| total_alerts := (length activity_alerts + length alert_history)%nat;
     severity_breakdown := ∅;
     alert_state_breakdown := ∅;
     alert_state_by_severity := ∅;
     resource_type_breakdown := ∅;
     resource_group_breakdown := ∅;
     hourly_distribution := ∅;
     daily_distribution := ∅;
     top_alerting_resources := [];
     top_alerts_by_severity := empty_top_alerts;
     alert_lifecycle_metrics := mk_lifecycle 0 0 0 0 0;
     correlation_patterns := [];
     tuning_recommendations := [];
     alert_storms := [];
     maintenance_windows := [];
     resource_health_alerts := [] |}.

Section Runtime.

(** What the code takes from the Python runtime and the model leaves open:
    the parser of [datetime.fromisoformat] ([None] for [ValueError]), the
    rendering [str(v)] of a value that is not a string, [strftime] with the
    format [%Y-%m-%d], and the order in which [list(set(xs))] enumerates. *)
Variable fromisoformat : string → option datetime.
Variable py_repr : json → string.
Variable strftime_ymd : datetime → string.
Variable set_iter : list string → list string.

(** [str(v)] *)
Definition py_str (v : json) : string :=
  match v with
  | JStr s => s
  | _ => py_repr v
  end.

(** Lines 62-66 and 123-126: the key under which a truthy resource type is
    counted. *)
Definition resource_type_str (v : json) : json :=
  match v with
  | JObj d =>
      py_or (py_or (get "value" d) (get "localizedValue" d)) (JStr (py_str v))
  | _ => JStr (py_str v)
  end.

(** Lines 61-67 and 122-127. *)
Definition count_resource_type (v : json) (a : analysis) : res analysis :=
  if truthy v then
    k ← hash_key (resource_type_str v);
    Ok (with_resource_type (incr k) a)
  else Ok a.

(** An optional update: the body of an [if] without [else]. *)
Definition when {K} (o : option K) (f : K → analysis → analysis)
    (a : analysis) : analysis :=
  match o with
  | Some k => f k a
  | None => a
  end.

(** Lines 81-89 and 139-147: the guarded parse of a timestamp. *)
Definition parse_time (v : json) : option datetime :=
  match nonempty_str v with
  | Some ts => fromisoformat (replace_Z ts)
  | None => None
  end.

Definition count_time (v : json) (a : analysis) : analysis :=
  when (parse_time v)
    (fun dt => with_time (incr (hour dt)) (incr (strftime_ymd dt))) a.

(** Lines 53-89: the body of the loop over [activity_alerts]. *)
Definition activity_step (a : analysis) (x : alert) : res analysis :=
  let a := when (nonempty_str (get "level" x))
             (fun level => with_severity (incr level)) a in
  a ← count_resource_type (get "resourceType" x) a;
  let a := when (nonempty_str (get "resourceGroup" x))
             (fun rg => with_resource_group (incr rg)) a in
  let a := when (nonempty_str (get "resourceId" x))
             (fun rid => with_top_resources (oincr rid)) a in
  Ok (count_time (get "timestamp" x) a).

(** Lines 113-118. *)
Definition count_lifecycle (alert_state : string) (l : lifecycle) : lifecycle :=
  if String.eqb alert_state "New" then
    mk_lifecycle (S (new_alerts l)) (acknowledged_alerts l) (closed_alerts l)
      (avg_time_to_acknowledge l) (avg_time_to_close l)
  else if String.eqb alert_state "Acknowledged" then
    mk_lifecycle (new_alerts l) (S (acknowledged_alerts l)) (closed_alerts l)
      (avg_time_to_acknowledge l) (avg_time_to_close l)
  else if String.eqb alert_state "Closed" then
    mk_lifecycle (new_alerts l) (acknowledged_alerts l) (S (closed_alerts l))
      (avg_time_to_acknowledge l) (avg_time_to_close l)
  else l.

(** Lines 99-101: [alert_name] is a string and [severity] is a key of the
    per-severity dictionary. *)
Definition count_top_alert (severity : string) (alert_name : json)
    (t : gmap string (gmap string nat)) : gmap string (gmap string nat) :=
  match alert_name, t !! severity with
  | JStr name, Some c => <[severity := incr name c]> t
  | _, _ => t
  end.

(** Lines 92-147: the body of the loop over [alert_history]. *)
Definition history_step (a : analysis) (x : alert) : res analysis :=
  let severity := nonempty_str (get "severity" x) in
  let a := when severity
             (fun sev a =>
                with_top_alerts
                  (count_top_alert sev (get_or "name" (JStr "Unknown Alert") x))
                  (with_severity (incr sev) a)) a in
  let a := when (nonempty_str (get "alertState" x))
             (fun st a =>
                let a := with_state (incr st) a in
                let a := when severity
                           (fun sev => with_state_by_severity (incr2 sev st)) a in
                with_lifecycle (count_lifecycle st) a) a in
  a ← count_resource_type (get "targetResourceType" x) a;
  let a := when (nonempty_str (get "targetResourceGroup" x))
             (fun rg => with_resource_group (incr rg)) a in
  let a := when (nonempty_str (get "targetResource" x))
             (fun r => with_top_resources (oincr r)) a in
  Ok (count_time (get "startDateTime" x) a).

(** Lines 169-171: a dictionary in a detail field is replaced by its value. *)
Definition flatten_field (v : json) : json :=
  match v with
  | JObj d =>
      py_or (py_or (get "value" d) (get "localizedValue" d)) (JStr (py_str v))
  | _ => v
  end.

(** Lines 150-173: the details of the resource-health alerts. *)
Definition health_detail (x : alert) : option resource_health_detail :=
  match py_or (get "name" x) (get_or "alertRule" (JStr "") x) with
  | JStr alert_name =>
      if contains "ResourceHealthUnhealthyAlert" alert_name then
        Some {|
          rh_alert_id := py_or (get "alertId" x) (get_or "id" (JStr "Unknown") x);
          rh_name := alert_name;
          rh_severity :=
            flatten_field
              (py_or (get "severity" x) (get_or "level" (JStr "Unknown") x));
          rh_state := py_or (get "alertState" x) (JStr "Unknown");
          rh_resource :=
            py_or (get "targetResource" x) (get_or "resourceId" (JStr "Unknown") x);
          rh_resource_type :=
            flatten_field
              (py_or (get "targetResourceType" x)
                     (get_or "resourceType" (JStr "Unknown") x));
          rh_resource_group :=
            py_or (get "targetResourceGroup" x)
                  (get_or "resourceGroup" (JStr "Unknown") x);
          rh_start_time :=
            py_or (get "startDateTime" x) (get_or "timestamp" (JStr "Unknown") x);
          rh_last_modified := get_or "lastModifiedDateTime" (JStr "Unknown") x;
          rh_description := get_or "description" (JStr "No description available") x;
          rh_monitor_condition := get_or "monitorCondition" (JStr "Unknown") x;
          rh_monitor_service := get_or "monitorService" (JStr "ResourceHealth") x
        |}
      else None
  | _ => None
  end.

Definition collect_resource_health (alerts : list alert) : list resource_health_detail :=
  omap health_detail alerts.

(** Lines 190-194 and 234-238: the resource identifiers of a group. *)
Definition resource_ids (alerts : list alert) : list string :=
  omap (fun a => nonempty_str (get "resourceId" a)) alerts.

(** Lines 176-185: the activity alerts by 5-minute window, in the order in
    which the windows are first met. *)
Definition time_windows (activity_alerts : list alert) : list (datetime * list alert) :=
  fold_left
    (fun groups x =>
       match parse_time (get "timestamp" x) with
       | Some dt => group_append dt_eqb (window_of dt) x groups
       | None => groups
       end)
    activity_alerts [].

(** Lines 187-200. *)
Definition storm_of (g : datetime * list alert) : option alert_storm :=
  let '(window, alerts) := g in
  if (10 <? length alerts)%nat then
    Some {| storm_time := window;
            storm_count := length alerts;
            storm_resources := take 5 (set_iter (resource_ids alerts)) |}
  else None.

Definition detect_alert_storms (activity_alerts : list alert) : list alert_storm :=
  omap storm_of (time_windows activity_alerts).

(** Lines 207-213: the low-severity activity alerts of one resource. *)
Definition is_low_severity (resource : string) (a : alert) : bool :=
  match get "resourceId" a, get "level" a with
  | JStr resource_id, JStr level =>
      String.eqb resource_id resource
      && (String.eqb level "Warning" || String.eqb level "Informational")
  | _, _ => false
  end.

Definition low_sev_count (resource : string) (activity_alerts : list alert) : nat :=
  length (filter (fun a => is_low_severity resource a = true) activity_alerts).

(** Line 215: [low_sev_count > count * 0.7 and count > 5]. *)
Definition tuning_flag (low count : nat) : bool :=
  int_gt_float (Z.of_nat low) (float_mul (float_of_int (Z.of_nat count)) float_0_7)
  && (5 <? count)%nat.

(** Lines 204-222. *)
Definition recommend (activity_alerts : list alert) (e : string * nat)
    : option tuning_recommendation :=
  let '(resource, count) := e in
  if tuning_flag (low_sev_count resource activity_alerts) count then
    Some {| resource := resource;
            alert_count := count;
            recommendation :=
              "Consider adjusting thresholds or reducing alert sensitivity" |}
  else None.

Definition tuning (top : list (string * nat)) (activity_alerts : list alert)
    : list tuning_recommendation :=
  omap (recommend activity_alerts) (most_common 20 top).

(** Lines 225-229: the activity alerts by correlation identifier. *)
Definition correlation_groups (activity_alerts : list alert) : list (string * list alert) :=
  fold_left
    (fun groups x =>
       match nonempty_str (get "correlationId" x) with
       | Some correlation_id => group_append String.eqb correlation_id x groups
       | None => groups
       end)
    activity_alerts [].

(** Lines 231-245. *)
Definition pattern_of (g : string * list alert) : option correlation_pattern :=
  let '(corr_id, alerts) := g in
  if (2 <? length alerts)%nat then
    Some {| correlation_id := corr_id;
            pattern_alert_count := length alerts;
            pattern_resources := take 5 (set_iter (resource_ids alerts));
            time_span := "Multiple related alerts" |}
  else None.

Definition detect_correlations (activity_alerts : list alert) : list correlation_pattern :=
  omap pattern_of (correlation_groups activity_alerts).

(** Lines 14-247. *)
Definition analyze_alerts (activity_alerts alert_history : list alert) : res analysis :=
  a ← for_each activity_step activity_alerts (init activity_alerts alert_history);
  a ← for_each history_step alert_history a;
  Ok (with_details
        (detect_correlations activity_alerts)
        (tuning (top_alerting_resources a) activity_alerts)
        (detect_alert_storms activity_alerts)
        (collect_resource_health (activity_alerts ++ alert_history))
        a).

End Runtime.

(** *** The figures of [generate_report]

    The report is a list of text lines; the model keeps the numbers the lines
    print, in the order in which the source computes them.  The two tables
    are listed in the order of [map_to_list] (the source lists them by
    decreasing count); the bar charts, which divide by the largest bucket of
    a distribution, and the formatting are not modelled. *)

(** Lines 267 and 275:
    [(count / total_alerts * 100) if total_alerts > 0 else 0]. *)
Definition percentage (count total : Z) : res pynum :=
  if 0 <? total then
    q ← py_truediv count total;
    Ok (PFloat (float_mul q (float_of_int 100)))
  else Ok (PInt 0).

Definition percentage_table (m : gmap string nat) (total : nat)
    : res (list (string * nat * pynum)) :=
  mapM (fun kc : string * nat =>
          p ← percentage (Z.of_nat (snd kc)) (Z.of_nat total);
          Ok (fst kc, snd kc, p))
       (map_to_list m).

(** Lines 286-291: a rate is printed only when there are new alerts. *)
Definition lifecycle_rate (n new : nat) : res (option spec_float) :=
  if (0 <? new)%nat then
    q ← py_truediv (Z.of_nat n) (Z.of_nat new);
    Ok (Some (float_mul q (float_of_int 100)))
  else Ok None.

Record report : Type := mk_report {
  average_alerts_per_day : spec_float;
  severity_table : list (string * nat * pynum);
  state_table : list (string * nat * pynum);
  acknowledgment_rate : option spec_float;
  resolution_rate : option spec_float;
  high_alert_volume : bool;
  low_sev_percentage : spec_float;
  many_correlation_patterns : bool
}.

(** Lines 249-395. *)
Definition generate_report (a : analysis) (days_back : Z) : res report :=
  let total := total_alerts a in
  let lc := alert_lifecycle_metrics a in
  avg ← py_truediv (Z.of_nat total) days_back;
  sev ← percentage_table (severity_breakdown a) total;
  st ← percentage_table (alert_state_breakdown a) total;
  ack ← lifecycle_rate (acknowledged_alerts lc) (new_alerts lc);
  close ← lifecycle_rate (closed_alerts lc) (new_alerts lc);
  avg' ← py_truediv (Z.of_nat total) days_back;
  low ← py_truediv
          (Z.of_nat (default 0%nat (severity_breakdown a !! "Warning")
                     + default 0%nat (severity_breakdown a !! "Informational")))
          (Z.max (Z.of_nat total) 1);
  Ok {| average_alerts_per_day := avg;
        severity_table := sev;
        state_table := st;
        acknowledgment_rate := ack;
        resolution_rate := close;
        high_alert_volume := float_gt_int avg' 100;
        low_sev_percentage := float_mul low (float_of_int 100);
        many_correlation_patterns := (5 <? length (correlation_patterns a))%nat |}.

End Analyzer.

(** ** [analyze_alerts.py], run 20250822_132921: the two breakdown loops *)

Module Analyzer0.

Record breakdowns : Type := mk_breakdowns {
  severity_breakdown : gmap pykey nat;
  resource_type_breakdown : gmap pykey nat;
  resource_group_breakdown : gmap pykey nat;
  top_alerting_resources : gmap pykey nat;
  hourly_distribution : gmap Z nat;
  daily_distribution : gmap string nat
}.

(** Lines 23-28. *)
Definition init : breakdowns := mk_breakdowns ∅ ∅ ∅ ∅ ∅ ∅.

(** [d[k]] *)
Definition getitem (k : string) (d : alert) : res json :=
  match d !! k with
  | Some v => Ok v
  | None => Err KeyError
  end.

(** [if v: c[v] += 1] *)
Definition count_if_truthy (v : json) (c : gmap pykey nat) : res (gmap pykey nat) :=
  if truthy v then k ← hash_key v; Ok (incr k c) else Ok c.

Section Runtime.

Variable fromisoformat : string → option datetime.
Variable strftime_ymd : datetime → string.

(** Lines 47-52: the timestamp is parsed outside any [try]. *)
Definition count_time (v : json) (h : gmap Z nat) (d : gmap string nat)
    : res (gmap Z nat * gmap string nat) :=
  if truthy v then
    match v with
    | JStr ts =>
        match fromisoformat (replace_Z ts) with
        | Some dt => Ok (incr (hour dt) h, incr (strftime_ymd dt) d)
        | None => Err ValueError
        end
    | _ => Err AttributeError
    end
  else Ok (h, d).

(** Lines 36-52: the body of the loop over [activity_alerts]. *)
Definition activity_step (b : breakdowns) (x : alert) : res breakdowns :=
  level ← getitem "level" x;
  sev ← count_if_truthy level (severity_breakdown b);
  resource_type ← getitem "resourceType" x;
  rt ← count_if_truthy resource_type (resource_type_breakdown b);
  resource_group ← getitem "resourceGroup" x;
  rg ← count_if_truthy resource_group (resource_group_breakdown b);
  resource_id ← getitem "resourceId" x;
  top ← count_if_truthy resource_id (top_alerting_resources b);
  timestamp ← getitem "timestamp" x;
  hd ← count_time timestamp (hourly_distribution b) (daily_distribution b);
  Ok (mk_breakdowns sev rt rg top hd.1 hd.2).

(** Lines 55-63: the body of the loop over [alert_history]. *)
Definition history_step (b : breakdowns) (x : alert) : res breakdowns :=
  sev ← count_if_truthy (get "severity" x) (severity_breakdown b);
  rt ← count_if_truthy (get "targetResourceType" x) (resource_type_breakdown b);
  rg ← count_if_truthy (get "targetResourceGroup" x) (resource_group_breakdown b);
  top ← count_if_truthy (get "targetResource" x) (top_alerting_resources b);
  Ok (mk_breakdowns sev rt rg top (hourly_distribution b) (daily_distribution b)).

(** Lines 36-63. *)
Definition breakdown_loops (activity_alerts alert_history : list alert) : res breakdowns :=
  b ← for_each activity_step activity_alerts init;
  for_each history_step alert_history b.

End Runtime.

End Analyzer0.

(** ** [create_consolidated_dashboard.py], run 20250822_171957 *)

Module Rollup.

(** [analysis_data.json] of one subscription as [load_json_file] returns it;
    a key the file does not have is [None].  The counts are integers. *)
Record lifecycle_data : Type := mk_lifecycle_data {
  ld_new_alerts : option Z;
  ld_acknowledged_alerts : option Z;
  ld_closed_alerts : option Z
}.

Record sub_data : Type := mk_sub_data {
  sd_total_alerts : option Z;
  sd_severity_breakdown : option (gmap string Z);
  sd_alert_state_breakdown : option (gmap string Z);
  sd_alert_state_by_severity : option (gmap string (gmap string Z));
  sd_alert_lifecycle_metrics : option lifecycle_data;
  sd_top_alerts_by_severity : option (gmap string (gmap string Z));
  sd_resource_type_breakdown : option (gmap string Z);
  sd_resource_group_breakdown : option (gmap string Z);
  sd_top_alerting_resources : option (gmap string Z)
}.

(** One subscription directory: its name, the identity lines 57-69 read from
    the sidecar file, and the analysis file when it exists. *)
Record subscription : Type := mk_subscription {
  sub_dir : string;
  sub_name : string;
  sub_id : string;
  analysis_file : option sub_data
}.

Record summary : Type := mk_summary {
  name : string;
  id : string;
  directory : string;
  summary_total_alerts : Z;
  summary_severity_breakdown : gmap string Z;
  has_data : bool
}.

Record lifecycle : Type := mk_lifecycle {
  new_alerts : Z;
  acknowledged_alerts : Z;
  closed_alerts : Z
}.

Record consolidated : Type := mk_consolidated {
  total_alerts : Z;
  severity_breakdown : gmap string Z;
  alert_state_breakdown : gmap string Z;
  alert_state_by_severity : gmap string (gmap string Z);
  alert_lifecycle_metrics : lifecycle;
  top_alerts_by_severity : gmap string (gmap string Z);
  resource_type_breakdown : gmap string Z;
  resource_group_breakdown : gmap string Z;
  top_alerting_resources : gmap string Z;
  hourly_distribution : gmap Z Z;
  daily_distribution : gmap string Z;
  correlation_patterns : list json;
  tuning_recommendations : list json;
  alert_storms : list json;
  subscription_summary : list summary
}.

Definition five_severities : list string := ["Sev0"; "Sev1"; "Sev2"; "Sev3"; "Sev4"]%string.

(** Lines 21-47. *)
Definition init : consolidated :=
  {| total_alerts := 0;
     severity_breakdown := ∅;
     alert_state_breakdown := ∅;
     alert_state_by_severity := ∅;
     alert_lifecycle_metrics := mk_lifecycle 0 0 0;
     top_alerts_by_severity := list_to_map (map (fun s => (s, ∅)) five_severities);
     resource_type_breakdown := ∅;
     resource_group_breakdown := ∅;
     top_alerting_resources := ∅;
     hourly_distribution := ∅;
     daily_distribution := ∅;
     correlation_patterns := [];
     tuning_recommendations := [];
     alert_storms := [];
     subscription_summary := [] |}.

(** [c[k] += count] on a [Counter] or a [defaultdict(int)]. *)
Definition add_count (k : string) (count : Z) (c : gmap string Z) : gmap string Z :=
  <[k := default 0 (c !! k) + count]> c.

(** [for k, count in sub.items(): c[k] += count] *)
Definition add_counts (sub c : gmap string Z) : gmap string Z :=
  map_fold add_count c sub.

(** [c[k1][k2] += count] on a [defaultdict] of [defaultdict(int)]. *)
Definition add_count2 (k1 k2 : string) (count : Z)
    (c : gmap string (gmap string Z)) : gmap string (gmap string Z) :=
  <[k1 := add_count k2 count (default ∅ (c !! k1))]> c.

(** Lines 89-91. *)
Definition add_counts2 (sub c : gmap string (gmap string Z)) : gmap string (gmap string Z) :=
  map_fold (fun severity states c => map_fold (add_count2 severity) c states) c sub.

(** Lines 100-103: only the five recognised severities are merged; each is a
    key of the consolidated dictionary from the start. *)
Definition add_top_alerts (sub c : gmap string (gmap string Z)) : gmap string (gmap string Z) :=
  fold_left
    (fun c severity =>
       match sub !! severity with
       | Some names => alter (add_counts names) severity c
       | None => c
       end)
    five_severities c.

(** Lines 94-97. *)
Definition add_lifecycle (sub : lifecycle_data) (l : lifecycle) : lifecycle :=
  {| new_alerts := new_alerts l + default 0 (ld_new_alerts sub);
     acknowledged_alerts := acknowledged_alerts l + default 0 (ld_acknowledged_alerts sub);
     closed_alerts := closed_alerts l + default 0 (ld_closed_alerts sub) |}.

Definition no_lifecycle : lifecycle_data := mk_lifecycle_data None None None.

(** Lines 54-134: the body of the loop over the subscription directories. *)
Definition step (c : consolidated) (s : subscription) : consolidated :=
  match analysis_file s with
  | Some d =>
      let sub_alerts := default 0 (sd_total_alerts d) in
      {| total_alerts := total_alerts c + sub_alerts;
         severity_breakdown :=
           add_counts (default ∅ (sd_severity_breakdown d)) (severity_breakdown c);
         alert_state_breakdown :=
           add_counts (default ∅ (sd_alert_state_breakdown d)) (alert_state_breakdown c);
         alert_state_by_severity :=
           add_counts2 (default ∅ (sd_alert_state_by_severity d))
             (alert_state_by_severity c);
         alert_lifecycle_metrics :=
           add_lifecycle (default no_lifecycle (sd_alert_lifecycle_metrics d))
             (alert_lifecycle_metrics c);
         top_alerts_by_severity :=
           add_top_alerts (default ∅ (sd_top_alerts_by_severity d))
             (top_alerts_by_severity c);
         resource_type_breakdown :=
           add_counts (default ∅ (sd_resource_type_breakdown d))
             (resource_type_breakdown c);
         resource_group_breakdown :=
           add_counts (default ∅ (sd_resource_group_breakdown d))
             (resource_group_breakdown c);
         top_alerting_resources :=
           add_counts (default ∅ (sd_top_alerting_resources d))
             (top_alerting_resources c);
         hourly_distribution := hourly_distribution c;
         daily_distribution := daily_distribution c;
         correlation_patterns := correlation_patterns c;
         tuning_recommendations := tuning_recommendations c;
         alert_storms := alert_storms c;
         subscription_summary :=
           subscription_summary c ++
           [ {| name := sub_name s; id := sub_id s; directory := sub_dir s;
                summary_total_alerts := sub_alerts;
                summary_severity_breakdown := default ∅ (sd_severity_breakdown d);
                has_data := 0 <? sub_alerts |} ] |}
  | None =>
      {| total_alerts := total_alerts c;
         severity_breakdown := severity_breakdown c;
         alert_state_breakdown := alert_state_breakdown c;
         alert_state_by_severity := alert_state_by_severity c;
         alert_lifecycle_metrics := alert_lifecycle_metrics c;
         top_alerts_by_severity := top_alerts_by_severity c;
         resource_type_breakdown := resource_type_breakdown c;
         resource_group_breakdown := resource_group_breakdown c;
         top_alerting_resources := top_alerting_resources c;
         hourly_distribution := hourly_distribution c;
         daily_distribution := daily_distribution c;
         correlation_patterns := correlation_patterns c;
         tuning_recommendations := tuning_recommendations c;
         alert_storms := alert_storms c;
         subscription_summary :=
           subscription_summary c ++
           [ {| name := sub_name s; id := sub_id s; directory := sub_dir s;
                summary_total_alerts := 0;
                summary_severity_breakdown := ∅;
                has_data := false |} ] |}
  end.

(** Lines 17-156: the conversions of lines 136-154 from [Counter] to [dict]
    change no key and no count. *)
Definition aggregate_subscription_data (subs : list subscription) : consolidated :=
  fold_left step subs init.

(** The tenant document without its list of summaries: the scalar and the
    keyed counts. *)
Definition totals (c : consolidated) : consolidated :=
  {| total_alerts := total_alerts c;
     severity_breakdown := severity_breakdown c;
     alert_state_breakdown := alert_state_breakdown c;
     alert_state_by_severity := alert_state_by_severity c;
     alert_lifecycle_metrics := alert_lifecycle_metrics c;
     top_alerts_by_severity := top_alerts_by_severity c;
     resource_type_breakdown := resource_type_breakdown c;
     resource_group_breakdown := resource_group_breakdown c;
     top_alerting_resources := top_alerting_resources c;
     hourly_distribution := hourly_distribution c;
     daily_distribution := daily_distribution c;
     correlation_patterns := correlation_patterns c;
     tuning_recommendations := tuning_recommendations c;
     alert_storms := alert_storms c;
     subscription_summary := [] |}.

(** A tenant document written to JSON and read back as the analysis data of
    a subscription: every key is present. *)
Definition as_subscription (dir : string) (c : consolidated) : subscription :=
  {| sub_dir := dir; sub_name := "Unknown"; sub_id := "Unknown";
     analysis_file :=
       Some {| sd_total_alerts := Some (total_alerts c);
               sd_severity_breakdown := Some (severity_breakdown c);
               sd_alert_state_breakdown := Some (alert_state_breakdown c);
               sd_alert_state_by_severity := Some (alert_state_by_severity c);
               sd_alert_lifecycle_metrics :=
                 Some {| ld_new_alerts := Some (new_alerts (alert_lifecycle_metrics c));
                         ld_acknowledged_alerts :=
                           Some (acknowledged_alerts (alert_lifecycle_metrics c));
                         ld_closed_alerts :=
                           Some (closed_alerts (alert_lifecycle_metrics c)) |};
               sd_top_alerts_by_severity := Some (top_alerts_by_severity c);
               sd_resource_type_breakdown := Some (resource_type_breakdown c);
               sd_resource_group_breakdown := Some (resource_group_breakdown c);
               sd_top_alerting_resources := Some (top_alerting_resources c) |} |}.

(** Lines 308 and 319 of [create_consolidated_dashboard]:
    [(count / total_alerts * 100) if total_alerts > 0 else 0]. *)
Definition percentage (count total : Z) : res pynum :=
  if 0 <? total then
    q ← py_truediv count total;
    Ok (PFloat (float_mul q (float_of_int 100)))
  else Ok (PInt 0).

End Rollup.

(** ** A reference runtime for the worked examples

    The theorems below hold for every parser, rendering and enumeration
    order.  The examples fix them: the parser reads the timestamps of the
    form [YYYY-MM-DDTHH:MM:SS], optionally followed by [+HH:MM] or [-HH:MM],
    and returns on them what [datetime.fromisoformat] returns; the rendering
    is exact on [None], the booleans and the integers; a set is enumerated
    in the order of first occurrence. *)

Module Reference.

Definition digit (c : ascii) : option Z :=
  let n := Z.of_nat (nat_of_ascii c) in
  if (48 <=? n) && (n <=? 57) then Some (n - 48) else None.

(** Exactly [n] decimal digits. *)
Fixpoint digits (n : nat) (acc : Z) (s : string) : option (Z * string) :=
  match n with
  | O => Some (acc, s)
  | S n' =>
      match s with
      | String c s' => d ← digit c; digits n' (acc * 10 + d) s'
      | EmptyString => None
      end
  end.

Definition expect (c : ascii) (s : string) : option string :=
  match s with
  | String c' s' => if Ascii.eqb c c' then Some s' else None
  | EmptyString => None
  end.

Definition days_in_month (y m : Z) : Z :=
  if (m =? 2) && is_leap y then 29
  else nth (Z.to_nat m) [0; 31; 28; 31; 30; 31; 30; 31; 31; 30; 31; 30; 31] 0.

Definition utc_offset (s : string) : option (option Z) :=
  match s with
  | EmptyString => Some None
  | String c s' =>
      sign ← (if Ascii.eqb c "+" then Some 1
              else if Ascii.eqb c "-" then Some (-1) else None);
      '(h, s1) ← digits 2 0 s';
      s2 ← expect ":" s1;
      '(m, s3) ← digits 2 0 s2;
      if String.eqb s3 "" && (h <? 24) && (m <? 60)
      then Some (Some (sign * (h * 60 + m) * 60 * 1000000))
      else None
  end.

Definition fromisoformat (s : string) : option datetime :=
  '(y, s) ← digits 4 0 s;
  s ← expect "-" s;
  '(mo, s) ← digits 2 0 s;
  s ← expect "-" s;
  '(d, s) ← digits 2 0 s;
  s ← expect "T" s;
  '(h, s) ← digits 2 0 s;
  s ← expect ":" s;
  '(mi, s) ← digits 2 0 s;
  s ← expect ":" s;
  '(sec, s) ← digits 2 0 s;
  tz ← utc_offset s;
  if (1 <=? y) && (1 <=? mo) && (mo <=? 12) && (1 <=? d) && (d <=? days_in_month y mo)
     && (h <? 24) && (mi <? 60) && (sec <? 60)
  then Some (mk_datetime y mo d h mi sec 0 tz)
  else None.

Definition py_repr (v : json) : string :=
  match v with
  | JNull => "None"
  | JBool true => "True"
  | JBool false => "False"
  | JNum n => pretty n
  | JStr s => s
  | JArr _ => "[...]"
  | JObj _ => "{...}"
  end.

Definition two_digits (n : Z) : string :=
  if n <? 10 then ("0" ++ pretty n)%string else pretty n.

Definition strftime_ymd (t : datetime) : string :=
  (pretty (year t) ++ "-" ++ two_digits (month t) ++ "-" ++ two_digits (day t))%string.

Definition set_iter (xs : list string) : list string := remove_dups xs.

Definition analyze_alerts : list alert → list alert → res Analyzer.analysis :=
  Analyzer.analyze_alerts fromisoformat py_repr strftime_ymd set_iter.

(** [n] copies of one record. *)
Definition copies (n : nat) (x : alert) : list alert := replicate n x.

Definition activity (rid level ts corr : string) : alert :=
  {[ "resourceId" := JStr rid; "level" := JStr level;
     "timestamp" := JStr ts; "correlationId" := JStr corr ]}.

Definition history (target severity corr : string) : alert :=
  {[ "targetResource" := JStr target; "severity" := JStr severity;
     "correlationId" := JStr corr ]}.

(** Two subscriptions with analysis data, and one without. *)
Definition analysis_data (total : Z) (severities : gmap string Z)
    (states : gmap string (gmap string Z)) : Rollup.sub_data :=
  {| Rollup.sd_total_alerts := Some total;
     Rollup.sd_severity_breakdown := Some severities;
     Rollup.sd_alert_state_breakdown := None;
     Rollup.sd_alert_state_by_severity := Some states;
     Rollup.sd_alert_lifecycle_metrics := None;
     Rollup.sd_top_alerts_by_severity := None;
     Rollup.sd_resource_type_breakdown := None;
     Rollup.sd_resource_group_breakdown := None;
     Rollup.sd_top_alerting_resources := None |}.

Definition subscription_a : Rollup.subscription :=
  {| Rollup.sub_dir := "subscription_1"; Rollup.sub_name := "A"; Rollup.sub_id := "1";
     Rollup.analysis_file :=
       Some (analysis_data 2 {[ "Sev1" := 2 ]} {[ "Sev1" := {[ "New" := 2 ]} ]}) |}.

Definition subscription_b : Rollup.subscription :=
  {| Rollup.sub_dir := "subscription_2"; Rollup.sub_name := "B"; Rollup.sub_id := "2";
     Rollup.analysis_file :=
       Some (analysis_data 4 {[ "Sev1" := 3; "Sev2" := 1 ]}
               {[ "Sev1" := {[ "New" := 1; "Closed" := 2 ]}; "Sev2" := ∅ ]}) |}.

Definition subscription_c : Rollup.subscription :=
  {| Rollup.sub_dir := "subscription_3"; Rollup.sub_name := "Unknown";
     Rollup.sub_id := "Unknown"; Rollup.analysis_file := None |}.

End Reference.

(** ** Vocabulary of the statements *)

(** One round of a grouping loop: the element joins the group of its key,
    when it has one. *)
Definition group_step {K A} (eqb : K → K → bool) (key : A → option K)
    (groups : list (K * list A)) (x : A) : list (K * list A) :=
  match key x with
  | Some k => group_append eqb k x groups
  | None => groups
  end.

(** The elements of [xs] whose key is [k], keys compared by [eqb]. *)
Definition has_key {K A} (eqb : K → K → bool) (key : A → option K) (k : K) (x : A) : bool :=
  match key x with
  | Some k' => eqb k' k
  | None => false
  end.

Definition members {K A} (eqb : K → K → bool) (key : A → option K) (k : K)
    (xs : list A) : list A :=
  filter (fun x => has_key eqb key k x = true) xs.

(** The key under which the group of [k] is stored: the key of its first
    member. *)
Definition stored_key {K A} (key : A → option K) (k : K) (ms : list A) : K :=
  match ms with
  | x :: _ => default k (key x)
  | [] => k
  end.

(** An optional increment of a counter. *)
Definition bump `{Countable K} (o : option K) (c : gmap K nat) : gmap K nat :=
  match o with
  | Some k => incr k c
  | None => c
  end.

(** The window an activity alert falls in, when its timestamp parses. *)
Definition window_key (fromisoformat : string → option datetime) (x : alert)
    : option datetime :=
  window_of <$> Analyzer.parse_time fromisoformat (get "timestamp" x).

(** The correlation identifier of an activity alert, when it has one. *)
Definition correlation_key (x : alert) : option string :=
  nonempty_str (get "correlationId" x).

(** A resource type under which the loops can count: it is falsy, or the
    key it resolves to is hashable. *)
Definition countable_resource_type (py_repr : json → string) (v : json) : bool :=
  negb (truthy v)
  || match hash_key (Analyzer.resource_type_str py_repr v) with
     | Ok _ => true
     | Err _ => false
     end.

(** The inputs on which the two breakdown loops of run 20250822_171957 raise
    nothing. *)
Definition countable_input (py_repr : json → string)
    (activity_alerts alert_history : list alert) : bool :=
  forallb (fun x => countable_resource_type py_repr (get "resourceType" x))
    activity_alerts
  && forallb (fun x => countable_resource_type py_repr (get "targetResourceType" x))
       alert_history.

(** The alert names the resource [r] in its [resourceId]. *)
Definition names_resource (r : string) (x : alert) : bool :=
  match get "resourceId" x with
  | JStr s => String.eqb s r
  | _ => false
  end.

(** The sign of a float is not negative. *)
Definition nonneg_float (f : spec_float) : Prop :=
  match f with
  | S754_zero s | S754_infinity s | S754_finite s _ _ => s = false
  | S754_nan => True
  end.

(** The key under which a resource type is counted, when it is counted. *)
Definition resource_type_key (py_repr : json → string) (v : json) : option pykey :=
  if truthy v then
    match hash_key (Analyzer.resource_type_str py_repr v) with
    | Ok k => Some k
    | Err _ => None
    end
  else None.

(** An optional increment of a counter in insertion order. *)
Definition obump (o : option string) (c : list (string * nat)) : list (string * nat) :=
  match o with
  | Some k => oincr k c
  | None => c
  end.

(** The number of elements that satisfy a test. *)
Definition count_if {A} (p : A → bool) (xs : list A) : nat :=
  length (filter (fun x => p x = true) xs).

(** The severity of a history alert and the level of an activity alert, when
    they are non-empty strings. *)
Definition history_severity (x : alert) : option string :=
  nonempty_str (get "severity" x).

Definition activity_level (x : alert) : option string :=
  nonempty_str (get "level" x).

(** The name under which a history alert is counted: its [name] when that
    is a string, ["Unknown Alert"] when it has no [name] key. *)
Definition history_name (x : alert) : option string :=
  match get_or "name" (JStr "Unknown Alert") x with
  | JStr n => Some n
  | _ => None
  end.

Definition named_alert (severity name : string) (x : alert) : bool :=
  bool_decide (history_severity x = Some severity ∧ history_name x = Some name).

(** The count of [name] under [severity] in a two-level counter. *)
Definition top_count (t : gmap string (gmap string nat)) (severity name : string) : nat :=
  default 0%nat (t !! severity ≫= fun c => c !! name).

(** The time buckets of a list of parsed timestamps. *)
Definition hour_counts (ts : list (option datetime)) : gmap Z nat :=
  fold_left (fun h o => bump (hour <$> o) h) ts ∅.

Definition day_counts (strftime_ymd : datetime → string) (ts : list (option datetime))
    : gmap string nat :=
  fold_left (fun d o => bump (strftime_ymd <$> o) d) ts ∅.

(** The parsed timestamps of a list of alerts, read from [field]. *)
Definition times (fromisoformat : string → option datetime) (field : string)
    (xs : list alert) : list (option datetime) :=
  map (fun x => Analyzer.parse_time fromisoformat (get field x)) xs.

Definition has_level (severity : string) (x : alert) : bool :=
  bool_decide (activity_level x = Some severity).

Definition has_severity (severity : string) (x : alert) : bool :=
  bool_decide (history_severity x = Some severity).

(** Lines 94-101 as a function of the per-severity dictionary. *)
Definition top_alerts_step (t : gmap string (gmap string nat)) (x : alert)
    : gmap string (gmap string nat) :=
  match history_severity x with
  | Some sev => Analyzer.count_top_alert sev (get_or "name" (JStr "Unknown Alert") x) t
  | None => t
  end.

(** *** Vocabulary of the rollup *)

(** The sum of two optional counts: a missing one adds nothing. *)
Definition osum (a b : option Z) : option Z :=
  union_with (fun x y => Some (x + y)) a b.

(** What lines 89-91 do to the states of one severity: an empty dictionary
    of states leaves the consolidated entry as it is, even when missing. *)
Definition nmerge (oc os : option (gmap string Z)) : option (gmap string Z) :=
  match os with
  | Some states =>
      if decide (states = ∅) then oc
      else Some (Rollup.add_counts states (default ∅ oc))
  | None => oc
  end.

(** What lines 100-103 do to the names of one recognised severity. *)
Definition tmerge (oc os : option (gmap string Z)) : option (gmap string Z) :=
  match os with
  | Some names => Rollup.add_counts names <$> oc
  | None => oc
  end.

(** The sum of the values of [f] over a list. *)
Definition zsum {A} (f : A → Z) (l : list A) : Z := fold_right Z.add 0 (map f l).

(** What a subscription brings: its total, its counting maps, its lifecycle
    counters; nothing when the file or the key is missing. *)
Definition doc_total (s : Rollup.subscription) : Z :=
  default 0 (Rollup.analysis_file s ≫= Rollup.sd_total_alerts).

Definition doc_map (field : Rollup.sub_data → option (gmap string Z))
    (s : Rollup.subscription) : gmap string Z :=
  default ∅ (Rollup.analysis_file s ≫= field).

Definition doc_map2 (field : Rollup.sub_data → option (gmap string (gmap string Z)))
    (s : Rollup.subscription) : gmap string (gmap string Z) :=
  default ∅ (Rollup.analysis_file s ≫= field).

Definition doc_lifecycle (s : Rollup.subscription) : Rollup.lifecycle_data :=
  default Rollup.no_lifecycle
    (Rollup.analysis_file s ≫= Rollup.sd_alert_lifecycle_metrics).

(** The count of a key, 0 when the key is missing. *)
Definition count_at (m : gmap string Z) (k : string) : Z := default 0 (m !! k).

Definition count_at2 (m : gmap string (gmap string Z)) (k1 k2 : string) : Z :=
  default 0 (default ∅ (m !! k1) !! k2).

(** The per-severity dictionary has the five recognised keys. *)
Definition five_keys (t : gmap string (gmap string Z)) : Prop :=
  ∀ sev, sev ∈ Rollup.five_severities → is_Some (t !! sev).

(** *** Vocabulary of the further properties *)

(** The state of a history alert, the resource of an activity alert and the
    target of a history alert, when they are non-empty strings. *)
Definition alert_state (x : alert) : option string :=
  nonempty_str (get "alertState" x).

Definition activity_resource (x : alert) : option string :=
  nonempty_str (get "resourceId" x).

Definition history_resource (x : alert) : option string :=
  nonempty_str (get "targetResource" x).

Definition has_state (state : string) (x : alert) : bool :=
  bool_decide (alert_state x = Some state).

Definition has_severity_state (severity state : string) (x : alert) : bool :=
  bool_decide (history_severity x = Some severity ∧ alert_state x = Some state).

Definition has_resource (r : string) (x : alert) : bool :=
  bool_decide (activity_resource x = Some r).

Definition has_target (r : string) (x : alert) : bool :=
  bool_decide (history_resource x = Some r).

(** The sum of the counts of a counter. *)
Definition counter_total (c : list (string * nat)) : nat :=
  fold_right Nat.add 0%nat (map snd c).

(** The counts of a list of entries never go up. *)
Definition decreasing (l : list (string * nat)) : Prop :=
  StronglySorted (fun x y => (snd y ≤ snd x)%nat) l.

(** The number of elements of all the groups. *)
Definition grouped_total {K A} (groups : list (K * list A)) : nat :=
  fold_right Nat.add 0%nat (map (fun g : K * list A => length g.2) groups).

(** A window starts on a multiple of 5 minutes. *)
Definition aligned (t : datetime) : Prop :=
  minute t mod 5 = 0 ∧ second t = 0 ∧ microsecond t = 0.

(** The sum of a measure over a list. *)
Definition nsum {A} (f : A → nat) (l : list A) : nat := fold_right Nat.add 0%nat (map f l).

(** The sum of the counts of a [Counter]. *)
Definition counted `{Countable K} (c : gmap K nat) : nat :=
  map_fold (fun _ n s => (n + s)%nat) 0%nat c.

(** An alert carries a level, or a severity. *)
Definition leveled (x : alert) : bool := bool_decide (is_Some (activity_level x)).
Definition graded (x : alert) : bool := bool_decide (is_Some (history_severity x)).

(** An alert names a resource, or a target. *)
Definition located (x : alert) : bool := bool_decide (is_Some (activity_resource x)).
Definition targeted (x : alert) : bool := bool_decide (is_Some (history_resource x)).



(** The summary entry lines 115-134 append for a subscription. *)
Definition summary_of (s : Rollup.subscription) : Rollup.summary :=
  {| Rollup.name := Rollup.sub_name s;
     Rollup.id := Rollup.sub_id s;
     Rollup.directory := Rollup.sub_dir s;
     Rollup.summary_total_alerts := doc_total s;
     Rollup.summary_severity_breakdown := doc_map Rollup.sd_severity_breakdown s;
     Rollup.has_data := 0 <? doc_total s |}.

(** The document [load_json_file] returns for a file it cannot read: [{}]. *)
Definition empty_document : Rollup.sub_data :=
  {| Rollup.sd_total_alerts := None;
     Rollup.sd_severity_breakdown := None;
     Rollup.sd_alert_state_breakdown := None;
     Rollup.sd_alert_state_by_severity := None;
     Rollup.sd_alert_lifecycle_metrics := None;
     Rollup.sd_top_alerts_by_severity := None;
     Rollup.sd_resource_type_breakdown := None;
     Rollup.sd_resource_group_breakdown := None;
     Rollup.sd_top_alerting_resources := None |}.

(** An activity record whose structured [resourceType] has a non-empty list
    as its [value]; the other fields are those of [x]. *)
Definition with_listed_type (v : json) (vs : list json) (x : alert) : alert :=
  <["resourceType" := JObj {[ "value" := JArr (v :: vs) ]}]> x.

(** The five keys an activity alert is indexed by in the first variant. *)
Definition indexed_keys : list string :=
  ["level"; "resourceType"; "resourceGroup"; "resourceId"; "timestamp"]%string.

(** A small input: three activity alerts, one of them without a level and
    without a resource, and four history alerts. *)
Module Samples.

Definition activity_alerts : list alert :=
  [ Reference.activity "vm1" "Warning" "2025-08-22T10:04:59Z" "c1";
    Reference.activity "vm2" "Error" "2025-08-22T10:07:00Z" "c1";
    {[ "timestamp" := JStr "yesterday" ]} ].

Definition alert_history : list alert :=
  [ {[ "severity" := JStr "Sev1"; "alertState" := JStr "New";
       "targetResource" := JStr "vm1" ]};
    {[ "severity" := JStr "Sev1"; "alertState" := JStr "Closed";
       "targetResource" := JStr "vm1" ]};
    {[ "alertState" := JStr "New" ]};
    {[ "severity" := JStr "Sev3"; "alertState" := JStr "Fired" ]} ].

(** Six warnings on one resource, and one error on another. *)
Definition noisy_alerts : list alert :=
  Reference.copies 6 (Reference.activity "vm1" "Warning" "2025-08-22T10:04:59Z" "c1")
  ++ [Reference.activity "vm2" "Error" "2025-08-22T10:07:00Z" "c2"].

(** A resource-health alert of the history, named by its rule. *)
Definition health_history : list alert :=
  [ {[ "name" := JStr "";
       "alertRule" := JStr "ResourceHealthUnhealthyAlert-vm1";
       "alertState" := JStr "New" ]} ].

(** An activity alert with the five keys the first variant indexes. *)
Definition indexed_alert : alert :=
  <["resourceType" := JStr "vm"]>
    (<["resourceGroup" := JStr "rg"]>
       (Reference.activity "vm1" "Warning" "2025-08-22T10:04:59Z" "c1")).

(** A subscription whose analysis file cannot be read. *)
Definition unreadable : Rollup.subscription :=
  {| Rollup.sub_dir := "subscription_4"; Rollup.sub_name := "D"; Rollup.sub_id := "4";
     Rollup.analysis_file := Some empty_document |}.

End Samples.

(** ** The tenant dashboard of [create_consolidated_dashboard.py], run
    20250822_171957 *)

Module Dashboard.

(** [sorted(l, key=key, reverse=True)]: the sort is stable, elements of
    equal key keep their order. *)
Fixpoint insert_by {A} (key : A → Z) (x : A) (l : list A) : list A :=
  match l with
  | [] => [x]
  | y :: l' => if key y <=? key x then x :: y :: l' else y :: insert_by key x l'
  end.

Definition sorted_desc {A} (key : A → Z) (l : list A) : list A :=
  foldr (insert_by key) [] l.

(** Line 278: [sum(1 for sub in data['subscription_summary'] if sub['has_data'])]. *)
Definition subscriptions_with_alerts (data : Rollup.consolidated) : nat :=
  length (filter (fun sub => Rollup.has_data sub = true) (Rollup.subscription_summary data)).

(** Line 356: the cards, by decreasing total. *)
Definition subscription_cards (data : Rollup.consolidated) : list Rollup.summary :=
  sorted_desc Rollup.summary_total_alerts (Rollup.subscription_summary data).

(** Lines 357-358: the class and the text of a card. *)
Inductive status : Type :=
| Alerts (total : Z)
| NoAlertsFound.

Definition status_class (sub : Rollup.summary) : string :=
  if Rollup.has_data sub then "" else "no-data".

Definition status_text (sub : Rollup.summary) : status :=
  if Rollup.has_data sub then Alerts (Rollup.summary_total_alerts sub) else NoAlertsFound.

(** The text of a name.  A Python [str] is a sequence of Unicode code
    points: [len] counts code points and a slice takes code points, whereas
    a [string] of the standard library is a sequence of bytes.  The name is
    therefore kept as the list of its code points. *)
Definition text : Type := list N.

(** ['...']: three full stops. *)
Definition ellipsis : text := [46%N; 46%N; 46%N].

(** Line 350: [resource if len(resource) <= 100 else resource[:97] + '...']. *)
Definition display_name (resource : text) : text :=
  if (length resource <=? 100)%nat then resource
  else take 97 resource ++ ellipsis.

End Dashboard.

(** * Properties *)

(** ** Grouping by key *)

Section Grouping.
Context {K A : Type} (eqb : K → K → bool) (key : A → option K).
Hypothesis eqb_sym : ∀ a b, eqb a b = eqb b a.
Hypothesis eqb_trans : ∀ a b c, eqb a b = true → eqb b c = true → eqb a c = true.

Local Abbreviation keyed k := (fun g : K * list A => eqb g.1 k = true).

Lemma group_append_keyed k kx x groups :
  filter (keyed k) (group_append eqb kx x groups) =
  if eqb kx k then
    match filter (keyed k) groups with
    | [] => [(kx, [x])]
    | (r, ms) :: rest => (r, ms ++ [x]) :: rest
    end
  else filter (keyed k) groups.
Proof.
  induction groups as [|[k' ms] groups IH]; simpl.
  - rewrite filter_cons, filter_nil. simpl.
    destruct (eqb kx k) eqn:E; [rewrite decide_True by done|rewrite decide_False by congruence];
      reflexivity.
  - destruct (eqb k' kx) eqn:Ek'.
    + rewrite !filter_cons. simpl.
      destruct (eqb kx k) eqn:E.
      * rewrite !decide_True by eauto. reflexivity.
      * assert (eqb k' k = false) as Hk.
        { destruct (eqb k' k) eqn:E'; [|done].
          rewrite <- E. symmetry. apply (eqb_trans kx k' k); [|done].
          by rewrite eqb_sym. }
        rewrite !decide_False by congruence. reflexivity.
    + rewrite !filter_cons. simpl.
      destruct (eqb k' k) eqn:Hk.
      * assert (eqb kx k = false) as E.
        { destruct (eqb kx k) eqn:E'; [|done].
          rewrite <- Ek'. symmetry. apply (eqb_trans k' k kx); [done|].
          by rewrite eqb_sym. }
        rewrite E in IH. rewrite E, !decide_True by done. by rewrite IH.
      * rewrite !decide_False by congruence. exact IH.
Qed.

Lemma members_snoc k xs x :
  members eqb key k (xs ++ [x]) =
  members eqb key k xs ++ (if has_key eqb key k x then [x] else []).
Proof.
  unfold members. rewrite filter_app, filter_cons, filter_nil.
  destruct (has_key eqb key k x); [rewrite decide_True by done|rewrite decide_False by done];
    reflexivity.
Qed.

(** The groups whose key is [k]: none when [k] has no member, otherwise the
    single group of all its members in their order of arrival. *)
Lemma grouped k xs :
  filter (keyed k) (fold_left (group_step eqb key) xs []) =
  match members eqb key k xs with
  | [] => []
  | ms => [(stored_key key k ms, ms)]
  end.
Proof.
  induction xs as [|x xs IH] using rev_ind; [reflexivity|].
  rewrite fold_left_app, members_snoc. simpl.
  unfold group_step at 1, has_key.
  destruct (key x) as [kx|] eqn:Ekx.
  - rewrite group_append_keyed, IH.
    destruct (eqb kx k) eqn:E.
    + destruct (members eqb key k xs) as [|m ms]; simpl.
      * by rewrite Ekx.
      * reflexivity.
    + rewrite app_nil_r. reflexivity.
  - rewrite app_nil_r. exact IH.
Qed.
End Grouping.

Lemma fold_left_pointwise {A B} (f g : A → B → A) (l : list B) (a : A) :
  (∀ a b, f a b = g a b) → fold_left f l a = fold_left g l a.
Proof.
  intros Hfg. revert a. induction l as [|b l IH]; intros a; simpl; [done|].
  by rewrite Hfg, IH.
Qed.

Lemma fold_left_skip {A B} (f : A → B → A) (P : B → Prop) `{∀ b, Decision (P b)}
    (l : list B) (a : A) :
  (∀ a b, ¬ P b → f a b = a) → fold_left f (filter P l) a = fold_left f l a.
Proof.
  intros Hskip. revert a. induction l as [|b l IH]; intros a; [done|].
  rewrite filter_cons. destruct (decide (P b)); simpl.
  - apply IH.
  - rewrite Hskip by done. apply IH.
Qed.

Lemma filter_omap {A B} (f : A → option B) (P : B → Prop) (Q : A → Prop)
    `{∀ y, Decision (P y)} `{∀ x, Decision (Q x)} (l : list A) :
  (∀ x y, f x = Some y → (P y ↔ Q x)) →
  filter P (omap f l) = omap f (filter Q l).
Proof.
  intros HPQ. induction l as [|x l IH]; [done|].
  rewrite (filter_cons Q). simpl. destruct (f x) as [y|] eqn:Efx.
  - rewrite filter_cons. destruct (decide (Q x)) as [HQ|HQ].
    + rewrite decide_True by (by apply (HPQ x y)). simpl. rewrite Efx. f_equal. exact IH.
    + rewrite decide_False by (by rewrite (HPQ x y)). exact IH.
  - destruct (decide (Q x)); simpl; [rewrite Efx|]; exact IH.
Qed.

Lemma dt_eqb_sym a b : dt_eqb a b = dt_eqb b a.
Proof. unfold dt_eqb. apply bool_decide_ext. split; congruence. Qed.

Lemma dt_eqb_trans a b c : dt_eqb a b = true → dt_eqb b c = true → dt_eqb a c = true.
Proof.
  unfold dt_eqb. rewrite !bool_decide_eq_true. congruence.
Qed.

Lemma string_eqb_trans (a b c : string) :
  String.eqb a b = true → String.eqb b c = true → String.eqb a c = true.
Proof. rewrite !String.eqb_eq. congruence. Qed.

(** ** Alert storms *)

Section Storms.
Variable fromisoformat : string → option datetime.
Variable set_iter : list string → list string.

Lemma time_windows_grouped w (activity_alerts : list alert) :
  filter (fun g : datetime * list alert => dt_eqb g.1 w = true)
    (Analyzer.time_windows fromisoformat activity_alerts) =
  match members dt_eqb (window_key fromisoformat) w activity_alerts with
  | [] => []
  | ms => [(stored_key (window_key fromisoformat) w ms, ms)]
  end.
Proof.
  rewrite <- (grouped dt_eqb (window_key fromisoformat) dt_eqb_sym dt_eqb_trans).
  unfold Analyzer.time_windows. f_equal. apply fold_left_pointwise.
  intros groups x. unfold group_step, window_key.
  by destruct (Analyzer.parse_time fromisoformat (get "timestamp" x)).
Qed.

Lemma storms_of_window w (activity_alerts : list alert) :
  filter (fun s => dt_eqb (Analyzer.storm_time s) w = true)
    (Analyzer.detect_alert_storms fromisoformat set_iter activity_alerts) =
  let ms := members dt_eqb (window_key fromisoformat) w activity_alerts in
  if (10 <? length ms)%nat then
    [ {| Analyzer.storm_time := stored_key (window_key fromisoformat) w ms;
         Analyzer.storm_count := length ms;
         Analyzer.storm_resources := take 5 (set_iter (Analyzer.resource_ids ms)) |} ]
  else [].
Proof.
  unfold Analyzer.detect_alert_storms.
  rewrite (filter_omap _ _ (fun g : datetime * list alert => dt_eqb g.1 w = true)).
  - rewrite time_windows_grouped. cbv zeta.
    destruct (members dt_eqb (window_key fromisoformat) w activity_alerts) as [|m ms] eqn:E;
      [reflexivity|].
    remember (m :: ms) as l. unfold omap, list_omap, Analyzer.storm_of.
    by destruct (10 <? length l)%nat.
  - intros [k xs] s. unfold Analyzer.storm_of.
    destruct (10 <? length xs)%nat; [|done]. by intros [= <-].
Qed.
End Storms.

(** C2.  Alert-storm threshold.  For every list of activity alerts and every
    5-minute window [w], the storms reported for [w] are: none when at most
    10 alerts fall in the window, and exactly one, carrying the number of
    alerts of the window, when more than 10 do.  In particular 10 alerts
    give no storm and 11 alerts give one storm of count 11. *)
Theorem storm_threshold (fromisoformat : string → option datetime)
    (set_iter : list string → list string)
    (activity_alerts : list alert) (w : datetime) :
  let ms := members dt_eqb (window_key fromisoformat) w activity_alerts in
  let storms :=
    filter (fun s => dt_eqb (Analyzer.storm_time s) w = true)
      (Analyzer.detect_alert_storms fromisoformat set_iter activity_alerts) in
  (storms =
     if (10 <? length ms)%nat then
       [ {| Analyzer.storm_time := stored_key (window_key fromisoformat) w ms;
            Analyzer.storm_count := length ms;
            Analyzer.storm_resources := take 5 (set_iter (Analyzer.resource_ids ms)) |} ]
     else [])
  ∧ (length ms = 10%nat → storms = [])
  ∧ (length ms = 11%nat →
     ∃ s, storms = [s] ∧ Analyzer.storm_count s = 11%nat)
  ∧ (storms ≠ [] ↔ (10 < length ms)%nat).
Proof.
  intros ms storms.
  assert (storms =
     if (10 <? length ms)%nat then
       [ {| Analyzer.storm_time := stored_key (window_key fromisoformat) w ms;
            Analyzer.storm_count := length ms;
            Analyzer.storm_resources := take 5 (set_iter (Analyzer.resource_ids ms)) |} ]
     else []) as Hs by apply storms_of_window.
  split; [exact Hs|]. rewrite Hs. repeat split.
  - by intros ->.
  - intros ->. simpl. eauto.
  - destruct (Nat.ltb_spec 10 (length ms)); [done|]. by intros [].
  - intros Hlt. apply Nat.ltb_lt in Hlt. by rewrite Hlt.
Qed.

(** C2, worked example: eleven activity alerts between 10:00:00 and 10:04:59
    on one resource give one storm of count 11 at 10:00:00. *)
Lemma storm_threshold_witness :
  ∃ s,
    filter (fun s => dt_eqb (Analyzer.storm_time s)
                       (mk_datetime 2025 8 22 10 0 0 0 (Some 0)) = true)
      (Analyzer.detect_alert_storms Reference.fromisoformat Reference.set_iter
         (Reference.copies 11
            (Reference.activity "resourceA" "Error" "2025-08-22T10:04:59Z" "c")))
    = [s]
    ∧ Analyzer.storm_count s = 11%nat.
Proof.
  apply (storm_threshold Reference.fromisoformat Reference.set_iter
           (Reference.copies 11
              (Reference.activity "resourceA" "Error" "2025-08-22T10:04:59Z" "c"))
           (mk_datetime 2025 8 22 10 0 0 0 (Some 0))).
  vm_compute. reflexivity.
Defined.

(** ** Correlation patterns *)

Section Correlations.
Variable set_iter : list string → list string.

Lemma correlation_groups_grouped c (activity_alerts : list alert) :
  filter (fun g : string * list alert => String.eqb g.1 c = true)
    (Analyzer.correlation_groups activity_alerts) =
  match members String.eqb correlation_key c activity_alerts with
  | [] => []
  | ms => [(c, ms)]
  end.
Proof.
  unfold Analyzer.correlation_groups.
  change (fold_left _ activity_alerts [])
    with (fold_left (group_step String.eqb correlation_key) activity_alerts []).
  rewrite (grouped String.eqb correlation_key String.eqb_sym string_eqb_trans).
  destruct (members String.eqb correlation_key c activity_alerts) as [|m ms] eqn:E;
    [reflexivity|].
  assert (m ∈ members String.eqb correlation_key c activity_alerts) as Hm
    by (rewrite E; left).
  apply list_elem_of_filter in Hm as [Hm _]. unfold has_key in Hm. simpl.
  destruct (correlation_key m) as [k|]; [|done].
  apply String.eqb_eq in Hm as ->. reflexivity.
Qed.

Lemma patterns_of_id c (activity_alerts : list alert) :
  filter (fun p => Analyzer.correlation_id p = c)
    (Analyzer.detect_correlations set_iter activity_alerts) =
  let ms := members String.eqb correlation_key c activity_alerts in
  if (2 <? length ms)%nat then
    [ {| Analyzer.correlation_id := c;
         Analyzer.pattern_alert_count := length ms;
         Analyzer.pattern_resources := take 5 (set_iter (Analyzer.resource_ids ms));
         Analyzer.time_span := "Multiple related alerts" |} ]
  else [].
Proof.
  unfold Analyzer.detect_correlations.
  rewrite (filter_omap _ _ (fun g : string * list alert => String.eqb g.1 c = true)).
  - rewrite correlation_groups_grouped. cbv zeta.
    destruct (members String.eqb correlation_key c activity_alerts) as [|m ms] eqn:E;
      [reflexivity|].
    remember (m :: ms) as l. unfold omap, list_omap, Analyzer.pattern_of.
    by destruct (2 <? length l)%nat.
  - intros [k xs] p. unfold Analyzer.pattern_of.
    destruct (2 <? length xs)%nat; [|done]. intros [= <-]. simpl.
    by rewrite String.eqb_eq.
Qed.

Lemma correlations_skip_unkeyed (activity_alerts : list alert) :
  Analyzer.detect_correlations set_iter
    (filter (fun x => is_Some (correlation_key x)) activity_alerts) =
  Analyzer.detect_correlations set_iter activity_alerts.
Proof.
  unfold Analyzer.detect_correlations, Analyzer.correlation_groups. f_equal.
  apply (fold_left_skip _ (fun x : alert => is_Some (correlation_key x))).
  intros groups x Hx. unfold correlation_key in Hx.
  destruct (nonempty_str (get "correlationId" x)); [|done].
  exfalso. apply Hx. eauto.
Qed.
End Correlations.

(** C3.  Correlation threshold.  For every list of activity alerts and every
    correlation identifier [c], the patterns reported for [c] are: none when
    at most 2 alerts carry [c], and exactly one, carrying the number of these
    alerts, when more than 2 do.  In particular 2 alerts give no pattern and
    3 alerts give one pattern of count 3.  Alerts without a correlation
    identifier belong to no group: dropping them changes no pattern. *)
Theorem correlation_threshold (set_iter : list string → list string)
    (activity_alerts : list alert) (c : string) :
  let ms := members String.eqb correlation_key c activity_alerts in
  let patterns :=
    filter (fun p => Analyzer.correlation_id p = c)
      (Analyzer.detect_correlations set_iter activity_alerts) in
  (patterns =
     if (2 <? length ms)%nat then
       [ {| Analyzer.correlation_id := c;
            Analyzer.pattern_alert_count := length ms;
            Analyzer.pattern_resources := take 5 (set_iter (Analyzer.resource_ids ms));
            Analyzer.time_span := "Multiple related alerts" |} ]
     else [])
  ∧ (length ms = 2%nat → patterns = [])
  ∧ (length ms = 3%nat →
     ∃ p, patterns = [p] ∧ Analyzer.pattern_alert_count p = 3%nat)
  ∧ Analyzer.detect_correlations set_iter
      (filter (fun x => is_Some (correlation_key x)) activity_alerts) =
    Analyzer.detect_correlations set_iter activity_alerts.
Proof.
  intros ms patterns.
  assert (patterns =
     if (2 <? length ms)%nat then
       [ {| Analyzer.correlation_id := c;
            Analyzer.pattern_alert_count := length ms;
            Analyzer.pattern_resources := take 5 (set_iter (Analyzer.resource_ids ms));
            Analyzer.time_span := "Multiple related alerts" |} ]
     else []) as Hp by apply patterns_of_id.
  split; [exact Hp|]. rewrite Hp. repeat split.
  - by intros ->.
  - intros ->. simpl. eauto.
  - apply correlations_skip_unkeyed.
Qed.

(** C3, worked example: three activity alerts sharing one identifier give
    one pattern of count 3. *)
Lemma correlation_threshold_witness :
  ∃ p,
    filter (fun p => Analyzer.correlation_id p = "corr-1")
      (Analyzer.detect_correlations Reference.set_iter
         (Reference.copies 3
            (Reference.activity "resourceA" "Error" "2025-08-22T10:04:59Z" "corr-1")))
    = [p]
    ∧ Analyzer.pattern_alert_count p = 3%nat.
Proof.
  apply (correlation_threshold Reference.set_iter
           (Reference.copies 3
              (Reference.activity "resourceA" "Error" "2025-08-22T10:04:59Z" "corr-1"))
           "corr-1").
  vm_compute. reflexivity.
Defined.

(** ** The analysis as a whole *)

Lemma for_each_total {A S} (body : S → A → res S) (xs : list A) (s : S) :
  (∀ s x, In x xs → ∃ s', body s x = Ok s') → ∃ s', for_each body xs s = Ok s'.
Proof.
  revert s. induction xs as [|x xs IH]; intros s Hbody; simpl; [eauto|].
  destruct (Hbody s x) as [s' ->]; [by left|].
  apply IH. intros s0 y Hy. apply Hbody. by right.
Qed.

Section Analysis.
Variable fromisoformat : string → option datetime.
Variable py_repr : json → string.
Variable strftime_ymd : datetime → string.
Variable set_iter : list string → list string.

Local Abbreviation analyze_alerts :=
  (Analyzer.analyze_alerts fromisoformat py_repr strftime_ymd set_iter).
Local Abbreviation activity_step :=
  (Analyzer.activity_step fromisoformat py_repr strftime_ymd).
Local Abbreviation history_step :=
  (Analyzer.history_step fromisoformat py_repr strftime_ymd).

Lemma count_resource_type_total v a :
  countable_resource_type py_repr v = true →
  ∃ a', Analyzer.count_resource_type py_repr v a = Ok a'.
Proof.
  unfold countable_resource_type, Analyzer.count_resource_type.
  destruct (truthy v); simpl; [|eauto].
  destruct (hash_key _); [|done]. simpl. eauto.
Qed.

Lemma activity_step_total a (x : alert) :
  countable_resource_type py_repr (get "resourceType" x) = true →
  ∃ a', activity_step a x = Ok a'.
Proof.
  intros Hx. unfold Analyzer.activity_step.
  edestruct count_resource_type_total as [a' ->]; [exact Hx|]. simpl. eauto.
Qed.

Lemma history_step_total a (x : alert) :
  countable_resource_type py_repr (get "targetResourceType" x) = true →
  ∃ a', history_step a x = Ok a'.
Proof.
  intros Hx. unfold Analyzer.history_step.
  edestruct count_resource_type_total as [a' ->]; [exact Hx|]. simpl. eauto.
Qed.

(** The analysis returns a document whenever every resource type can be
    counted. *)
Lemma analyze_alerts_total (activity_alerts alert_history : list alert) :
  countable_input py_repr activity_alerts alert_history = true →
  ∃ a, analyze_alerts activity_alerts alert_history = Ok a.
Proof.
  unfold countable_input. rewrite andb_true_iff, !forallb_forall.
  intros [Hact Hhist]. unfold Analyzer.analyze_alerts.
  edestruct (for_each_total activity_step activity_alerts) as [a1 ->].
  { intros s x Hx. apply activity_step_total. by apply Hact. }
  simpl.
  edestruct (for_each_total history_step alert_history) as [a2 ->].
  { intros s x Hx. apply history_step_total. by apply Hhist. }
  simpl. eauto.
Qed.

(** The detail lists of the document are those of the detection blocks,
    all computed from the activity alerts; the history alerts reach the
    tuning block through the resource counter only. *)
Lemma analyze_alerts_details (activity_alerts alert_history : list alert) a :
  analyze_alerts activity_alerts alert_history = Ok a →
  Analyzer.correlation_patterns a = Analyzer.detect_correlations set_iter activity_alerts
  ∧ Analyzer.alert_storms a =
    Analyzer.detect_alert_storms fromisoformat set_iter activity_alerts
  ∧ Analyzer.tuning_recommendations a =
    Analyzer.tuning (Analyzer.top_alerting_resources a) activity_alerts.
Proof.
  unfold Analyzer.analyze_alerts.
  destruct (for_each _ activity_alerts _) as [a1|]; [|done]. simpl.
  destruct (for_each _ alert_history _) as [a2|]; [|done]. simpl.
  by intros [= <-].
Qed.
End Analysis.

(** C4 as stated fails: three history alerts sharing [corr-1], no activity
    alert, and the analysis returns a document without any pattern. *)
Lemma history_correlation_counterexample :
  ∃ a,
    Reference.analyze_alerts []
      (Reference.copies 3 (Reference.history "resourceA" "Sev1" "corr-1")) = Ok a
    ∧ Analyzer.correlation_patterns a = [].
Proof. eexists. split; vm_compute; reflexivity. Qed.

(** C4, amended.  Correlation patterns come from the activity alerts alone:
    on every input the loops can count, the analysis returns a document
    whose patterns are those of the activity alerts, whatever the history
    alerts are.  Three activity alerts sharing [corr-1] give one pattern of
    count 3 for it; when no activity alert carries [corr-1] there is no
    pattern for it. *)
Theorem correlation_from_activity_only
    (fromisoformat : string → option datetime) (py_repr : json → string)
    (strftime_ymd : datetime → string) (set_iter : list string → list string)
    (activity_alerts alert_history : list alert) :
  countable_input py_repr activity_alerts alert_history = true →
  ∃ a,
    Analyzer.analyze_alerts fromisoformat py_repr strftime_ymd set_iter
      activity_alerts alert_history = Ok a
    ∧ Analyzer.correlation_patterns a =
      Analyzer.detect_correlations set_iter activity_alerts
    ∧ (length (members String.eqb correlation_key "corr-1" activity_alerts) = 3%nat →
       ∃ p, filter (fun p => Analyzer.correlation_id p = "corr-1")
              (Analyzer.correlation_patterns a) = [p]
            ∧ Analyzer.correlation_id p = "corr-1"
            ∧ Analyzer.pattern_alert_count p = 3%nat)
    ∧ (length (members String.eqb correlation_key "corr-1" activity_alerts) = 0%nat →
       filter (fun p => Analyzer.correlation_id p = "corr-1")
         (Analyzer.correlation_patterns a) = []).
Proof.
  intros Hin.
  destruct (analyze_alerts_total fromisoformat py_repr strftime_ymd set_iter
              _ _ Hin) as [a Ha].
  exists a. split; [exact Ha|].
  apply analyze_alerts_details in Ha as (-> & _ & _).
  split; [reflexivity|]. rewrite patterns_of_id. cbv zeta.
  split; intros ->; simpl; eauto.
Qed.

(** C4, worked example: three activity alerts sharing [corr-1], next to
    three history alerts sharing another identifier. *)
Lemma correlation_from_activity_only_witness :
  ∃ a,
    Reference.analyze_alerts
      (Reference.copies 3
         (Reference.activity "resourceA" "Error" "2025-08-22T10:04:59Z" "corr-1"))
      (Reference.copies 3 (Reference.history "resourceB" "Sev1" "corr-2")) = Ok a
    ∧ ∃ p, filter (fun p => Analyzer.correlation_id p = "corr-1")
             (Analyzer.correlation_patterns a) = [p]
           ∧ Analyzer.correlation_id p = "corr-1"
           ∧ Analyzer.pattern_alert_count p = 3%nat.
Proof.
  destruct (correlation_from_activity_only
              Reference.fromisoformat Reference.py_repr Reference.strftime_ymd
              Reference.set_iter
              (Reference.copies 3
                 (Reference.activity "resourceA" "Error" "2025-08-22T10:04:59Z" "corr-1"))
              (Reference.copies 3 (Reference.history "resourceB" "Sev1" "corr-2")))
    as (a & Ha & _ & H3 & _).
  - vm_compute. reflexivity.
  - exists a. split; [exact Ha|]. apply H3. vm_compute. reflexivity.
Defined.

(** ** The tuning heuristic *)

Lemma binary_round_aux_nonneg m e l :
  nonneg_float (binary_round_aux prec emax false m e l).
Proof.
  unfold binary_round_aux.
  destruct (shr_fexp prec emax m e l) as [mrs' e'].
  destruct (shr_fexp prec emax _ e' loc_Exact) as [mrs'' e''].
  destruct (shr_m mrs''); simpl; [done| |done].
  by destruct (e'' <=? emax - prec).
Qed.

Lemma float_of_int_nonneg (n : nat) : nonneg_float (float_of_int (Z.of_nat n)).
Proof.
  unfold float_of_int, binary_normalize.
  destruct (Z.of_nat n) as [|p|p] eqn:E; [done| |lia].
  unfold binary_round. destruct (shl_align _ _ _) as [mz ez].
  apply binary_round_aux_nonneg.
Qed.

Lemma float_mul_0_7_nonneg f : nonneg_float f → nonneg_float (float_mul f float_0_7).
Proof.
  unfold float_mul, float_0_7.
  destruct f as [s|s| |s m e]; simpl; try done; intros ->; simpl; try done.
  apply binary_round_aux_nonneg.
Qed.

Lemma int_gt_float_zero f : nonneg_float f → int_gt_float 0 f = false.
Proof.
  destruct f as [s|s| |s m e]; simpl; try done.
  intros ->. simpl. destruct (0 <=? e) eqn:E.
  - apply Z.ltb_ge. apply Z.leb_le in E.
    pose proof (Z.pow_nonneg 2 e). lia.
  - apply Z.ltb_ge. lia.
Qed.

(** A resource with no low-severity activity alert is never flagged. *)
Lemma tuning_flag_zero count : Analyzer.tuning_flag 0 count = false.
Proof.
  unfold Analyzer.tuning_flag. change (Z.of_nat 0) with 0.
  rewrite (int_gt_float_zero _ (float_mul_0_7_nonneg _ (float_of_int_nonneg count))).
  reflexivity.
Qed.

(** A resource with at most 5 alerts is never flagged. *)
Lemma tuning_flag_small low count : (count ≤ 5)%nat → Analyzer.tuning_flag low count = false.
Proof.
  intros Hc. unfold Analyzer.tuning_flag.
  replace (5 <? count)%nat with false by (symmetry; apply Nat.ltb_ge; lia).
  apply andb_false_r.
Qed.

Example tuning_flag_5_of_6 : Analyzer.tuning_flag 5 6 = true.
Proof. vm_compute. reflexivity. Qed.

Example tuning_flag_4_of_6 : Analyzer.tuning_flag 4 6 = false.
Proof. vm_compute. reflexivity. Qed.

(** Entries of equal count stay in their order of insertion. *)
Example most_common_ties :
  most_common 2 [("a", 1%nat); ("b", 2%nat); ("c", 2%nat)] = [("b", 2%nat); ("c", 2%nat)].
Proof. reflexivity. Qed.

(** The recommendations are those of the flagged entries among the 20 most
    common resources. *)
Lemma tuning_spec (top : list (string * nat)) (activity_alerts : list alert) rec :
  rec ∈ Analyzer.tuning top activity_alerts ↔
  ∃ r count,
    (r, count) ∈ most_common 20 top
    ∧ Analyzer.tuning_flag (Analyzer.low_sev_count r activity_alerts) count = true
    ∧ rec = {| Analyzer.resource := r; Analyzer.alert_count := count;
               Analyzer.recommendation :=
                 "Consider adjusting thresholds or reducing alert sensitivity" |}.
Proof.
  unfold Analyzer.tuning. rewrite list_elem_of_omap. split.
  - intros ([r count] & Hin & Hrec). unfold Analyzer.recommend in Hrec.
    destruct (Analyzer.tuning_flag _ count) eqn:E; [|done].
    injection Hrec as <-. eauto.
  - intros (r & count & Hin & Hflag & ->). exists (r, count).
    split; [done|]. unfold Analyzer.recommend. by rewrite Hflag.
Qed.

Lemma low_sev_count_unnamed r (activity_alerts : list alert) :
  forallb (fun x => negb (names_resource r x)) activity_alerts = true →
  Analyzer.low_sev_count r activity_alerts = 0%nat.
Proof.
  rewrite forallb_forall. intros Hall. unfold Analyzer.low_sev_count.
  induction activity_alerts as [|x xs IH]; [done|].
  rewrite filter_cons.
  assert (Analyzer.is_low_severity r x = false) as Hx.
  { specialize (Hall x (or_introl eq_refl)).
    unfold names_resource in Hall. unfold Analyzer.is_low_severity.
    destruct (get "resourceId" x); try done.
    destruct (get "level" x); try done.
    apply negb_true_iff in Hall. by rewrite Hall. }
  rewrite decide_False by congruence.
  apply IH. intros y Hy. apply Hall. by right.
Qed.

(** C10.  A resource that no activity alert names is never recommended for
    tuning, whatever its total count and the severities of its history
    alerts: its low-severity count, taken over the activity alerts, is 0,
    and 0 is not above the product of a count by 0.7.  This holds for the
    tuning block on every resource counter, and so for the document the
    analysis returns. *)
Theorem history_only_resource_not_recommended
    (fromisoformat : string → option datetime) (py_repr : json → string)
    (strftime_ymd : datetime → string) (set_iter : list string → list string)
    (activity_alerts alert_history : list alert) (r : string) :
  forallb (fun x => negb (names_resource r x)) activity_alerts = true →
  Analyzer.low_sev_count r activity_alerts = 0%nat
  ∧ (∀ top rec,
       rec ∈ Analyzer.tuning top activity_alerts → Analyzer.resource rec ≠ r)
  ∧ (∀ a rec,
       Analyzer.analyze_alerts fromisoformat py_repr strftime_ymd set_iter
         activity_alerts alert_history = Ok a →
       rec ∈ Analyzer.tuning_recommendations a → Analyzer.resource rec ≠ r).
Proof.
  intros Hr. pose proof (low_sev_count_unnamed r activity_alerts Hr) as Hlow.
  assert (∀ top rec,
            rec ∈ Analyzer.tuning top activity_alerts → Analyzer.resource rec ≠ r)
    as Hblock.
  { intros top rec (r' & count & _ & Hflag & ->)%tuning_spec. simpl. intros ->.
    rewrite Hlow, tuning_flag_zero in Hflag. done. }
  repeat split; [exact Hlow|exact Hblock|].
  intros a rec Ha. apply analyze_alerts_details in Ha as (_ & _ & ->).
  apply Hblock.
Qed.

(** C10, worked example: eight history alerts on a resource that the only
    activity alert does not name; the resource is counted 8 times and is
    not recommended. *)
Lemma history_only_resource_not_recommended_witness :
  ∃ a,
    Reference.analyze_alerts
      [Reference.activity "resourceB" "Warning" "2025-08-22T10:04:59Z" "c"]
      (Reference.copies 8 (Reference.history "resourceA" "Sev3" "c")) = Ok a
    ∧ olookup "resourceA" (Analyzer.top_alerting_resources a) = Some 8%nat
    ∧ ∀ rec, rec ∈ Analyzer.tuning_recommendations a →
             Analyzer.resource rec ≠ "resourceA".
Proof.
  eexists. split; [vm_compute; reflexivity|]. split; [vm_compute; reflexivity|].
  intros rec.
  apply (history_only_resource_not_recommended
           Reference.fromisoformat Reference.py_repr Reference.strftime_ymd
           Reference.set_iter
           [Reference.activity "resourceB" "Warning" "2025-08-22T10:04:59Z" "c"]
           (Reference.copies 8 (Reference.history "resourceA" "Sev3" "c"))
           "resourceA").
  - vm_compute. reflexivity.
  - vm_compute. reflexivity.
Defined.

Lemma int_gt_float_finite i m p :
  int_gt_float i (S754_finite false m (Z.neg p)) = (Z.pos m <? i * 2 ^ Z.pos p).
Proof. reflexivity. Qed.

Lemma int_gt_float_pzero i : int_gt_float i (S754_zero false) = (0 <? i).
Proof. reflexivity. Qed.

Ltac eval_product :=
  match goal with
  | |- context [float_mul ?x ?y] =>
      let f := eval vm_compute in (float_mul x y) in
      change (float_mul x y) with f
  end;
  rewrite ?int_gt_float_finite, ?int_gt_float_pzero;
  repeat match goal with
    | |- context [2 ^ Z.pos ?p] =>
        let v := eval vm_compute in (2 ^ Z.pos p) in
        change (2 ^ Z.pos p) with v
    | |- context [Z.of_nat ?n] =>
        let v := eval vm_compute in (Z.of_nat n) in
        change (Z.of_nat n) with v
    end.

(** Below 90 alerts the binary64 test of line 215 is the exact one: the low
    count is above 70% of the count. *)
Lemma int_gt_product_exact (low : Z) (count : nat) :
  (count < 90)%nat →
  int_gt_float low (float_mul (float_of_int (Z.of_nat count)) float_0_7)
  = (7 * Z.of_nat count <? 10 * low).
Proof.
  intros Hc.
  do 90 (destruct count as [|count];
         [clear Hc; eval_product;
          match goal with
          | |- _ = (?c <? ?d) =>
              destruct (Z.ltb_spec0 c d); [apply Z.ltb_lt|apply Z.ltb_ge]; lia
          end|]).
  lia.
Qed.

Lemma tuning_flag_exact (low count : nat) :
  (count < 90)%nat →
  Analyzer.tuning_flag low count
  = (7 * Z.of_nat count <? 10 * Z.of_nat low) && (5 <? count)%nat.
Proof.
  intros Hc. unfold Analyzer.tuning_flag. by rewrite int_gt_product_exact.
Qed.

(** C5 at the boundary.  A resource with 90 activity alerts, 63 of them of
    level Warning: the low-severity count is exactly 70% of the count, so it
    is not strictly above 0.7 times the count, and the resource is
    recommended all the same, because [90 * 0.7] is the float just below
    63. *)
Theorem tuning_flag_at_seventy_percent :
  let activity_alerts :=
    Reference.copies 63
      (Reference.activity "resourceA" "Warning" "2025-08-22T10:04:59Z" "c")
    ++ Reference.copies 27
         (Reference.activity "resourceA" "Error" "2025-08-22T10:04:59Z" "c") in
  ∃ a,
    Reference.analyze_alerts activity_alerts [] = Ok a
    ∧ most_common 20 (Analyzer.top_alerting_resources a) = [("resourceA", 90%nat)]
    ∧ Analyzer.low_sev_count "resourceA" activity_alerts = 63%nat
    ∧ (7 * 90 <? 10 * 63) = false
    ∧ float_mul (float_of_int 90) float_0_7
      = S754_finite false 8866461766385663 (-47)
    ∧ Analyzer.tuning_recommendations a =
      [ {| Analyzer.resource := "resourceA"; Analyzer.alert_count := 90;
           Analyzer.recommendation :=
             "Consider adjusting thresholds or reducing alert sensitivity" |} ].
Proof.
  eexists. repeat split; vm_compute; reflexivity.
Qed.

(** ** Percentages and rates of the report *)

Lemma percentage_total count total :
  ∃ p, Analyzer.percentage count total = Ok p.
Proof.
  unfold Analyzer.percentage, py_truediv.
  destruct (Z.ltb_spec 0 total) as [H|H]; [|eauto].
  replace (total =? 0) with false by (symmetry; apply Z.eqb_neq; lia).
  simpl. eauto.
Qed.

Lemma percentage_zero_total count : Analyzer.percentage count 0 = Ok (PInt 0).
Proof. reflexivity. Qed.

Lemma dashboard_percentage_zero_total count : Rollup.percentage count 0 = Ok (PInt 0).
Proof. reflexivity. Qed.

Lemma percentage_table_zero_total (m : gmap string nat) :
  Analyzer.percentage_table m 0 =
  Ok (map (fun kc : string * nat => (kc.1, kc.2, PInt 0)) (map_to_list m)).
Proof.
  unfold Analyzer.percentage_table.
  induction (map_to_list m) as [|[k c] l IH]; [reflexivity|].
  cbn [mapM]. unfold mbind at 1, res_mbind. cbn [res_bind Analyzer.percentage].
  change (0 <? Z.of_nat 0) with false. cbn.
  unfold mbind, res_mbind in *. rewrite IH. reflexivity.
Qed.

(** C9 at a zero number of days.  [generate_report] divides the total by
    [days_back] without a guard: with [days_back = 0] it raises on every
    analysis document, while the percentages of the same report are
    guarded. *)
Theorem report_raises_on_zero_days (a : Analyzer.analysis) :
  Analyzer.generate_report a 0 = Err ZeroDivisionError
  ∧ (∀ count, Analyzer.percentage count 0 = Ok (PInt 0))
  ∧ Analyzer.lifecycle_rate (Analyzer.acknowledged_alerts
                               (Analyzer.alert_lifecycle_metrics a)) 0 = Ok None.
Proof. repeat split. Qed.

Lemma percentage_table_total (m : gmap string nat) total :
  ∃ t, Analyzer.percentage_table m total = Ok t.
Proof.
  unfold Analyzer.percentage_table.
  induction (map_to_list m) as [|[k c] l [t IH]]; [by eexists|].
  cbn [mapM]. destruct (percentage_total (Z.of_nat c) (Z.of_nat total)) as [p Hp].
  unfold mbind, res_mbind in *. cbn [fst snd]. rewrite Hp. cbn [res_bind].
  rewrite IH. cbn. eauto.
Qed.

Lemma lifecycle_rate_total n new : ∃ r, Analyzer.lifecycle_rate n new = Ok r.
Proof.
  unfold Analyzer.lifecycle_rate, py_truediv.
  destruct (Nat.ltb_spec 0 new) as [H|H]; [|eauto].
  replace (Z.of_nat new =? 0) with false by (symmetry; apply Z.eqb_neq; lia).
  simpl. eauto.
Qed.

(** With a number of days other than 0 the report raises nothing, whatever
    the totals are. *)
Lemma generate_report_total (a : Analyzer.analysis) days_back :
  days_back ≠ 0 → ∃ r, Analyzer.generate_report a days_back = Ok r.
Proof.
  intros Hd. unfold Analyzer.generate_report, py_truediv.
  replace (days_back =? 0) with false by (symmetry; by apply Z.eqb_neq).
  replace (Z.max _ 1 =? 0) with false by (symmetry; apply Z.eqb_neq; lia).
  cbn [mbind res_mbind res_bind].
  destruct (percentage_table_total (Analyzer.severity_breakdown a)
              (Analyzer.total_alerts a)) as [t1 ->].
  destruct (percentage_table_total (Analyzer.alert_state_breakdown a)
              (Analyzer.total_alerts a)) as [t2 ->].
  cbn [res_bind].
  destruct (lifecycle_rate_total
              (Analyzer.acknowledged_alerts (Analyzer.alert_lifecycle_metrics a))
              (Analyzer.new_alerts (Analyzer.alert_lifecycle_metrics a))) as [r1 ->].
  destruct (lifecycle_rate_total
              (Analyzer.closed_alerts (Analyzer.alert_lifecycle_metrics a))
              (Analyzer.new_alerts (Analyzer.alert_lifecycle_metrics a))) as [r2 ->].
  cbn [res_bind]. eauto.
Qed.

(** ** The breakdown loops, record by record *)

Lemma for_each_fold {A S T} (body : S → A → res S) (proj : S → T) (g : T → A → T)
    (xs : list A) (s0 s : S) :
  (∀ s x s', body s x = Ok s' → proj s' = g (proj s) x) →
  for_each body xs s0 = Ok s → proj s = fold_left g xs (proj s0).
Proof.
  intros Hstep. revert s0. induction xs as [|x xs IH]; intros s0; simpl.
  - by intros [= ->].
  - destruct (body s0 x) as [s1|] eqn:E; [|done].
    intros Hs. rewrite <- (Hstep _ _ _ E). by apply IH.
Qed.

Lemma fold_left_map {A B C} (f : A → B → A) (h : C → B) (l : list C) (a : A) :
  fold_left f (map h l) a = fold_left (fun a x => f a (h x)) l a.
Proof. revert a. induction l as [|x l IH]; intros a; simpl; [done|apply IH]. Qed.

Ltac case_when :=
  repeat match goal with
    | |- context [Analyzer.when ?o _ _] => destruct o; cbn [Analyzer.when]
    end.

Section Steps.
Variable fromisoformat : string → option datetime.
Variable py_repr : json → string.
Variable strftime_ymd : datetime → string.

Local Abbreviation activity_step :=
  (Analyzer.activity_step fromisoformat py_repr strftime_ymd).
Local Abbreviation history_step :=
  (Analyzer.history_step fromisoformat py_repr strftime_ymd).

Lemma count_resource_type_spec v a a' :
  Analyzer.count_resource_type py_repr v a = Ok a' →
  a' = Analyzer.with_resource_type (bump (resource_type_key py_repr v)) a.
Proof.
  unfold Analyzer.count_resource_type, resource_type_key.
  destruct (truthy v); [|by intros [= <-]; destruct a].
  destruct (hash_key _); [|done]. by intros [= <-].
Qed.

Lemma count_time_spec v a :
  Analyzer.count_time fromisoformat strftime_ymd v a =
  Analyzer.with_time
    (bump (hour <$> Analyzer.parse_time fromisoformat v))
    (bump (strftime_ymd <$> Analyzer.parse_time fromisoformat v)) a.
Proof.
  unfold Analyzer.count_time.
  destruct (Analyzer.parse_time fromisoformat v); [reflexivity|by destruct a].
Qed.

(** What one activity alert adds to each breakdown. *)
Lemma activity_step_fields a (x : alert) a' :
  activity_step a x = Ok a' →
  Analyzer.severity_breakdown a' =
    bump (activity_level x) (Analyzer.severity_breakdown a)
  ∧ Analyzer.resource_type_breakdown a' =
    bump (resource_type_key py_repr (get "resourceType" x))
      (Analyzer.resource_type_breakdown a)
  ∧ Analyzer.resource_group_breakdown a' =
    bump (nonempty_str (get "resourceGroup" x)) (Analyzer.resource_group_breakdown a)
  ∧ Analyzer.top_alerting_resources a' =
    obump (nonempty_str (get "resourceId" x)) (Analyzer.top_alerting_resources a)
  ∧ Analyzer.hourly_distribution a' =
    bump (hour <$> Analyzer.parse_time fromisoformat (get "timestamp" x))
      (Analyzer.hourly_distribution a)
  ∧ Analyzer.daily_distribution a' =
    bump (strftime_ymd <$> Analyzer.parse_time fromisoformat (get "timestamp" x))
      (Analyzer.daily_distribution a)
  ∧ Analyzer.top_alerts_by_severity a' = Analyzer.top_alerts_by_severity a
  ∧ Analyzer.alert_state_breakdown a' = Analyzer.alert_state_breakdown a
  ∧ Analyzer.alert_state_by_severity a' = Analyzer.alert_state_by_severity a
  ∧ Analyzer.alert_lifecycle_metrics a' = Analyzer.alert_lifecycle_metrics a
  ∧ Analyzer.total_alerts a' = Analyzer.total_alerts a.
Proof.
  unfold Analyzer.activity_step, activity_level.
  destruct (Analyzer.count_resource_type _ _ _) as [a1|] eqn:E; [|done].
  apply count_resource_type_spec in E as ->.
  cbn [mbind res_mbind res_bind]. intros [= <-]. rewrite count_time_spec.
  case_when; repeat split.
Qed.

(** What one history alert adds to the severity counter, to the
    per-severity names and to the time buckets. *)
Lemma history_step_fields a (x : alert) a' :
  history_step a x = Ok a' →
  Analyzer.severity_breakdown a' =
    bump (history_severity x) (Analyzer.severity_breakdown a)
  ∧ Analyzer.top_alerts_by_severity a' =
    match history_severity x with
    | Some sev =>
        Analyzer.count_top_alert sev (get_or "name" (JStr "Unknown Alert") x)
          (Analyzer.top_alerts_by_severity a)
    | None => Analyzer.top_alerts_by_severity a
    end
  ∧ Analyzer.hourly_distribution a' =
    bump (hour <$> Analyzer.parse_time fromisoformat (get "startDateTime" x))
      (Analyzer.hourly_distribution a)
  ∧ Analyzer.daily_distribution a' =
    bump (strftime_ymd <$> Analyzer.parse_time fromisoformat (get "startDateTime" x))
      (Analyzer.daily_distribution a).
Proof.
  unfold Analyzer.history_step, history_severity.
  destruct (Analyzer.count_resource_type _ _ _) as [a1|] eqn:E; [|done].
  apply count_resource_type_spec in E as ->.
  cbn [mbind res_mbind res_bind]. intros [= <-]. rewrite count_time_spec.
  case_when; repeat split.
Qed.
End Steps.

(** ** Record normalization *)

(** A [resourceType] that is the number 5, neither a string nor a
    structured value, is not treated as absent: by the [else] branch of
    line 66 the record is counted under the rendering ["5"]. *)
Example numeric_resource_type_counted :
  ∃ a,
    Reference.analyze_alerts [ {[ "resourceType" := JNum 5 ]} ] [] = Ok a
    ∧ Analyzer.resource_type_breakdown a !! KStr "5" = Some 1%nat.
Proof. eexists. split; vm_compute; reflexivity. Qed.

(** A structured [resourceType] whose [value] is a list is used as a key of
    the counter, which raises. *)
Example unhashable_resource_type_raises :
  Reference.analyze_alerts
    [ {[ "resourceType" := JObj {[ "value" := JArr [JStr "x"] ]} ]} ] []
  = Err TypeError.
Proof. vm_compute. reflexivity. Qed.

(** The loop of run 20250822_132921 indexes the fields and raises on a
    record that lacks one. *)
Example absent_field_raises_in_first_variant :
  Analyzer0.breakdown_loops Reference.fromisoformat Reference.strftime_ymd
    [ {[ "level" := JStr "Error" ]} ] []
  = Err KeyError.
Proof. vm_compute. reflexivity. Qed.

Lemma nonempty_str_none v : nonempty_str v = None ↔ ∀ s, v = JStr s → s = "".
Proof.
  destruct v as [| | |s| |]; simpl; try (split; [intros _ s' [=]|done]).
  destruct (String.eqb_spec s ""); split; try done.
  - by intros _ ? [= <-].
  - intros Hs. by specialize (Hs s eq_refl).
Qed.

(** What the loop of run 20250822_171957 does with an activity record
    whose resource type can be counted: it does not fail, and each field
    acts on its own breakdown only.  A [level], [resourceGroup], [resourceId] or
    [timestamp] that is absent, empty or not a string (and a timestamp that
    does not parse) is treated as absent.  A [resourceType] that is absent
    or falsy is treated as absent; any other one is counted: a structured
    value under its [value], else its [localizedValue], else its rendering,
    and a value of any other shape (a number, a boolean, a list) under its
    rendering. *)
Lemma countable_record_normalization
    (fromisoformat : string → option datetime) (py_repr : json → string)
    (strftime_ymd : datetime → string) (a : Analyzer.analysis) (x : alert) :
  countable_resource_type py_repr (get "resourceType" x) = true →
  (∃ a',
     Analyzer.activity_step fromisoformat py_repr strftime_ymd a x = Ok a'
     ∧ Analyzer.severity_breakdown a' =
       bump (nonempty_str (get "level" x)) (Analyzer.severity_breakdown a)
     ∧ Analyzer.resource_type_breakdown a' =
       bump (resource_type_key py_repr (get "resourceType" x))
         (Analyzer.resource_type_breakdown a)
     ∧ Analyzer.resource_group_breakdown a' =
       bump (nonempty_str (get "resourceGroup" x)) (Analyzer.resource_group_breakdown a)
     ∧ Analyzer.top_alerting_resources a' =
       obump (nonempty_str (get "resourceId" x)) (Analyzer.top_alerting_resources a)
     ∧ Analyzer.hourly_distribution a' =
       bump (hour <$> Analyzer.parse_time fromisoformat (get "timestamp" x))
         (Analyzer.hourly_distribution a)
     ∧ Analyzer.daily_distribution a' =
       bump (strftime_ymd <$> Analyzer.parse_time fromisoformat (get "timestamp" x))
         (Analyzer.daily_distribution a))
  ∧ (∀ v, nonempty_str v = None ↔ ∀ s, v = JStr s → s = "")
  ∧ (∀ v, Analyzer.parse_time fromisoformat v = None ↔
          ∀ s, nonempty_str v = Some s → fromisoformat (replace_Z s) = None)
  ∧ (∀ v, truthy v = false → resource_type_key py_repr v = None)
  ∧ (∀ v, truthy v = true → (∀ d, v ≠ JObj d) →
          resource_type_key py_repr v = Some (KStr (Analyzer.py_str py_repr v)))
  ∧ (∀ d k, truthy (JObj d) = true →
          hash_key
            (py_or (py_or (get "value" d) (get "localizedValue" d))
                   (JStr (py_repr (JObj d)))) = Ok k →
          resource_type_key py_repr (JObj d) = Some k).
Proof.
  intros Hx. split; [|split; [|split; [|split; [|split]]]].
  - destruct (activity_step_total fromisoformat py_repr strftime_ymd a x Hx) as [a' Ha].
    exists a'. split; [exact Ha|].
    apply activity_step_fields in Ha. unfold activity_level in Ha. tauto.
  - apply nonempty_str_none.
  - intros v. unfold Analyzer.parse_time. destruct (nonempty_str v) as [s|].
    + split; [by intros H ? [= <-]|eauto].
    + split; done.
  - intros v Hv. unfold resource_type_key. by rewrite Hv.
  - intros v Hv Hnd. unfold resource_type_key. rewrite Hv.
    destruct v; try reflexivity. by destruct (Hnd fields).
  - intros d k Hd Hk. unfold resource_type_key. rewrite Hd.
    simpl. by rewrite Hk.
Qed.

(** Worked example: a numeric [level], a structured [resourceType] without
    [value], a null [resourceGroup] and a well-formed [resourceId]. *)
Example countable_record_normalization_example :
  ∃ a',
    Analyzer.activity_step Reference.fromisoformat Reference.py_repr
      Reference.strftime_ymd (Analyzer.init [] [])
      {[ "level" := JNum 5;
         "resourceType" := JObj {[ "localizedValue" := JStr "Virtual machine" ]};
         "resourceGroup" := JNull;
         "resourceId" := JStr "resourceA" ]} = Ok a'
    ∧ Analyzer.severity_breakdown a' = bump None ∅
    ∧ Analyzer.top_alerting_resources a' = obump (Some "resourceA") [].
Proof.
  destruct (countable_record_normalization Reference.fromisoformat Reference.py_repr
              Reference.strftime_ymd (Analyzer.init [] [])
              {[ "level" := JNum 5;
                 "resourceType" := JObj {[ "localizedValue" := JStr "Virtual machine" ]};
                 "resourceGroup" := JNull;
                 "resourceId" := JStr "resourceA" ]})
    as [(a' & Ha & Hsev & _ & _ & Htop & _) _].
  - vm_compute. reflexivity.
  - exists a'. split; [exact Ha|]. split; [exact Hsev|exact Htop].
Qed.

(** ** Counters filled by a loop *)

Lemma count_if_cons {A} (p : A → bool) x xs :
  count_if p (x :: xs) = ((if p x then 1 else 0) + count_if p xs)%nat.
Proof.
  unfold count_if. rewrite filter_cons.
  destruct (p x); [rewrite decide_True by done|rewrite decide_False by done];
    reflexivity.
Qed.

Lemma bump_lookup `{Countable K} (o : option K) (c : gmap K nat) (k : K) :
  default 0%nat (bump o c !! k) =
  (default 0%nat (c !! k) + (if bool_decide (o = Some k) then 1 else 0))%nat.
Proof.
  destruct o as [k'|]; cbn [bump].
  - unfold incr. destruct (decide (k' = k)) as [->|Hne].
    + rewrite lookup_insert_eq, bool_decide_eq_true_2 by done. simpl. lia.
    + rewrite lookup_insert_ne, bool_decide_eq_false_2 by congruence. lia.
  - rewrite bool_decide_eq_false_2 by done. lia.
Qed.

Lemma bump_fold_lookup `{Countable K} {A} (f : A → option K) (xs : list A)
    (c : gmap K nat) (k : K) :
  default 0%nat (fold_left (fun c x => bump (f x) c) xs c !! k) =
  (default 0%nat (c !! k) + count_if (fun x => bool_decide (f x = Some k)) xs)%nat.
Proof.
  revert c. induction xs as [|x xs IH]; intros c; simpl.
  - unfold count_if. simpl. lia.
  - rewrite IH, bump_lookup, count_if_cons. lia.
Qed.

Lemma empty_top_alerts_lookup sev :
  Analyzer.empty_top_alerts !! sev =
  if decide (sev ∈ Analyzer.five_severities) then Some ∅ else None.
Proof.
  destruct (decide (sev ∈ Analyzer.five_severities)) as [Hin|Hnin].
  - unfold Analyzer.five_severities in Hin.
    repeat (apply elem_of_cons in Hin as [->|Hin]; [reflexivity|]).
    by apply elem_of_nil in Hin.
  - apply not_elem_of_list_to_map_1. by rewrite map_map, map_id.
Qed.

Lemma top_alerts_step_keys t (x : alert) sev :
  is_Some (top_alerts_step t x !! sev) ↔ is_Some (t !! sev).
Proof.
  unfold top_alerts_step, Analyzer.count_top_alert.
  destruct (history_severity x) as [s|]; [|done].
  destruct (get_or "name" (JStr "Unknown Alert") x) as [| | |n| |]; try done.
  destruct (t !! s) as [c|] eqn:Es; [|done].
  destruct (decide (s = sev)) as [->|Hne].
  - rewrite lookup_insert_eq, Es. split; eauto.
  - by rewrite lookup_insert_ne.
Qed.

Lemma top_alerts_step_count t (x : alert) sev name :
  is_Some (t !! sev) →
  top_count (top_alerts_step t x) sev name =
  (top_count t sev name + (if named_alert sev name x then 1 else 0))%nat.
Proof.
  intros [c Hc]. unfold top_count, top_alerts_step, named_alert, history_name,
    Analyzer.count_top_alert.
  destruct (history_severity x) as [s|].
  - destruct (get_or "name" (JStr "Unknown Alert") x) as [| | |n| |];
      try (rewrite bool_decide_eq_false_2 by (intros [_ [=]]); lia).
    destruct (decide (s = sev)) as [->|Hne].
    + rewrite Hc, lookup_insert_eq. cbn [mbind option_bind]. unfold incr.
      destruct (decide (n = name)) as [->|Hn].
      * rewrite lookup_insert_eq, bool_decide_eq_true_2 by done. simpl. lia.
      * rewrite lookup_insert_ne by done.
        rewrite bool_decide_eq_false_2 by (intros [_ [=]]; done). lia.
    + rewrite bool_decide_eq_false_2 by (intros [[=] _]; done).
      destruct (t !! s); [rewrite lookup_insert_ne by done|]; lia.
  - rewrite bool_decide_eq_false_2 by (intros [[=] _]). lia.
Qed.

Lemma top_alerts_fold_keys (xs : list alert) t sev :
  is_Some (fold_left top_alerts_step xs t !! sev) ↔ is_Some (t !! sev).
Proof.
  revert t. induction xs as [|x xs IH]; intros t; simpl; [done|].
  by rewrite IH, top_alerts_step_keys.
Qed.

Lemma top_alerts_fold_count (xs : list alert) t sev name :
  is_Some (t !! sev) →
  top_count (fold_left top_alerts_step xs t) sev name =
  (top_count t sev name + count_if (named_alert sev name) xs)%nat.
Proof.
  revert t. induction xs as [|x xs IH]; intros t Ht; simpl.
  - unfold count_if. simpl. lia.
  - rewrite IH by (by apply top_alerts_step_keys).
    rewrite top_alerts_step_count, count_if_cons by done. lia.
Qed.

Section Loops.
Variable fromisoformat : string → option datetime.
Variable py_repr : json → string.
Variable strftime_ymd : datetime → string.
Variable set_iter : list string → list string.

Local Abbreviation activity_step :=
  (Analyzer.activity_step fromisoformat py_repr strftime_ymd).
Local Abbreviation history_step :=
  (Analyzer.history_step fromisoformat py_repr strftime_ymd).

(** The document is the state the two loops leave, with its detail
    lists. *)
Lemma analyze_alerts_loops (activity_alerts alert_history : list alert) a :
  Analyzer.analyze_alerts fromisoformat py_repr strftime_ymd set_iter
    activity_alerts alert_history = Ok a →
  ∃ a1 a2,
    for_each activity_step activity_alerts
      (Analyzer.init activity_alerts alert_history) = Ok a1
    ∧ for_each history_step alert_history a1 = Ok a2
    ∧ Analyzer.severity_breakdown a = Analyzer.severity_breakdown a2
    ∧ Analyzer.top_alerts_by_severity a = Analyzer.top_alerts_by_severity a2
    ∧ Analyzer.hourly_distribution a = Analyzer.hourly_distribution a2
    ∧ Analyzer.daily_distribution a = Analyzer.daily_distribution a2.
Proof.
  unfold Analyzer.analyze_alerts.
  destruct (for_each _ activity_alerts _) as [a1|]; [|done]. simpl.
  destruct (for_each _ alert_history _) as [a2|] eqn:E2; [|done]. simpl.
  intros [= <-]. exists a1, a2. repeat split. exact E2.
Qed.

Lemma activity_loop_fields (xs : list alert) a0 a1 :
  for_each activity_step xs a0 = Ok a1 →
  Analyzer.severity_breakdown a1 =
    fold_left (fun c x => bump (activity_level x) c) xs (Analyzer.severity_breakdown a0)
  ∧ Analyzer.top_alerts_by_severity a1 = Analyzer.top_alerts_by_severity a0
  ∧ Analyzer.hourly_distribution a1 =
    fold_left
      (fun h x => bump (hour <$> Analyzer.parse_time fromisoformat (get "timestamp" x)) h)
      xs (Analyzer.hourly_distribution a0)
  ∧ Analyzer.daily_distribution a1 =
    fold_left
      (fun d x =>
         bump (strftime_ymd <$> Analyzer.parse_time fromisoformat (get "timestamp" x)) d)
      xs (Analyzer.daily_distribution a0).
Proof.
  intros Hloop. repeat split.
  - apply (for_each_fold activity_step Analyzer.severity_breakdown _ xs a0 a1); [|done].
    intros s x s' Hs. by apply activity_step_fields in Hs as (-> & _).
  - rewrite (for_each_fold activity_step Analyzer.top_alerts_by_severity
               (fun t _ => t) xs a0 a1); [|by intros s x s' Hs;
               apply activity_step_fields in Hs as (_&_&_&_&_&_& -> & _)|done].
    clear. induction xs; simpl; auto.
  - apply (for_each_fold activity_step Analyzer.hourly_distribution _ xs a0 a1); [|done].
    intros s x s' Hs. by apply activity_step_fields in Hs as (_&_&_&_& -> & _).
  - apply (for_each_fold activity_step Analyzer.daily_distribution _ xs a0 a1); [|done].
    intros s x s' Hs. by apply activity_step_fields in Hs as (_&_&_&_&_& -> & _).
Qed.

Lemma history_loop_fields (xs : list alert) a1 a2 :
  for_each history_step xs a1 = Ok a2 →
  Analyzer.severity_breakdown a2 =
    fold_left (fun c x => bump (history_severity x) c) xs (Analyzer.severity_breakdown a1)
  ∧ Analyzer.top_alerts_by_severity a2 =
    fold_left top_alerts_step xs (Analyzer.top_alerts_by_severity a1)
  ∧ Analyzer.hourly_distribution a2 =
    fold_left
      (fun h x =>
         bump (hour <$> Analyzer.parse_time fromisoformat (get "startDateTime" x)) h)
      xs (Analyzer.hourly_distribution a1)
  ∧ Analyzer.daily_distribution a2 =
    fold_left
      (fun d x =>
         bump (strftime_ymd <$> Analyzer.parse_time fromisoformat (get "startDateTime" x)) d)
      xs (Analyzer.daily_distribution a1).
Proof.
  intros Hloop. repeat split.
  - apply (for_each_fold history_step Analyzer.severity_breakdown _ xs a1 a2); [|done].
    intros s x s' Hs. by apply history_step_fields in Hs as (-> & _).
  - apply (for_each_fold history_step Analyzer.top_alerts_by_severity _ xs a1 a2); [|done].
    intros s x s' Hs. by apply history_step_fields in Hs as (_ & -> & _).
  - apply (for_each_fold history_step Analyzer.hourly_distribution _ xs a1 a2); [|done].
    intros s x s' Hs. by apply history_step_fields in Hs as (_&_& -> & _).
  - apply (for_each_fold history_step Analyzer.daily_distribution _ xs a1 a2); [|done].
    intros s x s' Hs. by apply history_step_fields in Hs as (_&_&_& ->).
Qed.
End Loops.

(** ** The per-severity names *)

(** C8 as stated fails: a history alert of severity [Sev1] without a [name]
    key is counted in the per-severity structure, under ["Unknown Alert"]. *)
Lemma unnamed_alert_counterexample :
  ∃ a,
    Reference.analyze_alerts [] [ {[ "severity" := JStr "Sev1" ]} ] = Ok a
    ∧ top_count (Analyzer.top_alerts_by_severity a) "Sev1" "Unknown Alert" = 1%nat.
Proof. eexists. split; vm_compute; reflexivity. Qed.

(** C8, amended.  On every input the loops can count, the analysis returns
    a document whose per-severity structure has the five keys [Sev0] to
    [Sev4] and no other, and counts, for each of them and each name, the
    history alerts of that severity counted under that name: the alerts
    whose [name] is that string, and under ["Unknown Alert"] the alerts
    without a [name] key; an alert whose [name] is present and not a string
    is counted under no name.  Activity alerts add nothing to it.  Every
    severity, recognised or not, is counted in the severity breakdown, once
    per activity alert of that level and once per history alert of that
    severity. *)
Theorem top_alerts_by_severity_counts
    (fromisoformat : string → option datetime) (py_repr : json → string)
    (strftime_ymd : datetime → string) (set_iter : list string → list string)
    (activity_alerts alert_history : list alert) :
  countable_input py_repr activity_alerts alert_history = true →
  ∃ a,
    Analyzer.analyze_alerts fromisoformat py_repr strftime_ymd set_iter
      activity_alerts alert_history = Ok a
    ∧ (∀ sev, is_Some (Analyzer.top_alerts_by_severity a !! sev) ↔
              sev ∈ Analyzer.five_severities)
    ∧ (∀ sev name, sev ∈ Analyzer.five_severities →
         top_count (Analyzer.top_alerts_by_severity a) sev name =
         count_if (named_alert sev name) alert_history)
    ∧ (∀ sev,
         default 0%nat (Analyzer.severity_breakdown a !! sev) =
         (count_if (has_level sev) activity_alerts
          + count_if (has_severity sev) alert_history)%nat)
    ∧ (∀ x : alert, x !! "name" = None → history_name x = Some "Unknown Alert")
    ∧ (∀ (x : alert) v, x !! "name" = Some v → (∀ s, v ≠ JStr s) →
         history_name x = None).
Proof.
  intros Hin.
  destruct (analyze_alerts_total fromisoformat py_repr strftime_ymd set_iter
              _ _ Hin) as [a Ha].
  exists a. split; [exact Ha|].
  apply analyze_alerts_loops in Ha as (a1 & a2 & H1 & H2 & -> & -> & _).
  apply activity_loop_fields in H1 as (Hs1 & Ht1 & _).
  apply history_loop_fields in H2 as (Hs2 & Ht2 & _).
  rewrite Ht2, Ht1, Hs2, Hs1. cbn [Analyzer.init Analyzer.top_alerts_by_severity
    Analyzer.severity_breakdown].
  assert (∀ sev, is_Some (Analyzer.empty_top_alerts !! sev) ↔
                 sev ∈ Analyzer.five_severities) as Hkeys.
  { intros sev. rewrite empty_top_alerts_lookup.
    destruct (decide (sev ∈ Analyzer.five_severities)); split; done. }
  split; [|split; [|split; [|split]]].
  - intros sev. by rewrite top_alerts_fold_keys.
  - intros sev name Hsev. rewrite top_alerts_fold_count by (by apply Hkeys).
    unfold top_count at 1. rewrite empty_top_alerts_lookup, decide_True by done.
    reflexivity.
  - intros sev. rewrite !bump_fold_lookup, lookup_empty. reflexivity.
  - intros x Hx. unfold history_name, get_or. by rewrite Hx.
  - intros x v Hx Hv. unfold history_name, get_or. rewrite Hx. simpl.
    destruct v; try done. by destruct (Hv s).
Qed.

(** C8, worked example: two history alerts of severity [Sev1], one named
    and one without a name, one of the unrecognised severity [Critical],
    and an activity alert. *)
Lemma top_alerts_by_severity_counts_witness :
  ∃ a,
    Reference.analyze_alerts
      [Reference.activity "resourceA" "Critical" "2025-08-22T10:04:59Z" "c"]
      [ {[ "severity" := JStr "Sev1"; "name" := JStr "cpu" ]};
        {[ "severity" := JStr "Sev1" ]};
        {[ "severity" := JStr "Critical"; "name" := JStr "disk" ]} ] = Ok a
    ∧ top_count (Analyzer.top_alerts_by_severity a) "Sev1" "Unknown Alert" = 1%nat
    ∧ default 0%nat (Analyzer.severity_breakdown a !! "Critical") = 2%nat
    ∧ ¬ is_Some (Analyzer.top_alerts_by_severity a !! "Critical").
Proof.
  destruct (top_alerts_by_severity_counts
              Reference.fromisoformat Reference.py_repr Reference.strftime_ymd
              Reference.set_iter
              [Reference.activity "resourceA" "Critical" "2025-08-22T10:04:59Z" "c"]
              [ {[ "severity" := JStr "Sev1"; "name" := JStr "cpu" ]};
                {[ "severity" := JStr "Sev1" ]};
                {[ "severity" := JStr "Critical"; "name" := JStr "disk" ]} ])
    as (a & Ha & Hkeys & Htop & Hsev & _).
  - vm_compute. reflexivity.
  - exists a. split; [exact Ha|]. split; [|split].
    + rewrite Htop by apply list_elem_of_further, list_elem_of_here.
      vm_compute. reflexivity.
    + rewrite Hsev. vm_compute. reflexivity.
    + rewrite Hkeys. unfold Analyzer.five_severities. intros H.
      repeat (apply elem_of_cons in H as [H|H]; [discriminate H|]).
      by apply elem_of_nil in H.
Defined.

(** ** The time distributions *)

Lemma hour_counts_app l1 l2 :
  hour_counts (l1 ++ l2) = fold_left (fun h o => bump (hour <$> o) h) l2 (hour_counts l1).
Proof. unfold hour_counts. apply fold_left_app. Qed.

Lemma day_counts_app strftime_ymd l1 l2 :
  day_counts strftime_ymd (l1 ++ l2) =
  fold_left (fun d o => bump (strftime_ymd <$> o) d) l2 (day_counts strftime_ymd l1).
Proof. unfold day_counts. apply fold_left_app. Qed.

(** C6 as stated fails on run 20250822_171957: one history alert with a
    start time, no activity alert, and the hour 10 and the day of the alert
    are counted. *)
Lemma history_time_counterexample :
  ∃ a,
    Reference.analyze_alerts []
      [ {[ "startDateTime" := JStr "2025-08-22T10:04:59Z" ]} ] = Ok a
    ∧ Analyzer.hourly_distribution a !! 10 = Some 1%nat
    ∧ Analyzer.daily_distribution a !! "2025-08-22" = Some 1%nat.
Proof. eexists. repeat split; vm_compute; reflexivity. Qed.

Section Times0.
Variable fromisoformat : string → option datetime.
Variable strftime_ymd : datetime → string.

Local Abbreviation activity_step0 := (Analyzer0.activity_step fromisoformat strftime_ymd).

Lemma count_time0_spec (v : json) h d h' d' :
  Analyzer0.count_time fromisoformat strftime_ymd v h d = Ok (h', d') →
  h' = bump (hour <$> Analyzer.parse_time fromisoformat v) h
  ∧ d' = bump (strftime_ymd <$> Analyzer.parse_time fromisoformat v) d.
Proof.
  unfold Analyzer0.count_time, Analyzer.parse_time.
  destruct v as [|b|n|s|xs|m]; cbn [truthy nonempty_str].
  - by intros [= <- <-].
  - destruct b; [done|by intros [= <- <-]].
  - destruct (negb (n =? 0)); [done|by intros [= <- <-]].
  - destruct (String.eqb s ""); cbn [negb]; [by intros [= <- <-]|].
    destruct (fromisoformat (replace_Z s)); [|done]. by intros [= <- <-].
  - destruct xs; [by intros [= <- <-]|done].
  - destruct (negb _); [done|by intros [= <- <-]].
Qed.

Lemma getitem_get k (x : alert) v : Analyzer0.getitem k x = Ok v → get k x = v.
Proof.
  unfold Analyzer0.getitem, get. destruct (x !! k); [|done]. by intros [= ->].
Qed.

(** In the first variant an activity alert counts its timestamp, a history
    alert counts no time at all. *)
Lemma activity_step0_times b (x : alert) b' :
  activity_step0 b x = Ok b' →
  Analyzer0.hourly_distribution b' =
    bump (hour <$> Analyzer.parse_time fromisoformat (get "timestamp" x))
      (Analyzer0.hourly_distribution b)
  ∧ Analyzer0.daily_distribution b' =
    bump (strftime_ymd <$> Analyzer.parse_time fromisoformat (get "timestamp" x))
      (Analyzer0.daily_distribution b).
Proof.
  unfold Analyzer0.activity_step.
  repeat (match goal with
          | |- context [Analyzer0.getitem ?k x] =>
              destruct (Analyzer0.getitem k x) as [?v|] eqn:?E; [|done]
          | |- context [Analyzer0.count_if_truthy ?v ?c] =>
              destruct (Analyzer0.count_if_truthy v c); [|done]
          end; cbn [mbind res_mbind res_bind]).
  destruct (Analyzer0.count_time _ _ _ _ _) as [[h' d']|] eqn:Et; [|done].
  cbn [mbind res_mbind res_bind]. intros [= <-]. simpl.
  apply count_time0_spec in Et.
  match goal with
  | H : Analyzer0.getitem "timestamp" x = Ok _ |- _ =>
      apply getitem_get in H; rewrite H
  end.
  exact Et.
Qed.

Lemma history_step0_times b (x : alert) b' :
  Analyzer0.history_step b x = Ok b' →
  Analyzer0.hourly_distribution b' = Analyzer0.hourly_distribution b
  ∧ Analyzer0.daily_distribution b' = Analyzer0.daily_distribution b.
Proof.
  unfold Analyzer0.history_step.
  repeat (match goal with
          | |- context [Analyzer0.count_if_truthy ?v ?c] =>
              destruct (Analyzer0.count_if_truthy v c); [|done]
          end; cbn [mbind res_mbind res_bind]).
  by intros [= <-].
Qed.

Lemma fold_left_const {A B} (xs : list B) (a : A) : fold_left (fun a _ => a) xs a = a.
Proof. induction xs; simpl; auto. Qed.

Lemma breakdown_loops_times (activity_alerts alert_history : list alert) b :
  Analyzer0.breakdown_loops fromisoformat strftime_ymd
    activity_alerts alert_history = Ok b →
  Analyzer0.hourly_distribution b =
    hour_counts (times fromisoformat "timestamp" activity_alerts)
  ∧ Analyzer0.daily_distribution b =
    day_counts strftime_ymd (times fromisoformat "timestamp" activity_alerts).
Proof.
  unfold Analyzer0.breakdown_loops.
  destruct (for_each _ activity_alerts _) as [b1|] eqn:E1; [|done].
  cbn [mbind res_mbind res_bind]. intros E2.
  unfold hour_counts, day_counts, times. rewrite !fold_left_map. split.
  - rewrite (for_each_fold Analyzer0.history_step Analyzer0.hourly_distribution
               (fun h _ => h) alert_history b1 b);
      [|by intros s x s' Hs; apply history_step0_times in Hs as [-> _]|done].
    rewrite fold_left_const.
    apply (for_each_fold activity_step0 Analyzer0.hourly_distribution _
             activity_alerts Analyzer0.init b1); [|done].
    intros s x s' Hs. by apply activity_step0_times in Hs as [-> _].
  - rewrite (for_each_fold Analyzer0.history_step Analyzer0.daily_distribution
               (fun d _ => d) alert_history b1 b);
      [|by intros s x s' Hs; apply history_step0_times in Hs as [_ ->]|done].
    rewrite fold_left_const.
    apply (for_each_fold activity_step0 Analyzer0.daily_distribution _
             activity_alerts Analyzer0.init b1); [|done].
    intros s x s' Hs. by apply activity_step0_times in Hs as [_ ->].
Qed.
End Times0.

(** C6, amended.  The two analyzer variants differ.  In run
    20250822_171957 the hourly and daily distributions count the parsable
    timestamps of the activity alerts and, after them, the parsable start
    times of the history alerts: a history alert does change them.  In run
    20250822_132921 they count the timestamps of the activity alerts only,
    whatever the history alerts are. *)
Theorem time_distribution_sources
    (fromisoformat : string → option datetime) (py_repr : json → string)
    (strftime_ymd : datetime → string) (set_iter : list string → list string)
    (activity_alerts alert_history : list alert) :
  countable_input py_repr activity_alerts alert_history = true →
  (∃ a,
     Analyzer.analyze_alerts fromisoformat py_repr strftime_ymd set_iter
       activity_alerts alert_history = Ok a
     ∧ Analyzer.hourly_distribution a =
       hour_counts (times fromisoformat "timestamp" activity_alerts
                    ++ times fromisoformat "startDateTime" alert_history)
     ∧ Analyzer.daily_distribution a =
       day_counts strftime_ymd
         (times fromisoformat "timestamp" activity_alerts
          ++ times fromisoformat "startDateTime" alert_history))
  ∧ (∀ b,
       Analyzer0.breakdown_loops fromisoformat strftime_ymd
         activity_alerts alert_history = Ok b →
       Analyzer0.hourly_distribution b =
         hour_counts (times fromisoformat "timestamp" activity_alerts)
       ∧ Analyzer0.daily_distribution b =
         day_counts strftime_ymd (times fromisoformat "timestamp" activity_alerts)).
Proof.
  intros Hin. split; [|apply breakdown_loops_times].
  destruct (analyze_alerts_total fromisoformat py_repr strftime_ymd set_iter
              _ _ Hin) as [a Ha].
  exists a. split; [exact Ha|].
  apply analyze_alerts_loops in Ha as (a1 & a2 & H1 & H2 & _ & _ & -> & ->).
  apply activity_loop_fields in H1 as (_ & _ & Hh1 & Hd1).
  apply history_loop_fields in H2 as (_ & _ & Hh2 & Hd2).
  rewrite Hh2, Hh1, Hd2, Hd1, hour_counts_app, day_counts_app.
  unfold hour_counts, day_counts, times. rewrite !fold_left_map. split; reflexivity.
Qed.

(** C6, worked example: one activity alert at 09:59 and one history alert
    that started at 10:04; the later variant counts the hours 9 and 10, the
    first variant the hour 9 only. *)
Lemma time_distribution_sources_witness :
  (∃ a,
     Reference.analyze_alerts
       [ {[ "level" := JStr "Error"; "resourceType" := JStr "vm";
            "resourceGroup" := JStr "rg"; "resourceId" := JStr "resourceA";
            "timestamp" := JStr "2025-08-22T09:59:00Z" ]} ]
       [ {[ "startDateTime" := JStr "2025-08-22T10:04:59Z" ]} ] = Ok a
     ∧ Analyzer.hourly_distribution a = {[ 9 := 1%nat; 10 := 1%nat ]})
  ∧ (∃ b,
       Analyzer0.breakdown_loops Reference.fromisoformat Reference.strftime_ymd
         [ {[ "level" := JStr "Error"; "resourceType" := JStr "vm";
              "resourceGroup" := JStr "rg"; "resourceId" := JStr "resourceA";
              "timestamp" := JStr "2025-08-22T09:59:00Z" ]} ]
         [ {[ "startDateTime" := JStr "2025-08-22T10:04:59Z" ]} ] = Ok b
       ∧ Analyzer0.hourly_distribution b = {[ 9 := 1%nat ]}).
Proof.
  destruct (time_distribution_sources
              Reference.fromisoformat Reference.py_repr Reference.strftime_ymd
              Reference.set_iter
              [ {[ "level" := JStr "Error"; "resourceType" := JStr "vm";
                   "resourceGroup" := JStr "rg"; "resourceId" := JStr "resourceA";
                   "timestamp" := JStr "2025-08-22T09:59:00Z" ]} ]
              [ {[ "startDateTime" := JStr "2025-08-22T10:04:59Z" ]} ])
    as [(a & Ha & Hh & _) H0].
  - vm_compute. reflexivity.
  - split.
    + exists a. split; [exact Ha|]. rewrite Hh. vm_compute. reflexivity.
    + eexists. split; [vm_compute; reflexivity|].
      edestruct H0 as [-> _]; [vm_compute; reflexivity|].
      vm_compute. reflexivity.
Defined.

(** ** The tenant rollup *)

Module RollupProofs.
Import Rollup.

Lemma osum_None_r a : osum a None = a.
Proof. by destruct a. Qed.

Lemma osum_None_l a : osum None a = a.
Proof. by destruct a. Qed.

Lemma osum_assoc a b c : osum (osum a b) c = osum a (osum b c).
Proof. destruct a, b, c; simpl; try done; unfold osum; simpl; f_equal; lia. Qed.

Lemma osum_comm a b : osum a b = osum b a.
Proof. destruct a, b; simpl; try done; unfold osum; simpl; f_equal; lia. Qed.

Lemma add_count_lookup i x (c : gmap string Z) k :
  add_count i x c !! k = if decide (i = k) then osum (c !! k) (Some x) else c !! k.
Proof.
  unfold add_count. destruct (decide (i = k)) as [->|Hne].
  - rewrite lookup_insert_eq. destruct (c !! k); simpl; [done|]. unfold osum. simpl.
    f_equal.
  - by rewrite lookup_insert_ne.
Qed.

Lemma add_counts_lookup (sub c : gmap string Z) k :
  add_counts sub c !! k = osum (c !! k) (sub !! k).
Proof.
  unfold add_counts. revert k.
  apply (map_fold_weak_ind (fun r m => ∀ k, r !! k = osum (c !! k) (m !! k))).
  - intros k. by rewrite lookup_empty, osum_None_r.
  - intros i x m r Hi IH k. rewrite add_count_lookup.
    destruct (decide (i = k)) as [->|Hne].
    + rewrite IH, Hi, osum_None_r, lookup_insert_eq. reflexivity.
    + rewrite IH, lookup_insert_ne by done. reflexivity.
Qed.

Lemma add_counts_empty_l (c : gmap string Z) : add_counts ∅ c = c.
Proof. unfold add_counts. apply map_fold_empty. Qed.

Lemma add_counts_empty_r (sub : gmap string Z) : add_counts sub ∅ = sub.
Proof.
  apply map_eq. intros k. by rewrite add_counts_lookup, lookup_empty, osum_None_l.
Qed.

Lemma add_counts_assoc (z y t : gmap string Z) :
  add_counts z (add_counts y t) = add_counts (add_counts z y) t.
Proof.
  apply map_eq. intros k. rewrite !add_counts_lookup. apply osum_assoc.
Qed.

Lemma add_counts_swap (a b t : gmap string Z) :
  add_counts a (add_counts b t) = add_counts b (add_counts a t).
Proof.
  apply map_eq. intros k. rewrite !add_counts_lookup, !osum_assoc.
  f_equal. apply osum_comm.
Qed.

Lemma add_counts_nonempty (sub c : gmap string Z) : sub ≠ ∅ → add_counts sub c ≠ ∅.
Proof.
  intros Hsub Hempty. apply Hsub. apply map_eq. intros k. rewrite lookup_empty.
  assert (add_counts sub c !! k = None) as Hk by (by rewrite Hempty, lookup_empty).
  rewrite add_counts_lookup in Hk. destruct (sub !! k); [|done].
  by destruct (c !! k).
Qed.

Lemma nmerge_default oc os k :
  default ∅ (nmerge oc os) !! k = osum (default ∅ oc !! k) (default ∅ os !! k).
Proof.
  unfold nmerge. destruct os as [states|]; simpl.
  - destruct (decide (states = ∅)) as [->|Hne].
    + by rewrite lookup_empty, osum_None_r.
    + simpl. apply add_counts_lookup.
  - by rewrite lookup_empty, osum_None_r.
Qed.

Lemma nmerge_default_eq oc os :
  default ∅ (nmerge oc os) = add_counts (default ∅ os) (default ∅ oc).
Proof. apply map_eq. intros k. by rewrite nmerge_default, add_counts_lookup. Qed.

Lemma add_count2_fold_lookup sev (states : gmap string Z)
    (c : gmap string (gmap string Z)) sev' :
  map_fold (add_count2 sev) c states !! sev' =
  if decide (sev = sev') then nmerge (c !! sev') (Some states) else c !! sev'.
Proof.
  revert sev'.
  apply (map_fold_weak_ind
           (fun r m => ∀ sev', r !! sev' =
              if decide (sev = sev') then nmerge (c !! sev') (Some m) else c !! sev')).
  - intros sev'. destruct (decide (sev = sev')); [|done].
    unfold nmerge. by rewrite decide_True.
  - intros i x m r Hi IH sev'. unfold add_count2.
    destruct (decide (sev = sev')) as [->|Hne].
    + rewrite lookup_insert_eq. unfold nmerge at 1.
      rewrite decide_False by apply insert_non_empty. f_equal.
      rewrite IH, decide_True by done.
      apply map_eq. intros k. rewrite add_count_lookup, nmerge_default, add_counts_lookup.
      simpl. destruct (decide (i = k)) as [->|Hk].
      * rewrite Hi, osum_None_r, lookup_insert_eq. reflexivity.
      * by rewrite lookup_insert_ne.
    + rewrite lookup_insert_ne by done. rewrite IH. by rewrite decide_False.
Qed.

Lemma add_counts2_lookup (sub c : gmap string (gmap string Z)) sev :
  add_counts2 sub c !! sev = nmerge (c !! sev) (sub !! sev).
Proof.
  unfold add_counts2. revert sev.
  apply (map_fold_weak_ind (fun r m => ∀ sev, r !! sev = nmerge (c !! sev) (m !! sev))).
  - intros sev. by rewrite lookup_empty.
  - intros i x m r Hi IH sev. rewrite add_count2_fold_lookup.
    destruct (decide (i = sev)) as [->|Hne].
    + by rewrite IH, Hi, lookup_insert_eq.
    + by rewrite IH, lookup_insert_ne.
Qed.

Lemma nmerge_empty x : nmerge x (Some ∅) = x.
Proof. unfold nmerge. by rewrite decide_True. Qed.

Lemma nmerge_nonempty x b :
  b ≠ ∅ → nmerge x (Some b) = Some (add_counts b (default ∅ x)).
Proof. intros Hb. unfold nmerge. by rewrite decide_False. Qed.

Lemma nmerge_assoc x a b : nmerge (nmerge x a) b = nmerge x (nmerge a b).
Proof.
  destruct b as [b|]; [|done].
  destruct (decide (b = ∅)) as [->|Hb]; [by rewrite !nmerge_empty|].
  rewrite !(nmerge_nonempty _ b) by done.
  rewrite nmerge_nonempty by (by apply add_counts_nonempty).
  f_equal. rewrite nmerge_default_eq. apply add_counts_assoc.
Qed.

Lemma nmerge_swap x a b : nmerge (nmerge x a) b = nmerge (nmerge x b) a.
Proof.
  destruct a as [a|], b as [b|]; try done.
  destruct (decide (a = ∅)) as [->|Ha]; [by rewrite !nmerge_empty|].
  destruct (decide (b = ∅)) as [->|Hb]; [by rewrite !nmerge_empty|].
  rewrite !nmerge_nonempty by done. f_equal. simpl. apply add_counts_swap.
Qed.

Lemma add_counts2_empty_l (c : gmap string (gmap string Z)) : add_counts2 ∅ c = c.
Proof. unfold add_counts2. apply map_fold_empty. Qed.

Lemma add_counts2_assoc (z y t : gmap string (gmap string Z)) :
  add_counts2 z (add_counts2 y t) = add_counts2 (add_counts2 z y) t.
Proof.
  apply map_eq. intros k. rewrite !add_counts2_lookup. apply nmerge_assoc.
Qed.

Lemma add_counts2_swap (a b t : gmap string (gmap string Z)) :
  add_counts2 a (add_counts2 b t) = add_counts2 b (add_counts2 a t).
Proof.
  apply map_eq. intros k. rewrite !add_counts2_lookup. apply nmerge_swap.
Qed.

Lemma add_top_alerts_lookup (sub c : gmap string (gmap string Z)) sev :
  add_top_alerts sub c !! sev =
  if decide (sev ∈ five_severities) then tmerge (c !! sev) (sub !! sev) else c !! sev.
Proof.
  unfold add_top_alerts.
  assert (NoDup five_severities) as Hnd.
  { apply (bool_decide_unpack _). by vm_compute. }
  revert c. induction Hnd as [|s rest Hs Hnd IH]; intros c; cbn [fold_left].
  - rewrite decide_False; [done|]. apply not_elem_of_nil.
  - rewrite IH.
    assert ((match sub !! s with
             | Some names => alter (add_counts names) s c
             | None => c
             end) !! sev = if decide (s = sev) then tmerge (c !! sev) (sub !! sev)
                           else c !! sev) as ->.
    { destruct (decide (s = sev)) as [->|Hne].
      - destruct (sub !! sev); simpl; [apply lookup_alter_eq|done].
      - destruct (sub !! s); [by apply lookup_alter_ne|done]. }
    destruct (decide (s = sev)) as [->|Hne].
    + rewrite decide_False by done. rewrite decide_True by left. done.
    + destruct (decide (sev ∈ rest)).
      * rewrite decide_True by (by right). done.
      * rewrite decide_False; [done|]. intros [->|?]%elem_of_cons; done.
Qed.

Lemma tmerge_swap x a b : tmerge (tmerge x a) b = tmerge (tmerge x b) a.
Proof.
  destruct a as [a|], b as [b|], x as [x|]; simpl; try done.
  f_equal. apply add_counts_swap.
Qed.

Lemma tmerge_assoc x a b :
  is_Some a → tmerge (tmerge x a) b = tmerge x (tmerge a b).
Proof.
  intros [a' ->]. destruct b as [b|], x as [x|]; simpl; try done.
  f_equal. apply add_counts_assoc.
Qed.

Lemma add_top_alerts_swap (a b t : gmap string (gmap string Z)) :
  add_top_alerts a (add_top_alerts b t) = add_top_alerts b (add_top_alerts a t).
Proof.
  apply map_eq. intros k. rewrite !add_top_alerts_lookup.
  destruct (decide (k ∈ five_severities)); [apply tmerge_swap|done].
Qed.

Lemma add_top_alerts_assoc (z y t : gmap string (gmap string Z)) :
  (∀ sev, sev ∈ five_severities → is_Some (y !! sev)) →
  add_top_alerts z (add_top_alerts y t) = add_top_alerts (add_top_alerts z y) t.
Proof.
  intros Hy. apply map_eq. intros k. rewrite !add_top_alerts_lookup.
  destruct (decide (k ∈ five_severities)); [|done].
  by rewrite tmerge_assoc by auto.
Qed.

Lemma add_top_alerts_keys (sub c : gmap string (gmap string Z)) sev :
  is_Some (add_top_alerts sub c !! sev) ↔ is_Some (c !! sev).
Proof.
  rewrite add_top_alerts_lookup. destruct (decide (sev ∈ five_severities)); [|done].
  destruct (sub !! sev); simpl; [|done]. by rewrite fmap_is_Some.
Qed.

Lemma fold_step_field {T} (proj : consolidated → T) (upd : subscription → T → T)
    (l : list subscription) (c : consolidated) :
  (∀ c s, proj (step c s) = upd s (proj c)) →
  proj (fold_left step l c) = fold_left (fun t s => upd s t) l (proj c).
Proof.
  intros Hstep. revert c. induction l as [|s l IH]; intros c; simpl; [done|].
  by rewrite IH, Hstep.
Qed.

Lemma fold_swap_perm {T D} (upd : D → T → T) (l l' : list D) (t0 : T) :
  (∀ a b t, upd a (upd b t) = upd b (upd a t)) →
  Permutation l l' →
  fold_left (fun t s => upd s t) l t0 = fold_left (fun t s => upd s t) l' t0.
Proof.
  intros Hswap Hperm. revert t0.
  induction Hperm as [|x l l' _ IH|x y l|l l' l'' _ IH1 _ IH2]; intros t0; simpl.
  - done.
  - apply IH.
  - by rewrite Hswap.
  - by rewrite IH1, IH2.
Qed.

Lemma fold_merge {T D} (op : T → T → T) (e : T) (I : T → Prop) (d : D → T)
    (l : list D) (t0 : T) :
  I e →
  (∀ y z, I y → I (op z y)) →
  (∀ t, op e t = t) →
  (∀ z y t, I y → op z (op y t) = op (op z y) t) →
  I (fold_left (fun t s => op (d s) t) l e)
  ∧ fold_left (fun t s => op (d s) t) l t0 =
    op (fold_left (fun t s => op (d s) t) l e) t0.
Proof.
  intros He Hpres Hunit Hassoc.
  induction l as [|s l [HI IH]] using rev_ind; simpl.
  - by rewrite Hunit.
  - rewrite !fold_left_app. simpl. split; [by apply Hpres|].
    by rewrite IH, Hassoc.
Qed.

(** What a step does to each field. *)
Lemma step_total_alerts c s : total_alerts (step c s) = total_alerts c + doc_total s.
Proof.
  unfold step, doc_total. destruct (analysis_file s); simpl; [done|lia].
Qed.

Lemma step_lifecycle c s :
  alert_lifecycle_metrics (step c s) =
  add_lifecycle (doc_lifecycle s) (alert_lifecycle_metrics c).
Proof.
  unfold step, doc_lifecycle. destruct (analysis_file s); simpl; [done|].
  destruct (alert_lifecycle_metrics c). unfold add_lifecycle. simpl.
  f_equal; lia.
Qed.

Ltac step_map :=
  intros; unfold step, doc_map, doc_map2;
  destruct (analysis_file _); simpl;
  [done|by rewrite ?add_counts_empty_l, ?add_counts2_empty_l].

Lemma step_severity c s :
  severity_breakdown (step c s) =
  add_counts (doc_map sd_severity_breakdown s) (severity_breakdown c).
Proof. step_map. Qed.

Lemma step_state c s :
  alert_state_breakdown (step c s) =
  add_counts (doc_map sd_alert_state_breakdown s) (alert_state_breakdown c).
Proof. step_map. Qed.

Lemma step_resource_type c s :
  resource_type_breakdown (step c s) =
  add_counts (doc_map sd_resource_type_breakdown s) (resource_type_breakdown c).
Proof. step_map. Qed.

Lemma step_resource_group c s :
  resource_group_breakdown (step c s) =
  add_counts (doc_map sd_resource_group_breakdown s) (resource_group_breakdown c).
Proof. step_map. Qed.

Lemma step_top_resources c s :
  top_alerting_resources (step c s) =
  add_counts (doc_map sd_top_alerting_resources s) (top_alerting_resources c).
Proof. step_map. Qed.

Lemma step_state_by_severity c s :
  alert_state_by_severity (step c s) =
  add_counts2 (doc_map2 sd_alert_state_by_severity s) (alert_state_by_severity c).
Proof. step_map. Qed.

Lemma add_top_alerts_empty_l (c : gmap string (gmap string Z)) : add_top_alerts ∅ c = c.
Proof.
  apply map_eq. intros k. rewrite add_top_alerts_lookup, lookup_empty.
  by destruct (decide _).
Qed.

Lemma step_top_alerts c s :
  top_alerts_by_severity (step c s) =
  add_top_alerts (doc_map2 sd_top_alerts_by_severity s) (top_alerts_by_severity c).
Proof.
  unfold step, doc_map2. destruct (analysis_file s); simpl;
    [done|by rewrite add_top_alerts_empty_l].
Qed.

Lemma step_constant c s :
  hourly_distribution (step c s) = hourly_distribution c
  ∧ daily_distribution (step c s) = daily_distribution c
  ∧ correlation_patterns (step c s) = correlation_patterns c
  ∧ tuning_recommendations (step c s) = tuning_recommendations c
  ∧ alert_storms (step c s) = alert_storms c.
Proof. unfold step. by destruct (analysis_file s). Qed.

Lemma lifecycle_eq (a b : lifecycle) :
  new_alerts a = new_alerts b →
  acknowledged_alerts a = acknowledged_alerts b →
  closed_alerts a = closed_alerts b → a = b.
Proof. destruct a, b; simpl; congruence. Qed.

Lemma totals_eq c c' :
  total_alerts c = total_alerts c' →
  severity_breakdown c = severity_breakdown c' →
  alert_state_breakdown c = alert_state_breakdown c' →
  alert_state_by_severity c = alert_state_by_severity c' →
  alert_lifecycle_metrics c = alert_lifecycle_metrics c' →
  top_alerts_by_severity c = top_alerts_by_severity c' →
  resource_type_breakdown c = resource_type_breakdown c' →
  resource_group_breakdown c = resource_group_breakdown c' →
  top_alerting_resources c = top_alerting_resources c' →
  hourly_distribution c = hourly_distribution c' →
  daily_distribution c = daily_distribution c' →
  correlation_patterns c = correlation_patterns c' →
  tuning_recommendations c = tuning_recommendations c' →
  alert_storms c = alert_storms c' →
  totals c = totals c'.
Proof. intros. unfold totals. by f_equal. Qed.

Lemma zsum_cons {A} (f : A → Z) x l : zsum f (x :: l) = f x + zsum f l.
Proof. reflexivity. Qed.

Lemma zsum_app {A} (f : A → Z) l1 l2 : zsum f (l1 ++ l2) = zsum f l1 + zsum f l2.
Proof.
  induction l1 as [|x l1 IH]; [done|].
  rewrite <- app_comm_cons, !zsum_cons, IH. lia.
Qed.

Lemma fold_add_zsum {A} (f : A → Z) (l : list A) (z : Z) :
  fold_left (fun t s => t + f s) l z = z + zsum f l.
Proof.
  revert z. induction l as [|x l IH]; intros z; simpl.
  - unfold zsum. simpl. lia.
  - rewrite IH, zsum_cons. lia.
Qed.

(** Closed forms of the scalars. *)
Lemma fold_total_alerts l c :
  total_alerts (fold_left step l c) = total_alerts c + zsum doc_total l.
Proof.
  rewrite (fold_step_field total_alerts (fun s t => t + doc_total s) l c step_total_alerts).
  apply fold_add_zsum.
Qed.

Lemma fold_lifecycle l c :
  let lc := alert_lifecycle_metrics (fold_left step l c) in
  new_alerts lc =
    new_alerts (alert_lifecycle_metrics c)
    + zsum (fun s => default 0 (ld_new_alerts (doc_lifecycle s))) l
  ∧ acknowledged_alerts lc =
    acknowledged_alerts (alert_lifecycle_metrics c)
    + zsum (fun s => default 0 (ld_acknowledged_alerts (doc_lifecycle s))) l
  ∧ closed_alerts lc =
    closed_alerts (alert_lifecycle_metrics c)
    + zsum (fun s => default 0 (ld_closed_alerts (doc_lifecycle s))) l.
Proof.
  cbv zeta. revert c. induction l as [|s l IH]; intros c; simpl.
  - unfold zsum. simpl. lia.
  - destruct (IH (step c s)) as (-> & -> & ->).
    rewrite step_lifecycle, !zsum_cons. unfold add_lifecycle. simpl. lia.
Qed.

(** Closed forms of the keyed counts: folding from [c] merges into [c] what
    folding from the initial document gives. *)
Lemma fold_flat (proj : consolidated → gmap string Z)
    (field : sub_data → option (gmap string Z)) l c :
  (∀ c s, proj (step c s) = add_counts (doc_map field s) (proj c)) →
  proj init = ∅ →
  proj (fold_left step l c) = add_counts (proj (fold_left step l init)) (proj c).
Proof.
  intros Hstep Hinit.
  rewrite !(fold_step_field proj (fun s => add_counts (doc_map field s)) l _ Hstep).
  rewrite Hinit.
  apply (fold_merge add_counts ∅ (fun _ => True) (doc_map field) l (proj c));
    [done|done|apply add_counts_empty_l|intros; apply add_counts_assoc].
Qed.

Lemma fold_state_by_severity l c :
  alert_state_by_severity (fold_left step l c) =
  add_counts2 (alert_state_by_severity (fold_left step l init))
    (alert_state_by_severity c).
Proof.
  rewrite !(fold_step_field alert_state_by_severity
              (fun s => add_counts2 (doc_map2 sd_alert_state_by_severity s)) l _
              step_state_by_severity).
  apply (fold_merge add_counts2 ∅ (fun _ => True)
           (doc_map2 sd_alert_state_by_severity) l (alert_state_by_severity c));
    [done|done|apply add_counts2_empty_l|intros; apply add_counts2_assoc].
Qed.

Lemma init_five_keys : five_keys (top_alerts_by_severity init).
Proof.
  intros sev Hsev. unfold five_severities in Hsev.
  repeat (apply elem_of_cons in Hsev as [->|Hsev]; [by eexists|]).
  by apply elem_of_nil in Hsev.
Qed.

Lemma add_top_alerts_init (t : gmap string (gmap string Z)) :
  add_top_alerts (top_alerts_by_severity init) t = t.
Proof.
  apply map_eq. intros k. rewrite add_top_alerts_lookup.
  destruct (decide (k ∈ five_severities)) as [Hk|]; [|done].
  destruct (init_five_keys k Hk) as [m Hm]. rewrite Hm.
  assert (m = ∅) as ->.
  { unfold five_severities in Hk.
    repeat (apply elem_of_cons in Hk as [->|Hk]; [by injection Hm as <-|]).
    by apply elem_of_nil in Hk. }
  simpl. destruct (t !! k); simpl; [|done]. by rewrite add_counts_empty_l.
Qed.

Lemma fold_top_alerts l c :
  five_keys (top_alerts_by_severity (fold_left step l init))
  ∧ top_alerts_by_severity (fold_left step l c) =
    add_top_alerts (top_alerts_by_severity (fold_left step l init))
      (top_alerts_by_severity c).
Proof.
  rewrite !(fold_step_field top_alerts_by_severity
              (fun s => add_top_alerts (doc_map2 sd_top_alerts_by_severity s)) l _
              step_top_alerts).
  apply (fold_merge add_top_alerts (top_alerts_by_severity init) five_keys
           (doc_map2 sd_top_alerts_by_severity) l (top_alerts_by_severity c)).
  - apply init_five_keys.
  - intros y z Hy sev Hsev. apply add_top_alerts_keys. by apply Hy.
  - apply add_top_alerts_init.
  - intros z y t Hy. by apply add_top_alerts_assoc.
Qed.

Lemma fold_constant l c :
  hourly_distribution (fold_left step l c) = hourly_distribution c
  ∧ daily_distribution (fold_left step l c) = daily_distribution c
  ∧ correlation_patterns (fold_left step l c) = correlation_patterns c
  ∧ tuning_recommendations (fold_left step l c) = tuning_recommendations c
  ∧ alert_storms (fold_left step l c) = alert_storms c.
Proof.
  revert c. induction l as [|s l IH]; intros c; simpl; [done|].
  destruct (IH (step c s)) as (-> & -> & -> & -> & ->). apply step_constant.
Qed.

Lemma add_lifecycle_swap a b l :
  add_lifecycle a (add_lifecycle b l) = add_lifecycle b (add_lifecycle a l).
Proof. unfold add_lifecycle. simpl. f_equal; lia. Qed.

Ltac perm_field proj upd Hstep Hswap :=
  rewrite !(fold_step_field proj upd _ _ Hstep);
  apply (fold_swap_perm upd); [intros; apply Hswap|done].

(** Order independence. *)
Lemma aggregate_permutation (subs subs' : list subscription) :
  Permutation subs subs' →
  totals (aggregate_subscription_data subs) = totals (aggregate_subscription_data subs').
Proof.
  intros Hperm. unfold aggregate_subscription_data.
  pose proof (fold_constant subs init) as (Hh & Hd & Hc & Ht & Hs).
  pose proof (fold_constant subs' init) as (Hh' & Hd' & Hc' & Ht' & Hs').
  apply totals_eq; try congruence.
  - rewrite !(fold_step_field total_alerts (fun s t => t + doc_total s) _ _
                step_total_alerts).
    apply (fold_swap_perm (fun s t => t + doc_total s)); [intros; lia|done].
  - perm_field severity_breakdown
      (fun s => add_counts (doc_map sd_severity_breakdown s))
      step_severity add_counts_swap.
  - perm_field alert_state_breakdown
      (fun s => add_counts (doc_map sd_alert_state_breakdown s))
      step_state add_counts_swap.
  - perm_field alert_state_by_severity
      (fun s => add_counts2 (doc_map2 sd_alert_state_by_severity s))
      step_state_by_severity add_counts2_swap.
  - perm_field alert_lifecycle_metrics
      (fun s => add_lifecycle (doc_lifecycle s))
      step_lifecycle add_lifecycle_swap.
  - perm_field top_alerts_by_severity
      (fun s => add_top_alerts (doc_map2 sd_top_alerts_by_severity s))
      step_top_alerts add_top_alerts_swap.
  - perm_field resource_type_breakdown
      (fun s => add_counts (doc_map sd_resource_type_breakdown s))
      step_resource_type add_counts_swap.
  - perm_field resource_group_breakdown
      (fun s => add_counts (doc_map sd_resource_group_breakdown s))
      step_resource_group add_counts_swap.
  - perm_field top_alerting_resources
      (fun s => add_counts (doc_map sd_top_alerting_resources s))
      step_top_resources add_counts_swap.
Qed.

Ltac group_field Hfold2 Hfold1 Hstep :=
  rewrite Hfold2; rewrite !Hstep; f_equal; try reflexivity; exact Hfold1.

(** Grouping: merging two partial rollups gives the rollup of the whole. *)
Lemma aggregate_grouping (l1 l2 : list subscription) (d1 d2 : string) :
  totals (aggregate_subscription_data (l1 ++ l2)) =
  totals (aggregate_subscription_data
            [ as_subscription d1 (aggregate_subscription_data l1);
              as_subscription d2 (aggregate_subscription_data l2) ]).
Proof.
  unfold aggregate_subscription_data. rewrite fold_left_app.
  set (A := fold_left step l1 init). set (B := fold_left step l2 init).
  pose proof (fold_constant l2 A) as (Hh & Hd & Hc & Ht & Hs).
  pose proof (fold_constant l1 init) as (Hh' & Hd' & Hc' & Ht' & Hs').
  fold A in Hh', Hd', Hc', Ht', Hs'.
  cbn [fold_left].
  apply totals_eq;
    try (rewrite ?Hh, ?Hd, ?Hc, ?Ht, ?Hs, ?Hh', ?Hd', ?Hc', ?Ht', ?Hs'; reflexivity).
  - rewrite fold_total_alerts. unfold A, B. cbn.
    rewrite (fold_total_alerts l1 init), (fold_total_alerts l2 init). cbn. lia.
  - group_field (fold_flat severity_breakdown _ l2 A step_severity eq_refl)
      (fold_flat severity_breakdown _ l1 init step_severity eq_refl) step_severity.
  - group_field (fold_flat alert_state_breakdown _ l2 A step_state eq_refl)
      (fold_flat alert_state_breakdown _ l1 init step_state eq_refl) step_state.
  - group_field (fold_state_by_severity l2 A) (fold_state_by_severity l1 init)
      step_state_by_severity.
  - destruct (fold_lifecycle l2 A) as (Hn & Ha & Hcl).
    destruct (fold_lifecycle l2 init) as (Hn' & Ha' & Hcl'). fold B in Hn', Ha', Hcl'.
    apply lifecycle_eq; cbn; rewrite ?Hn, ?Ha, ?Hcl, ?Hn', ?Ha', ?Hcl'; cbn; lia.
  - group_field (proj2 (fold_top_alerts l2 A)) (proj2 (fold_top_alerts l1 init))
      step_top_alerts.
  - group_field (fold_flat resource_type_breakdown _ l2 A step_resource_type eq_refl)
      (fold_flat resource_type_breakdown _ l1 init step_resource_type eq_refl)
      step_resource_type.
  - group_field (fold_flat resource_group_breakdown _ l2 A step_resource_group eq_refl)
      (fold_flat resource_group_breakdown _ l1 init step_resource_group eq_refl)
      step_resource_group.
  - group_field (fold_flat top_alerting_resources _ l2 A step_top_resources eq_refl)
      (fold_flat top_alerting_resources _ l1 init step_top_resources eq_refl)
      step_top_resources.
Qed.

Lemma default_osum a b : default 0 (osum a b) = default 0 a + default 0 b.
Proof. destruct a, b; simpl; lia. Qed.

Lemma count_at_add_counts (y t : gmap string Z) k :
  count_at (add_counts y t) k = count_at t k + count_at y k.
Proof. unfold count_at. by rewrite add_counts_lookup, default_osum. Qed.

Lemma count_at2_add_counts2 (y t : gmap string (gmap string Z)) k1 k2 :
  count_at2 (add_counts2 y t) k1 k2 = count_at2 t k1 k2 + count_at2 y k1 k2.
Proof.
  unfold count_at2. by rewrite add_counts2_lookup, nmerge_default, default_osum.
Qed.

Lemma count_at2_add_top_alerts (y t : gmap string (gmap string Z)) k1 k2 :
  k1 ∈ five_severities → is_Some (t !! k1) →
  count_at2 (add_top_alerts y t) k1 k2 = count_at2 t k1 k2 + count_at2 y k1 k2.
Proof.
  intros Hk [m Hm]. unfold count_at2.
  rewrite add_top_alerts_lookup, decide_True, Hm by done.
  destruct (y !! k1) as [n|]; simpl.
  - by rewrite add_counts_lookup, default_osum.
  - rewrite lookup_empty. simpl. lia.
Qed.

Lemma count_at2_empty k1 k2 : count_at2 ∅ k1 k2 = 0.
Proof. unfold count_at2. rewrite lookup_empty. simpl. by rewrite lookup_empty. Qed.

Lemma fold_count_at (d : subscription → gmap string Z) l t0 k :
  count_at (fold_left (fun t s => add_counts (d s) t) l t0) k =
  count_at t0 k + zsum (fun s => count_at (d s) k) l.
Proof.
  revert t0. induction l as [|s l IH]; intros t0; simpl.
  - unfold zsum. simpl. lia.
  - rewrite IH, count_at_add_counts, zsum_cons. lia.
Qed.

Lemma fold_count_at2 (d : subscription → gmap string (gmap string Z)) l t0 k1 k2 :
  count_at2 (fold_left (fun t s => add_counts2 (d s) t) l t0) k1 k2 =
  count_at2 t0 k1 k2 + zsum (fun s => count_at2 (d s) k1 k2) l.
Proof.
  revert t0. induction l as [|s l IH]; intros t0; simpl.
  - unfold zsum. simpl. lia.
  - rewrite IH, count_at2_add_counts2, zsum_cons. lia.
Qed.

Lemma fold_count_top (d : subscription → gmap string (gmap string Z)) l t0 k1 k2 :
  k1 ∈ five_severities → is_Some (t0 !! k1) →
  count_at2 (fold_left (fun t s => add_top_alerts (d s) t) l t0) k1 k2 =
  count_at2 t0 k1 k2 + zsum (fun s => count_at2 (d s) k1 k2) l.
Proof.
  intros Hk. revert t0. induction l as [|s l IH]; intros t0 Ht0; simpl.
  - unfold zsum. simpl. lia.
  - rewrite IH by (by apply add_top_alerts_keys).
    rewrite count_at2_add_top_alerts, zsum_cons by done. lia.
Qed.

(** The identity element: the initial document, read as a subscription,
    adds nothing. *)
Lemma step_init_unit d : totals (step init (as_subscription d init)) = totals init.
Proof.
  apply totals_eq; reflexivity.
Qed.

Lemma fold_totals_congr l c c' :
  totals c = totals c' → totals (fold_left step l c) = totals (fold_left step l c').
Proof.
  intros Hc.
  assert (∀ {T} (proj : consolidated → T),
            (∀ x, proj (totals x) = proj x) → proj c = proj c') as Hproj.
  { intros T proj Hp. by rewrite <- (Hp c), <- (Hp c'), Hc. }
  pose proof (fold_constant l c) as (Hh & Hd & Hcp & Ht & Hs).
  pose proof (fold_constant l c') as (Hh' & Hd' & Hcp' & Ht' & Hs').
  apply totals_eq.
  - rewrite !fold_total_alerts. f_equal. by apply (Hproj _ total_alerts).
  - rewrite (fold_flat severity_breakdown _ l c step_severity eq_refl), (fold_flat severity_breakdown _ l c' step_severity eq_refl).
    f_equal. by apply (Hproj _ severity_breakdown).
  - rewrite (fold_flat alert_state_breakdown _ l c step_state eq_refl), (fold_flat alert_state_breakdown _ l c' step_state eq_refl).
    f_equal. by apply (Hproj _ alert_state_breakdown).
  - rewrite (fold_state_by_severity l c), (fold_state_by_severity l c').
    f_equal. by apply (Hproj _ alert_state_by_severity).
  - destruct (fold_lifecycle l c) as (Hn & Ha & Hcl).
    destruct (fold_lifecycle l c') as (Hn' & Ha' & Hcl').
    apply lifecycle_eq; rewrite ?Hn, ?Ha, ?Hcl, ?Hn', ?Ha', ?Hcl';
      by rewrite (Hproj _ alert_lifecycle_metrics).
  - rewrite (proj2 (fold_top_alerts l c)), (proj2 (fold_top_alerts l c')).
    f_equal. by apply (Hproj _ top_alerts_by_severity).
  - rewrite (fold_flat resource_type_breakdown _ l c step_resource_type eq_refl), (fold_flat resource_type_breakdown _ l c' step_resource_type eq_refl).
    f_equal. by apply (Hproj _ resource_type_breakdown).
  - rewrite (fold_flat resource_group_breakdown _ l c step_resource_group eq_refl), (fold_flat resource_group_breakdown _ l c' step_resource_group eq_refl).
    f_equal. by apply (Hproj _ resource_group_breakdown).
  - rewrite (fold_flat top_alerting_resources _ l c step_top_resources eq_refl), (fold_flat top_alerting_resources _ l c' step_top_resources eq_refl).
    f_equal. by apply (Hproj _ top_alerting_resources).
  - rewrite Hh, Hh'. by apply (Hproj _ hourly_distribution).
  - rewrite Hd, Hd'. by apply (Hproj _ daily_distribution).
  - rewrite Hcp, Hcp'. by apply (Hproj _ correlation_patterns).
  - rewrite Ht, Ht'. by apply (Hproj _ tuning_recommendations).
  - rewrite Hs, Hs'. by apply (Hproj _ alert_storms).
Qed.

Lemma aggregate_unit d (subs : list subscription) :
  totals (aggregate_subscription_data (as_subscription d init :: subs)) =
  totals (aggregate_subscription_data subs).
Proof.
  unfold aggregate_subscription_data. simpl fold_left.
  apply fold_totals_congr, step_init_unit.
Qed.

(** Key-wise sums. *)
Lemma aggregate_flat_sum (proj : consolidated → gmap string Z)
    (field : sub_data → option (gmap string Z)) subs k :
  (∀ c s, proj (step c s) = add_counts (doc_map field s) (proj c)) →
  proj init = ∅ →
  count_at (proj (aggregate_subscription_data subs)) k =
  zsum (fun s => count_at (doc_map field s) k) subs.
Proof.
  intros Hstep Hinit. unfold aggregate_subscription_data.
  rewrite (fold_step_field proj (fun s => add_counts (doc_map field s)) _ _ Hstep).
  rewrite fold_count_at, Hinit. unfold count_at at 1. rewrite lookup_empty. simpl. lia.
Qed.

Lemma aggregate_state_by_severity_sum subs k1 k2 :
  count_at2 (alert_state_by_severity (aggregate_subscription_data subs)) k1 k2 =
  zsum (fun s => count_at2 (doc_map2 sd_alert_state_by_severity s) k1 k2) subs.
Proof.
  unfold aggregate_subscription_data.
  rewrite (fold_step_field alert_state_by_severity
             (fun s => add_counts2 (doc_map2 sd_alert_state_by_severity s)) _ _
             step_state_by_severity).
  rewrite fold_count_at2. change (alert_state_by_severity init) with (∅ : gmap string (gmap string Z)).
  rewrite count_at2_empty. lia.
Qed.

Lemma aggregate_top_alerts_sum subs k1 k2 :
  k1 ∈ five_severities →
  count_at2 (top_alerts_by_severity (aggregate_subscription_data subs)) k1 k2 =
  zsum (fun s => count_at2 (doc_map2 sd_top_alerts_by_severity s) k1 k2) subs.
Proof.
  intros Hk. unfold aggregate_subscription_data.
  rewrite (fold_step_field top_alerts_by_severity
             (fun s => add_top_alerts (doc_map2 sd_top_alerts_by_severity s)) _ _
             step_top_alerts).
  rewrite fold_count_top by (done || by apply init_five_keys).
  assert (count_at2 (top_alerts_by_severity init) k1 k2 = 0) as ->; [|lia].
  unfold five_severities in Hk.
  repeat (apply elem_of_cons in Hk as [->|Hk]; [reflexivity|]).
  by apply elem_of_nil in Hk.
Qed.

End RollupProofs.

(** C1.  The tenant rollup is a commutative monoid on the totals.  For
    every list of subscriptions, any reordering gives the same total and
    the same counting maps; merging the rollups of two parts, read back as
    subscriptions, gives the rollup of the whole; the initial document is
    the identity.  Merging is key-wise integer addition where a missing key
    counts 0: the total and, at every key, each counting map (severity,
    state, state by severity, resource type, resource group, resource
    identifier, names by recognised severity) is the sum over the
    subscriptions. *)
Theorem rollup_commutative_monoid
    (subs subs' l1 l2 : list Rollup.subscription) (d0 d1 d2 : string) :
  Permutation subs subs' →
  Rollup.totals (Rollup.aggregate_subscription_data subs) =
    Rollup.totals (Rollup.aggregate_subscription_data subs')
  ∧ Rollup.totals (Rollup.aggregate_subscription_data (l1 ++ l2)) =
    Rollup.totals
      (Rollup.aggregate_subscription_data
         [ Rollup.as_subscription d1 (Rollup.aggregate_subscription_data l1);
           Rollup.as_subscription d2 (Rollup.aggregate_subscription_data l2) ])
  ∧ Rollup.totals
      (Rollup.aggregate_subscription_data
         (Rollup.as_subscription d0 Rollup.init :: subs)) =
    Rollup.totals (Rollup.aggregate_subscription_data subs)
  ∧ Rollup.total_alerts (Rollup.aggregate_subscription_data subs) =
    zsum doc_total subs
  ∧ (∀ k,
       count_at (Rollup.severity_breakdown (Rollup.aggregate_subscription_data subs)) k =
       zsum (fun s => count_at (doc_map Rollup.sd_severity_breakdown s) k) subs)
  ∧ (∀ k,
       count_at (Rollup.alert_state_breakdown (Rollup.aggregate_subscription_data subs)) k =
       zsum (fun s => count_at (doc_map Rollup.sd_alert_state_breakdown s) k) subs)
  ∧ (∀ k1 k2,
       count_at2
         (Rollup.alert_state_by_severity (Rollup.aggregate_subscription_data subs))
         k1 k2 =
       zsum (fun s => count_at2 (doc_map2 Rollup.sd_alert_state_by_severity s) k1 k2)
         subs)
  ∧ (∀ k,
       count_at
         (Rollup.resource_type_breakdown (Rollup.aggregate_subscription_data subs)) k =
       zsum (fun s => count_at (doc_map Rollup.sd_resource_type_breakdown s) k) subs)
  ∧ (∀ k,
       count_at
         (Rollup.resource_group_breakdown (Rollup.aggregate_subscription_data subs)) k =
       zsum (fun s => count_at (doc_map Rollup.sd_resource_group_breakdown s) k) subs)
  ∧ (∀ k,
       count_at
         (Rollup.top_alerting_resources (Rollup.aggregate_subscription_data subs)) k =
       zsum (fun s => count_at (doc_map Rollup.sd_top_alerting_resources s) k) subs)
  ∧ (∀ k1 k2, k1 ∈ Rollup.five_severities →
       count_at2
         (Rollup.top_alerts_by_severity (Rollup.aggregate_subscription_data subs))
         k1 k2 =
       zsum (fun s => count_at2 (doc_map2 Rollup.sd_top_alerts_by_severity s) k1 k2)
         subs).
Proof.
  intros Hperm.
  split; [by apply RollupProofs.aggregate_permutation|].
  split; [apply RollupProofs.aggregate_grouping|].
  split; [apply RollupProofs.aggregate_unit|].
  split.
  { unfold Rollup.aggregate_subscription_data.
    rewrite RollupProofs.fold_total_alerts. simpl. lia. }
  split.
  { intros k. apply RollupProofs.aggregate_flat_sum;
      [apply RollupProofs.step_severity|reflexivity]. }
  split.
  { intros k. apply RollupProofs.aggregate_flat_sum;
      [apply RollupProofs.step_state|reflexivity]. }
  split; [apply RollupProofs.aggregate_state_by_severity_sum|].
  split.
  { intros k. apply RollupProofs.aggregate_flat_sum;
      [apply RollupProofs.step_resource_type|reflexivity]. }
  split.
  { intros k. apply RollupProofs.aggregate_flat_sum;
      [apply RollupProofs.step_resource_group|reflexivity]. }
  split.
  { intros k. apply RollupProofs.aggregate_flat_sum;
      [apply RollupProofs.step_top_resources|reflexivity]. }
  apply RollupProofs.aggregate_top_alerts_sum.
Qed.

(** C1, worked example: three subscriptions in two orders. *)
Lemma rollup_commutative_monoid_witness :
  Rollup.totals
    (Rollup.aggregate_subscription_data
       [Reference.subscription_a; Reference.subscription_b; Reference.subscription_c]) =
  Rollup.totals
    (Rollup.aggregate_subscription_data
       [Reference.subscription_c; Reference.subscription_b; Reference.subscription_a])
  ∧ count_at
      (Rollup.severity_breakdown
         (Rollup.aggregate_subscription_data
            [Reference.subscription_a; Reference.subscription_b;
             Reference.subscription_c])) "Sev1" = 5.
Proof.
  destruct (rollup_commutative_monoid
              [Reference.subscription_a; Reference.subscription_b;
               Reference.subscription_c]
              [Reference.subscription_c; Reference.subscription_b;
               Reference.subscription_a] [] [] "" "" "")
    as (Hperm & _ & _ & _ & Hsev & _).
  - apply (Permutation_rev
             [Reference.subscription_a; Reference.subscription_b;
              Reference.subscription_c]).
  - split; [exact Hperm|]. rewrite Hsev. vm_compute. reflexivity.
Defined.

(** * Further properties of the code *)

(** ** Further properties of the analysis *)

Lemma for_each_ok_inv {A S} (body : S → A → res S) (xs : list A) (s s' : S) :
  for_each body xs s = Ok s' → ∀ x, In x xs → ∃ s1 s2, body s1 x = Ok s2.
Proof.
  revert s. induction xs as [|y xs IH]; intros s Hs x Hx; [by destruct Hx|].
  simpl in Hs. destruct (body s y) as [s1|] eqn:E; [|done].
  destruct Hx as [->|Hx]; [eauto|]. by apply (IH s1).
Qed.

Lemma for_each_err_inv {A S} (body : S → A → res S) (xs : list A) (s : S) e :
  for_each body xs s = Err e → ∃ s1 x, In x xs ∧ body s1 x = Err e.
Proof.
  revert s. induction xs as [|y xs IH]; intros s Hs; [done|].
  simpl in Hs. destruct (body s y) as [s1|e'] eqn:E.
  - destruct (IH s1 Hs) as (s2 & x & Hx & Hb). exists s2, x. split; [by right|done].
  - injection Hs as ->. exists s, y. split; [by left|done].
Qed.

Section Errors.
Variable fromisoformat : string → option datetime.
Variable py_repr : json → string.
Variable strftime_ymd : datetime → string.
Variable set_iter : list string → list string.

Lemma count_resource_type_ok v a a' :
  Analyzer.count_resource_type py_repr v a = Ok a' →
  countable_resource_type py_repr v = true.
Proof.
  unfold Analyzer.count_resource_type, countable_resource_type.
  destruct (truthy v); [|done]. simpl. by destruct (hash_key _).
Qed.

Lemma count_resource_type_err v a e :
  Analyzer.count_resource_type py_repr v a = Err e → e = TypeError.
Proof.
  unfold Analyzer.count_resource_type. destruct (truthy v); [|done].
  destruct (Analyzer.resource_type_str py_repr v) as [| | | |xs|m]; simpl; try done;
    by intros [= <-].
Qed.

Lemma activity_step_ok a (x : alert) a' :
  Analyzer.activity_step fromisoformat py_repr strftime_ymd a x = Ok a' →
  countable_resource_type py_repr (get "resourceType" x) = true.
Proof.
  unfold Analyzer.activity_step.
  destruct (Analyzer.count_resource_type _ _ _) as [a1|] eqn:E; [|done].
  intros _. by apply count_resource_type_ok in E.
Qed.

Lemma history_step_ok a (x : alert) a' :
  Analyzer.history_step fromisoformat py_repr strftime_ymd a x = Ok a' →
  countable_resource_type py_repr (get "targetResourceType" x) = true.
Proof.
  unfold Analyzer.history_step.
  destruct (Analyzer.count_resource_type _ _ _) as [a1|] eqn:E; [|done].
  intros _. by apply count_resource_type_ok in E.
Qed.

Lemma activity_step_err a (x : alert) e :
  Analyzer.activity_step fromisoformat py_repr strftime_ymd a x = Err e → e = TypeError.
Proof.
  unfold Analyzer.activity_step.
  destruct (Analyzer.count_resource_type _ _ _) as [a1|e'] eqn:E; [done|].
  intros [= <-]. by apply count_resource_type_err in E.
Qed.

Lemma history_step_err a (x : alert) e :
  Analyzer.history_step fromisoformat py_repr strftime_ymd a x = Err e → e = TypeError.
Proof.
  unfold Analyzer.history_step.
  destruct (Analyzer.count_resource_type _ _ _) as [a1|e'] eqn:E; [done|].
  intros [= <-]. by apply count_resource_type_err in E.
Qed.

Lemma analyze_alerts_ok_countable (activity_alerts alert_history : list alert) a :
  Analyzer.analyze_alerts fromisoformat py_repr strftime_ymd set_iter
    activity_alerts alert_history = Ok a →
  countable_input py_repr activity_alerts alert_history = true.
Proof.
  unfold Analyzer.analyze_alerts, countable_input.
  destruct (for_each _ activity_alerts _) as [a1|] eqn:E1; [|done]. simpl.
  destruct (for_each _ alert_history _) as [a2|] eqn:E2; [|done]. intros _.
  rewrite andb_true_iff, !forallb_forall. split; intros x Hx.
  - destruct (for_each_ok_inv _ _ _ _ E1 x Hx) as (s1 & s2 & Hs).
    by apply activity_step_ok in Hs.
  - destruct (for_each_ok_inv _ _ _ _ E2 x Hx) as (s1 & s2 & Hs).
    by apply history_step_ok in Hs.
Qed.

Lemma analyze_alerts_err (activity_alerts alert_history : list alert) e :
  Analyzer.analyze_alerts fromisoformat py_repr strftime_ymd set_iter
    activity_alerts alert_history = Err e → e = TypeError.
Proof.
  unfold Analyzer.analyze_alerts.
  destruct (for_each _ activity_alerts _) as [a1|e1] eqn:E1; simpl.
  - destruct (for_each _ alert_history _) as [a2|e2] eqn:E2; simpl; [done|].
    intros [= <-]. apply for_each_err_inv in E2 as (s & x & _ & Hs).
    by apply history_step_err in Hs.
  - intros [= <-]. apply for_each_err_inv in E1 as (s & x & _ & Hs).
    by apply activity_step_err in Hs.
Qed.
End Errors.

(** X1.  The analysis raises in one case only.  It returns a document exactly
    when every resource type of the activity alerts and every target
    resource type of the history alerts can be counted (it is falsy, or the
    key it resolves to is hashable), and otherwise it raises [TypeError];
    no other field, no timestamp and no missing key makes it raise. *)
Theorem analysis_raises_only_on_unhashable
    (fromisoformat : string → option datetime) (py_repr : json → string)
    (strftime_ymd : datetime → string) (set_iter : list string → list string)
    (activity_alerts alert_history : list alert) :
  (countable_input py_repr activity_alerts alert_history = true ↔
   ∃ a, Analyzer.analyze_alerts fromisoformat py_repr strftime_ymd set_iter
          activity_alerts alert_history = Ok a)
  ∧ (countable_input py_repr activity_alerts alert_history = false ↔
     Analyzer.analyze_alerts fromisoformat py_repr strftime_ymd set_iter
       activity_alerts alert_history = Err TypeError).
Proof.
  assert (countable_input py_repr activity_alerts alert_history = true ↔
          ∃ a, Analyzer.analyze_alerts fromisoformat py_repr strftime_ymd set_iter
                 activity_alerts alert_history = Ok a) as Hok.
  { split; [apply analyze_alerts_total|].
    intros [a Ha]. by apply analyze_alerts_ok_countable in Ha. }
  split; [exact Hok|].
  destruct (Analyzer.analyze_alerts fromisoformat py_repr strftime_ymd set_iter
              activity_alerts alert_history) as [a|e] eqn:E.
  - split; [|done]. intros Hf. assert (countable_input py_repr activity_alerts
      alert_history = true) as Ht by (apply Hok; eauto). congruence.
  - apply analyze_alerts_err in E as ->. split; [done|]. intros _.
    destruct (countable_input py_repr activity_alerts alert_history) eqn:Hc; [|done].
    destruct (proj1 Hok eq_refl) as [a Ha]. congruence.
Qed.

(** ** Counters in insertion order *)

Lemma olookup_oincr k k' (c : list (string * nat)) :
  olookup k (oincr k' c) =
  if decide (k = k') then Some (S (default 0%nat (olookup k c))) else olookup k c.
Proof.
  induction c as [|[k0 n] c IH]; simpl.
  - destruct (String.eqb_spec k k'); [by rewrite decide_True|by rewrite decide_False].
  - destruct (String.eqb_spec k' k0) as [->|Hk0]; simpl.
    + destruct (String.eqb_spec k k0) as [->|Hk]; [by rewrite decide_True|].
      by rewrite decide_False.
    + destruct (String.eqb_spec k k0) as [->|Hk]; [|exact IH].
      by rewrite decide_False by congruence.
Qed.

Lemma oincr_keys k (c : list (string * nat)) :
  map fst (oincr k c) = if decide (k ∈ map fst c) then map fst c else map fst c ++ [k].
Proof.
  induction c as [|[k0 n] c IH].
  - cbn [oincr map fst]. rewrite decide_False; [done|]. apply not_elem_of_nil.
  - cbn [oincr map fst]. destruct (String.eqb_spec k k0) as [->|Hk].
    + cbn [map fst]. rewrite decide_True; [done|left].
    + cbn [map fst]. rewrite IH. destruct (decide (k ∈ map fst c)).
      * rewrite decide_True; [done|by right].
      * rewrite decide_False; [done|]. intros [?|?]%elem_of_cons; done.
Qed.

Lemma oincr_NoDup k (c : list (string * nat)) :
  NoDup (map fst c) → NoDup (map fst (oincr k c)).
Proof.
  intros Hc. rewrite oincr_keys. destruct (decide (k ∈ map fst c)); [done|].
  apply NoDup_app. split; [done|]. split.
  - intros x Hx ->%list_elem_of_singleton. done.
  - apply NoDup_singleton.
Qed.

Lemma oincr_positive k (c : list (string * nat)) :
  Forall (fun e => (1 ≤ e.2)%nat) c → Forall (fun e => (1 ≤ e.2)%nat) (oincr k c).
Proof.
  induction 1 as [|[k0 n] c Hn Hc IH]; simpl.
  - repeat constructor.
  - destruct (String.eqb k k0); constructor; simpl in *; try done. lia.
Qed.

Lemma oincr_total k (c : list (string * nat)) :
  counter_total (oincr k c) = S (counter_total c).
Proof.
  unfold counter_total. induction c as [|[k0 n] c IH]; simpl; [done|].
  destruct (String.eqb k k0); simpl; [done|]. rewrite IH. lia.
Qed.

Lemma obump_lookup (o : option string) (c : list (string * nat)) (k : string) :
  default 0%nat (olookup k (obump o c)) =
  (default 0%nat (olookup k c) + (if bool_decide (o = Some k) then 1 else 0))%nat.
Proof.
  destruct o as [k'|]; cbn [obump].
  - rewrite olookup_oincr. destruct (decide (k = k')) as [->|Hne].
    + rewrite bool_decide_eq_true_2 by done. simpl. lia.
    + rewrite bool_decide_eq_false_2 by congruence. lia.
  - rewrite bool_decide_eq_false_2 by done. lia.
Qed.

Lemma obump_fold_lookup {A} (f : A → option string) (xs : list A)
    (c : list (string * nat)) (k : string) :
  default 0%nat (olookup k (fold_left (fun c x => obump (f x) c) xs c)) =
  (default 0%nat (olookup k c) + count_if (fun x => bool_decide (f x = Some k)) xs)%nat.
Proof.
  revert c. induction xs as [|x xs IH]; intros c; cbn [fold_left].
  - unfold count_if. simpl. lia.
  - rewrite IH, count_if_cons, obump_lookup. lia.
Qed.

Lemma obump_fold_invariant {A} (f : A → option string) (xs : list A)
    (c : list (string * nat)) :
  NoDup (map fst c) → Forall (fun e => (1 ≤ e.2)%nat) c →
  let c' := fold_left (fun c x => obump (f x) c) xs c in
  NoDup (map fst c') ∧ Forall (fun e => (1 ≤ e.2)%nat) c'
  ∧ counter_total c' =
    (counter_total c + count_if (fun x => bool_decide (is_Some (f x))) xs)%nat.
Proof.
  cbv zeta. revert c. induction xs as [|x xs IH]; intros c Hnd Hpos; cbn [fold_left].
  - unfold count_if. simpl. repeat split; try done; lia.
  - rewrite count_if_cons. destruct (f x) as [k|]; cbn [obump].
    + destruct (IH (oincr k c)) as (H1 & H2 & H3);
        [by apply oincr_NoDup|by apply oincr_positive|].
      split; [done|]. split; [done|]. rewrite H3, oincr_total.
      rewrite bool_decide_eq_true_2 by eauto. lia.
    + destruct (IH c) as (H1 & H2 & H3); [done|done|].
      split; [done|]. split; [done|]. rewrite H3.
      rewrite bool_decide_eq_false_2 by (by intros [? [=]]). lia.
Qed.

Lemma count_if_le {A} (p : A → bool) (xs : list A) : (count_if p xs ≤ length xs)%nat.
Proof. unfold count_if. apply length_filter. Qed.

(** ** The remaining fields of the two loops *)

Section MoreSteps.
Variable fromisoformat : string → option datetime.
Variable py_repr : json → string.
Variable strftime_ymd : datetime → string.
Variable set_iter : list string → list string.

Local Abbreviation activity_step := (Analyzer.activity_step fromisoformat py_repr strftime_ymd).
Local Abbreviation history_step := (Analyzer.history_step fromisoformat py_repr strftime_ymd).

Lemma history_step_others a (x : alert) a' :
  Analyzer.history_step fromisoformat py_repr strftime_ymd a x = Ok a' →
  Analyzer.alert_state_breakdown a' =
    bump (alert_state x) (Analyzer.alert_state_breakdown a)
  ∧ Analyzer.alert_state_by_severity a' =
    match history_severity x, alert_state x with
    | Some sev, Some st => incr2 sev st (Analyzer.alert_state_by_severity a)
    | _, _ => Analyzer.alert_state_by_severity a
    end
  ∧ Analyzer.alert_lifecycle_metrics a' =
    match alert_state x with
    | Some st => Analyzer.count_lifecycle st (Analyzer.alert_lifecycle_metrics a)
    | None => Analyzer.alert_lifecycle_metrics a
    end
  ∧ Analyzer.top_alerting_resources a' =
    obump (history_resource x) (Analyzer.top_alerting_resources a)
  ∧ Analyzer.total_alerts a' = Analyzer.total_alerts a.
Proof.
  unfold Analyzer.history_step, history_severity, alert_state, history_resource.
  destruct (Analyzer.count_resource_type _ _ _) as [a1|] eqn:E; [|done].
  apply count_resource_type_spec in E as ->.
  cbn [mbind res_mbind res_bind]. intros [= <-]. rewrite count_time_spec.
  case_when; repeat split.
Qed.

Lemma analyze_alerts_loops_others (activity_alerts alert_history : list alert) a :
  Analyzer.analyze_alerts fromisoformat py_repr strftime_ymd set_iter
    activity_alerts alert_history = Ok a →
  ∃ a1 a2,
    for_each (Analyzer.activity_step fromisoformat py_repr strftime_ymd)
      activity_alerts (Analyzer.init activity_alerts alert_history) = Ok a1
    ∧ for_each (Analyzer.history_step fromisoformat py_repr strftime_ymd)
        alert_history a1 = Ok a2
    ∧ Analyzer.alert_state_breakdown a = Analyzer.alert_state_breakdown a2
    ∧ Analyzer.alert_state_by_severity a = Analyzer.alert_state_by_severity a2
    ∧ Analyzer.alert_lifecycle_metrics a = Analyzer.alert_lifecycle_metrics a2
    ∧ Analyzer.top_alerting_resources a = Analyzer.top_alerting_resources a2
    ∧ Analyzer.total_alerts a = Analyzer.total_alerts a2.
Proof.
  unfold Analyzer.analyze_alerts.
  destruct (for_each _ activity_alerts _) as [a1|]; [|done]. simpl.
  destruct (for_each _ alert_history _) as [a2|] eqn:E2; [|done]. simpl.
  intros [= <-]. exists a1, a2. repeat split. exact E2.
Qed.

Lemma activity_loop_others (xs : list alert) a0 a1 :
  for_each (Analyzer.activity_step fromisoformat py_repr strftime_ymd) xs a0 = Ok a1 →
  Analyzer.alert_state_breakdown a1 = Analyzer.alert_state_breakdown a0
  ∧ Analyzer.alert_state_by_severity a1 = Analyzer.alert_state_by_severity a0
  ∧ Analyzer.alert_lifecycle_metrics a1 = Analyzer.alert_lifecycle_metrics a0
  ∧ Analyzer.top_alerting_resources a1 =
    fold_left (fun c x => obump (activity_resource x) c) xs
      (Analyzer.top_alerting_resources a0)
  ∧ Analyzer.total_alerts a1 = Analyzer.total_alerts a0.
Proof.
  intros Hloop. repeat split.
  - rewrite (for_each_fold activity_step Analyzer.alert_state_breakdown (fun t _ => t) xs a0 a1);
      [apply fold_left_const| |done].
    intros s x s' Hs. by eapply activity_step_fields in Hs as (_&_&_&_&_&_&_& -> & _).
  - rewrite (for_each_fold activity_step Analyzer.alert_state_by_severity (fun t _ => t) xs a0 a1);
      [apply fold_left_const| |done].
    intros s x s' Hs. by eapply activity_step_fields in Hs as (_&_&_&_&_&_&_&_& -> & _).
  - rewrite (for_each_fold activity_step Analyzer.alert_lifecycle_metrics (fun t _ => t) xs a0 a1);
      [apply fold_left_const| |done].
    intros s x s' Hs. by eapply activity_step_fields in Hs as (_&_&_&_&_&_&_&_&_& -> & _).
  - apply (for_each_fold activity_step Analyzer.top_alerting_resources _ xs a0 a1); [|done].
    intros s x s' Hs. by eapply activity_step_fields in Hs as (_&_&_& -> & _).
  - rewrite (for_each_fold activity_step Analyzer.total_alerts (fun t _ => t) xs a0 a1);
      [apply fold_left_const| |done].
    intros s x s' Hs. by eapply activity_step_fields in Hs as (_&_&_&_&_&_&_&_&_&_& ->).
Qed.

Lemma history_loop_others (xs : list alert) a1 a2 :
  for_each (Analyzer.history_step fromisoformat py_repr strftime_ymd) xs a1 = Ok a2 →
  Analyzer.alert_state_breakdown a2 =
    fold_left (fun c x => bump (alert_state x) c) xs (Analyzer.alert_state_breakdown a1)
  ∧ Analyzer.alert_state_by_severity a2 =
    fold_left
      (fun c x => match history_severity x, alert_state x with
                  | Some sev, Some st => incr2 sev st c
                  | _, _ => c
                  end) xs (Analyzer.alert_state_by_severity a1)
  ∧ Analyzer.alert_lifecycle_metrics a2 =
    fold_left
      (fun l x => match alert_state x with
                  | Some st => Analyzer.count_lifecycle st l
                  | None => l
                  end) xs (Analyzer.alert_lifecycle_metrics a1)
  ∧ Analyzer.top_alerting_resources a2 =
    fold_left (fun c x => obump (history_resource x) c) xs
      (Analyzer.top_alerting_resources a1)
  ∧ Analyzer.total_alerts a2 = Analyzer.total_alerts a1.
Proof.
  intros Hloop. repeat split.
  - apply (for_each_fold history_step Analyzer.alert_state_breakdown _ xs a1 a2); [|done].
    intros s x s' Hs. by apply history_step_others in Hs as (-> & _).
  - apply (for_each_fold history_step Analyzer.alert_state_by_severity _ xs a1 a2); [|done].
    intros s x s' Hs. by apply history_step_others in Hs as (_ & -> & _).
  - apply (for_each_fold history_step Analyzer.alert_lifecycle_metrics _ xs a1 a2); [|done].
    intros s x s' Hs. by apply history_step_others in Hs as (_&_& -> & _).
  - apply (for_each_fold history_step Analyzer.top_alerting_resources _ xs a1 a2); [|done].
    intros s x s' Hs. by apply history_step_others in Hs as (_&_&_& -> & _).
  - rewrite (for_each_fold history_step Analyzer.total_alerts (fun t _ => t) xs a1 a2);
      [apply fold_left_const| |done].
    intros s x s' Hs. by apply history_step_others in Hs as (_&_&_&_& ->).
Qed.
End MoreSteps.

Lemma counted_insert `{Countable K} (k : K) (n : nat) (c : gmap K nat) :
  c !! k = None → counted (<[k := n]> c) = (n + counted c)%nat.
Proof.
  intros Hk. unfold counted.
  rewrite (map_fold_insert_L (fun _ n s => (n + s)%nat)); [done| |done].
  intros; lia.
Qed.

Lemma counted_incr `{Countable K} (k : K) (c : gmap K nat) :
  counted (incr k c) = S (counted c).
Proof.
  unfold incr. destruct (c !! k) as [n|] eqn:E; simpl.
  - rewrite <-(insert_delete_id c k n) at 2 by done.
    rewrite <-insert_delete_eq.
    rewrite !counted_insert by apply lookup_delete_eq. lia.
  - by rewrite counted_insert.
Qed.

Lemma counted_bump_fold `{Countable K} {A} (f : A → option K) (xs : list A)
    (c : gmap K nat) :
  counted (fold_left (fun c x => bump (f x) c) xs c) =
  (counted c + count_if (fun x => bool_decide (is_Some (f x))) xs)%nat.
Proof.
  revert c. induction xs as [|x xs IH]; intros c; cbn [fold_left].
  - unfold count_if. simpl. lia.
  - rewrite IH, count_if_cons. destruct (f x) as [k|]; cbn [bump].
    + rewrite counted_incr, bool_decide_eq_true_2 by eauto. lia.
    + rewrite bool_decide_eq_false_2 by (by intros [? [=]]). lia.
Qed.

Lemma counted_empty `{Countable K} : counted (∅ : gmap K nat) = 0%nat.
Proof. apply map_fold_empty. Qed.

Lemma lifecycle_fold (xs : list alert) (l : Analyzer.lifecycle) :
  let l' := fold_left
              (fun l x => match alert_state x with
                          | Some st => Analyzer.count_lifecycle st l
                          | None => l
                          end) xs l in
  Analyzer.new_alerts l' = (Analyzer.new_alerts l + count_if (has_state "New") xs)%nat
  ∧ Analyzer.acknowledged_alerts l' =
    (Analyzer.acknowledged_alerts l + count_if (has_state "Acknowledged") xs)%nat
  ∧ Analyzer.closed_alerts l' =
    (Analyzer.closed_alerts l + count_if (has_state "Closed") xs)%nat
  ∧ Analyzer.avg_time_to_acknowledge l' = Analyzer.avg_time_to_acknowledge l
  ∧ Analyzer.avg_time_to_close l' = Analyzer.avg_time_to_close l.
Proof.
  cbv zeta. revert l. induction xs as [|x xs IH]; intros l; cbn [fold_left].
  - unfold count_if. simpl. repeat split; lia.
  - rewrite !count_if_cons. unfold has_state at 1 3 5.
    destruct (alert_state x) as [st|].
    + destruct (IH (Analyzer.count_lifecycle st l)) as (-> & -> & -> & -> & ->).
      unfold Analyzer.count_lifecycle.
      destruct (String.eqb_spec st "New") as [->|H1].
      { rewrite bool_decide_eq_true_2 by done.
        rewrite !bool_decide_eq_false_2 by done. simpl. repeat split; lia. }
      destruct (String.eqb_spec st "Acknowledged") as [->|H2].
      { rewrite (bool_decide_eq_true_2 (Some "Acknowledged" = Some "Acknowledged")) by done.
        rewrite !bool_decide_eq_false_2 by done. simpl. repeat split; lia. }
      destruct (String.eqb_spec st "Closed") as [->|H3].
      { rewrite (bool_decide_eq_true_2 (Some "Closed" = Some "Closed")) by done.
        rewrite !bool_decide_eq_false_2 by done. simpl. repeat split; lia. }
      rewrite !bool_decide_eq_false_2 by congruence. repeat split; lia.
    + destruct (IH l) as (-> & -> & -> & -> & ->).
      rewrite !bool_decide_eq_false_2 by done. repeat split; lia.
Qed.

Lemma incr2_count (sev st sev' st' : string) (c : gmap string (gmap string nat)) :
  top_count (incr2 sev st c) sev' st' =
  (top_count c sev' st'
   + (if bool_decide (sev = sev' ∧ st = st') then 1 else 0))%nat.
Proof.
  unfold top_count, incr2, incr.
  destruct (decide (sev = sev')) as [->|Hs].
  - rewrite lookup_insert_eq. cbn [mbind option_bind].
    destruct (decide (st = st')) as [->|Ht].
    + rewrite lookup_insert_eq, bool_decide_eq_true_2 by done.
      destruct (c !! sev') as [m|]; simpl; [lia|]. rewrite lookup_empty. simpl. lia.
    + rewrite lookup_insert_ne, bool_decide_eq_false_2 by (try done; by intros [_ ?]).
      destruct (c !! sev') as [m|]; simpl; [lia|]. rewrite lookup_empty. simpl. lia.
  - rewrite lookup_insert_ne, bool_decide_eq_false_2 by (try done; by intros [? _]). lia.
Qed.

Lemma state_by_severity_fold (xs : list alert) (c : gmap string (gmap string nat))
    (sev st : string) :
  top_count
    (fold_left
       (fun c x => match history_severity x, alert_state x with
                   | Some sev, Some st => incr2 sev st c
                   | _, _ => c
                   end) xs c) sev st =
  (top_count c sev st + count_if (has_severity_state sev st) xs)%nat.
Proof.
  revert c. induction xs as [|x xs IH]; intros c; cbn [fold_left].
  - unfold count_if. simpl. lia.
  - rewrite IH, count_if_cons. unfold has_severity_state at 2.
    destruct (history_severity x) as [sev'|], (alert_state x) as [st'|].
    + rewrite incr2_count.
      destruct (decide (sev' = sev ∧ st' = st)) as [[-> ->]|Hne].
      * rewrite !bool_decide_eq_true_2 by done. lia.
      * rewrite !bool_decide_eq_false_2; [lia| |done].
        intros [[= ?] [= ?]]. by apply Hne.
    + rewrite bool_decide_eq_false_2 by (by intros [_ [=]]). lia.
    + rewrite bool_decide_eq_false_2 by (by intros [[=] _]). lia.
    + rewrite bool_decide_eq_false_2 by (by intros [[=] _]). lia.
Qed.

Lemma count_if_impl {A} (p q : A → bool) (xs : list A) :
  (∀ x, p x = true → q x = true) → (count_if p xs ≤ count_if q xs)%nat.
Proof.
  intros Hpq. induction xs as [|x xs IH]; [done|]. rewrite !count_if_cons.
  specialize (Hpq x). destruct (p x), (q x); first [lia | by specialize (Hpq eq_refl)].
Qed.

Lemma count_if_nil {A} (p : A → bool) : count_if p [] = 0%nat.
Proof. reflexivity. Qed.

(** X2.  The total counts records, not severities.  On every input the
    loops can count, [total_alerts] is the number of activity alerts plus
    the number of history alerts, whatever their fields; the counts of the
    severity breakdown add up to the number of activity alerts with a level
    plus the number of history alerts with a severity, which is at most the
    total; the counts of the state breakdown add up to the number of history
    alerts with a state. *)
Theorem total_counts_every_record
    (fromisoformat : string → option datetime) (py_repr : json → string)
    (strftime_ymd : datetime → string) (set_iter : list string → list string)
    (activity_alerts alert_history : list alert) :
  countable_input py_repr activity_alerts alert_history = true →
  ∃ a,
    Analyzer.analyze_alerts fromisoformat py_repr strftime_ymd set_iter
      activity_alerts alert_history = Ok a
    ∧ Analyzer.total_alerts a = (length activity_alerts + length alert_history)%nat
    ∧ counted (Analyzer.severity_breakdown a) =
      (count_if leveled activity_alerts + count_if graded alert_history)%nat
    ∧ (counted (Analyzer.severity_breakdown a) ≤ Analyzer.total_alerts a)%nat
    ∧ counted (Analyzer.alert_state_breakdown a) =
      count_if (fun x => bool_decide (is_Some (alert_state x))) alert_history
    ∧ (counted (Analyzer.alert_state_breakdown a) ≤ length alert_history)%nat.
Proof.
  intros Hin.
  destruct (analyze_alerts_total fromisoformat py_repr strftime_ymd set_iter
              _ _ Hin) as [a Ha].
  exists a. split; [exact Ha|].
  pose proof Ha as Ha'.
  apply analyze_alerts_loops in Ha as (a1 & a2 & H1 & H2 & Hsev & _).
  apply analyze_alerts_loops_others in Ha' as (b1 & b2 & H1' & H2' & Hst & _ & _ & _ & Htot).
  rewrite H1 in H1'. injection H1' as <-. rewrite H2 in H2'. injection H2' as <-.
  pose proof (activity_loop_fields _ _ _ _ _ _ H1) as (Hs1 & _).
  pose proof (history_loop_fields _ _ _ _ _ _ H2) as (Hs2 & _).
  pose proof (activity_loop_others _ _ _ _ _ _ H1) as (Hb1 & _ & _ & _ & Ht1).
  pose proof (history_loop_others _ _ _ _ _ _ H2) as (Hb2 & _ & _ & _ & Ht2).
  assert (Analyzer.total_alerts a = (length activity_alerts + length alert_history)%nat)
    as Htotal by (by rewrite Htot, Ht2, Ht1).
  assert (counted (Analyzer.severity_breakdown a) =
          (count_if leveled activity_alerts + count_if graded alert_history)%nat) as Hc.
  { rewrite Hsev, Hs2, Hs1. cbn [Analyzer.init Analyzer.severity_breakdown].
    rewrite !counted_bump_fold, counted_empty. reflexivity. }
  assert (counted (Analyzer.alert_state_breakdown a) =
          count_if (fun x => bool_decide (is_Some (alert_state x))) alert_history) as Hd.
  { rewrite Hst, Hb2, Hb1. cbn [Analyzer.init Analyzer.alert_state_breakdown].
    rewrite counted_bump_fold, counted_empty. reflexivity. }
  split; [exact Htotal|]. split; [exact Hc|]. split; [|split; [exact Hd|]].
  - rewrite Hc, Htotal.
    pose proof (count_if_le leveled activity_alerts).
    pose proof (count_if_le graded alert_history). lia.
  - rewrite Hd. apply count_if_le.
Qed.

(** X2, worked example: three activity alerts, one without a level, and
    four history alerts, one without a severity. *)
Lemma total_counts_every_record_witness :
  ∃ a,
    Reference.analyze_alerts Samples.activity_alerts Samples.alert_history = Ok a
    ∧ Analyzer.total_alerts a = 7%nat
    ∧ counted (Analyzer.severity_breakdown a) = 5%nat.
Proof.
  destruct (total_counts_every_record
              Reference.fromisoformat Reference.py_repr Reference.strftime_ymd
              Reference.set_iter Samples.activity_alerts Samples.alert_history)
    as (a & Ha & Htot & Hc & _).
  - vm_compute. reflexivity.
  - exists a. split; [exact Ha|]. split.
    + rewrite Htot. reflexivity.
    + rewrite Hc. vm_compute. reflexivity.
Defined.

Lemma lifecycle_bound (xs : list alert) :
  (count_if (has_state "New") xs + count_if (has_state "Acknowledged") xs
   + count_if (has_state "Closed") xs ≤ length xs)%nat.
Proof.
  induction xs as [|x xs IH]; [done|]. rewrite !count_if_cons. cbn [length].
  unfold has_state at 1 3 5. destruct (alert_state x) as [st|].
  - destruct (decide (st = "New")) as [->|H1].
    { rewrite bool_decide_eq_true_2 by done.
      rewrite !bool_decide_eq_false_2 by done. lia. }
    destruct (decide (st = "Acknowledged")) as [->|H2].
    { rewrite (bool_decide_eq_true_2 (Some "Acknowledged" = Some "Acknowledged")) by done.
      rewrite !bool_decide_eq_false_2 by done. lia. }
    destruct (decide (st = "Closed")) as [->|H3].
    { rewrite (bool_decide_eq_true_2 (Some "Closed" = Some "Closed")) by done.
      rewrite !bool_decide_eq_false_2 by done. lia. }
    rewrite !bool_decide_eq_false_2 by congruence. lia.
  - rewrite !bool_decide_eq_false_2 by done. lia.
Qed.

Section Document.
Variable fromisoformat : string → option datetime.
Variable py_repr : json → string.
Variable strftime_ymd : datetime → string.
Variable set_iter : list string → list string.

(** The fields the history loop fills, as folds over the input. *)
Lemma analyze_alerts_counters (activity_alerts alert_history : list alert) a :
  Analyzer.analyze_alerts fromisoformat py_repr strftime_ymd set_iter
    activity_alerts alert_history = Ok a →
  Analyzer.severity_breakdown a =
    fold_left (fun c x => bump (history_severity x) c) alert_history
      (fold_left (fun c x => bump (activity_level x) c) activity_alerts ∅)
  ∧ Analyzer.alert_state_breakdown a =
    fold_left (fun c x => bump (alert_state x) c) alert_history ∅
  ∧ Analyzer.alert_state_by_severity a =
    fold_left
      (fun c x => match history_severity x, alert_state x with
                  | Some sev, Some st => incr2 sev st c
                  | _, _ => c
                  end) alert_history ∅
  ∧ Analyzer.alert_lifecycle_metrics a =
    fold_left
      (fun l x => match alert_state x with
                  | Some st => Analyzer.count_lifecycle st l
                  | None => l
                  end) alert_history (Analyzer.mk_lifecycle 0 0 0 0 0)
  ∧ Analyzer.top_alerting_resources a =
    fold_left (fun c x => obump (history_resource x) c) alert_history
      (fold_left (fun c x => obump (activity_resource x) c) activity_alerts [])
  ∧ Analyzer.total_alerts a = (length activity_alerts + length alert_history)%nat.
Proof.
  intros Ha. pose proof Ha as Ha'.
  apply analyze_alerts_loops in Ha as (a1 & a2 & H1 & H2 & -> & _).
  apply analyze_alerts_loops_others in Ha'
    as (b1 & b2 & H1' & H2' & -> & -> & -> & -> & ->).
  rewrite H1 in H1'. injection H1' as <-. rewrite H2 in H2'. injection H2' as <-.
  pose proof (activity_loop_fields _ _ _ _ _ _ H1) as (Hs1 & _).
  pose proof (history_loop_fields _ _ _ _ _ _ H2) as (Hs2 & _).
  pose proof (activity_loop_others _ _ _ _ _ _ H1) as (Hb1 & Hc1 & Hd1 & He1 & Ht1).
  pose proof (history_loop_others _ _ _ _ _ _ H2) as (Hb2 & Hc2 & Hd2 & He2 & Ht2).
  rewrite Hs2, Hs1, Hb2, Hb1, Hc2, Hc1, Hd2, Hd1, He2, He1, Ht2, Ht1.
  repeat split.
Qed.
End Document.

(** X3.  The lifecycle counters agree with the state breakdown.  The state
    breakdown counts, for each state, the history alerts in that state;
    [new_alerts], [acknowledged_alerts] and [closed_alerts] are its entries
    at [New], [Acknowledged] and [Closed]; together they are at most the
    number of history alerts; the two average times stay 0, they are never
    computed.  Activity alerts change none of them. *)
Theorem lifecycle_counts_states
    (fromisoformat : string → option datetime) (py_repr : json → string)
    (strftime_ymd : datetime → string) (set_iter : list string → list string)
    (activity_alerts alert_history : list alert) :
  countable_input py_repr activity_alerts alert_history = true →
  ∃ a,
    Analyzer.analyze_alerts fromisoformat py_repr strftime_ymd set_iter
      activity_alerts alert_history = Ok a
    ∧ (∀ st, default 0%nat (Analyzer.alert_state_breakdown a !! st) =
             count_if (has_state st) alert_history)
    ∧ Analyzer.new_alerts (Analyzer.alert_lifecycle_metrics a) =
      default 0%nat (Analyzer.alert_state_breakdown a !! "New")
    ∧ Analyzer.acknowledged_alerts (Analyzer.alert_lifecycle_metrics a) =
      default 0%nat (Analyzer.alert_state_breakdown a !! "Acknowledged")
    ∧ Analyzer.closed_alerts (Analyzer.alert_lifecycle_metrics a) =
      default 0%nat (Analyzer.alert_state_breakdown a !! "Closed")
    ∧ (Analyzer.new_alerts (Analyzer.alert_lifecycle_metrics a)
       + Analyzer.acknowledged_alerts (Analyzer.alert_lifecycle_metrics a)
       + Analyzer.closed_alerts (Analyzer.alert_lifecycle_metrics a)
       ≤ length alert_history)%nat
    ∧ Analyzer.avg_time_to_acknowledge (Analyzer.alert_lifecycle_metrics a) = 0%nat
    ∧ Analyzer.avg_time_to_close (Analyzer.alert_lifecycle_metrics a) = 0%nat.
Proof.
  intros Hin.
  destruct (analyze_alerts_total fromisoformat py_repr strftime_ymd set_iter
              _ _ Hin) as [a Ha].
  exists a. split; [exact Ha|].
  apply analyze_alerts_counters in Ha as (_ & Hst & _ & Hlc & _).
  assert (∀ st, default 0%nat (Analyzer.alert_state_breakdown a !! st) =
                count_if (has_state st) alert_history) as Hcount.
  { intros st. rewrite Hst, bump_fold_lookup, lookup_empty. reflexivity. }
  destruct (lifecycle_fold alert_history (Analyzer.mk_lifecycle 0 0 0 0 0))
    as (Hn & Hk & Hc & Ha1 & Ha2).
  rewrite <-Hlc in Hn, Hk, Hc, Ha1, Ha2. cbn in Hn, Hk, Hc, Ha1, Ha2.
  split; [exact Hcount|]. rewrite !Hcount, Hn, Hk, Hc, Ha1, Ha2.
  repeat split. apply lifecycle_bound.
Qed.

(** X3, worked example: two history alerts in state [New], one [Closed],
    one in the unrecognised state [Fired]. *)
Lemma lifecycle_counts_states_witness :
  ∃ a,
    Reference.analyze_alerts Samples.activity_alerts Samples.alert_history = Ok a
    ∧ default 0%nat (Analyzer.alert_state_breakdown a !! "Fired") = 1%nat
    ∧ Analyzer.new_alerts (Analyzer.alert_lifecycle_metrics a) = 2%nat.
Proof.
  destruct (lifecycle_counts_states
              Reference.fromisoformat Reference.py_repr Reference.strftime_ymd
              Reference.set_iter Samples.activity_alerts Samples.alert_history)
    as (a & Ha & Hst & Hn & _).
  - vm_compute. reflexivity.
  - exists a. split; [exact Ha|]. split.
    + rewrite Hst. vm_compute. reflexivity.
    + rewrite Hn, Hst. vm_compute. reflexivity.
Defined.

(** X4.  The state-by-severity table counts, for each severity and state,
    the history alerts that carry both as non-empty strings; an entry is
    never above the entry of its state in the state breakdown nor above the
    entry of its severity in the severity breakdown. *)
Theorem state_by_severity_counts
    (fromisoformat : string → option datetime) (py_repr : json → string)
    (strftime_ymd : datetime → string) (set_iter : list string → list string)
    (activity_alerts alert_history : list alert) :
  countable_input py_repr activity_alerts alert_history = true →
  ∃ a,
    Analyzer.analyze_alerts fromisoformat py_repr strftime_ymd set_iter
      activity_alerts alert_history = Ok a
    ∧ (∀ sev st,
         top_count (Analyzer.alert_state_by_severity a) sev st =
         count_if (has_severity_state sev st) alert_history)
    ∧ (∀ sev st,
         (top_count (Analyzer.alert_state_by_severity a) sev st
          ≤ default 0%nat (Analyzer.alert_state_breakdown a !! st))%nat)
    ∧ (∀ sev st,
         (top_count (Analyzer.alert_state_by_severity a) sev st
          ≤ default 0%nat (Analyzer.severity_breakdown a !! sev))%nat).
Proof.
  intros Hin.
  destruct (analyze_alerts_total fromisoformat py_repr strftime_ymd set_iter
              _ _ Hin) as [a Ha].
  exists a. split; [exact Ha|].
  apply analyze_alerts_counters in Ha as (Hsev & Hst & Hss & _).
  assert (∀ sev st,
            top_count (Analyzer.alert_state_by_severity a) sev st =
            count_if (has_severity_state sev st) alert_history) as Hcount.
  { intros sev st. rewrite Hss, state_by_severity_fold.
    unfold top_count. rewrite lookup_empty. reflexivity. }
  split; [exact Hcount|]. split; intros sev st; rewrite Hcount.
  - rewrite Hst, bump_fold_lookup, lookup_empty. cbn [default].
    apply count_if_impl. intros x [_ Hx]%bool_decide_eq_true.
    by apply bool_decide_eq_true.
  - rewrite Hsev, !bump_fold_lookup, lookup_empty. cbn [default].
    etransitivity; [|apply Nat.le_add_l].
    apply count_if_impl. intros x [Hx _]%bool_decide_eq_true.
    by apply bool_decide_eq_true.
Qed.

(** X4, worked example: one history alert is [New] with severity [Sev1];
    the second [New] alert has no severity. *)
Lemma state_by_severity_counts_witness :
  ∃ a,
    Reference.analyze_alerts Samples.activity_alerts Samples.alert_history = Ok a
    ∧ top_count (Analyzer.alert_state_by_severity a) "Sev1" "New" = 1%nat
    ∧ top_count (Analyzer.alert_state_by_severity a) "Sev3" "New" = 0%nat.
Proof.
  destruct (state_by_severity_counts
              Reference.fromisoformat Reference.py_repr Reference.strftime_ymd
              Reference.set_iter Samples.activity_alerts Samples.alert_history)
    as (a & Ha & Hc & _).
  - vm_compute. reflexivity.
  - exists a. split; [exact Ha|]. rewrite !Hc. split; vm_compute; reflexivity.
Defined.

(** X5.  The resource counter.  Each resource appears once, with a count of
    at least 1: the number of activity alerts whose [resourceId] it is plus
    the number of history alerts whose [targetResource] it is.  The counts
    add up to the number of alerts that name a resource, which is at most
    [total_alerts]. *)
Theorem top_resources_counter
    (fromisoformat : string → option datetime) (py_repr : json → string)
    (strftime_ymd : datetime → string) (set_iter : list string → list string)
    (activity_alerts alert_history : list alert) :
  countable_input py_repr activity_alerts alert_history = true →
  ∃ a,
    Analyzer.analyze_alerts fromisoformat py_repr strftime_ymd set_iter
      activity_alerts alert_history = Ok a
    ∧ NoDup (map fst (Analyzer.top_alerting_resources a))
    ∧ Forall (fun e => (1 ≤ e.2)%nat) (Analyzer.top_alerting_resources a)
    ∧ (∀ r, default 0%nat (olookup r (Analyzer.top_alerting_resources a)) =
            (count_if (has_resource r) activity_alerts
             + count_if (has_target r) alert_history)%nat)
    ∧ counter_total (Analyzer.top_alerting_resources a) =
      (count_if located activity_alerts + count_if targeted alert_history)%nat
    ∧ (counter_total (Analyzer.top_alerting_resources a) ≤ Analyzer.total_alerts a)%nat.
Proof.
  intros Hin.
  destruct (analyze_alerts_total fromisoformat py_repr strftime_ymd set_iter
              _ _ Hin) as [a Ha].
  exists a. split; [exact Ha|].
  apply analyze_alerts_counters in Ha as (_ & _ & _ & _ & Htop & Htot).
  destruct (obump_fold_invariant activity_resource activity_alerts [])
    as (Hn1 & Hp1 & Hc1); [constructor|constructor|].
  destruct (obump_fold_invariant history_resource alert_history
              (fold_left (fun c x => obump (activity_resource x) c) activity_alerts []))
    as (Hn2 & Hp2 & Hc2); [exact Hn1|exact Hp1|].
  rewrite <-Htop in Hn2, Hp2, Hc2. rewrite Hc1 in Hc2.
  split; [exact Hn2|]. split; [exact Hp2|]. split; [|split; [exact Hc2|]].
  - intros r. rewrite Htop, !obump_fold_lookup. reflexivity.
  - rewrite Hc2, Htot.
    pose proof (count_if_le located activity_alerts).
    pose proof (count_if_le targeted alert_history).
    unfold counter_total at 1. simpl. unfold located, targeted in *. lia.
Qed.

(** X5, worked example: [vm1] is named by one activity alert and two
    history alerts. *)
Lemma top_resources_counter_witness :
  ∃ a,
    Reference.analyze_alerts Samples.activity_alerts Samples.alert_history = Ok a
    ∧ default 0%nat (olookup "vm1" (Analyzer.top_alerting_resources a)) = 3%nat
    ∧ counter_total (Analyzer.top_alerting_resources a) = 4%nat.
Proof.
  destruct (top_resources_counter
              Reference.fromisoformat Reference.py_repr Reference.strftime_ymd
              Reference.set_iter Samples.activity_alerts Samples.alert_history)
    as (a & Ha & _ & _ & Hl & Ht & _).
  - vm_compute. reflexivity.
  - exists a. split; [exact Ha|]. rewrite Hl, Ht. split; vm_compute; reflexivity.
Defined.

(** ** Stable sorting by decreasing key *)

Lemma filter_none {A} (P : A → Prop) `{∀ x, Decision (P x)} (l : list A) :
  Forall (fun x => ¬ P x) l → filter P l = [].
Proof.
  induction 1 as [|x l Hx Hl IH]; [done|]. by rewrite filter_cons, decide_False.
Qed.

Lemma filter_all {A} (P : A → Prop) `{∀ x, Decision (P x)} (l : list A) :
  Forall P l → filter P l = l.
Proof.
  induction 1 as [|x l Hx Hl IH]; [done|]. by rewrite filter_cons, decide_True, IH.
Qed.

Section Sorting.
Context {A : Type} (key : A → Z).

Local Abbreviation above := (fun x y : A => key y ≤ key x).

Lemma insert_by_perm x l : Dashboard.insert_by key x l ≡ₚ x :: l.
Proof.
  induction l as [|y l IH]; simpl; [done|].
  destruct (key y <=? key x); [done|]. rewrite IH. apply perm_swap.
Qed.

Lemma sorted_desc_perm l : Dashboard.sorted_desc key l ≡ₚ l.
Proof.
  induction l as [|x l IH]; simpl; [done|].
  rewrite insert_by_perm. by rewrite IH.
Qed.

Lemma insert_by_sorted x l :
  StronglySorted above l → StronglySorted above (Dashboard.insert_by key x l).
Proof.
  induction 1 as [|y l Hl IH Hy]; simpl.
  - repeat constructor.
  - destruct (Z.leb_spec (key y) (key x)) as [Hle|Hgt].
    + constructor; [by constructor|]. constructor; [done|].
      eapply Forall_impl; [exact Hy|]. simpl. intros z Hz. lia.
    + constructor; [exact IH|]. rewrite insert_by_perm.
      constructor; [lia|exact Hy].
Qed.

Lemma sorted_desc_sorted l : StronglySorted above (Dashboard.sorted_desc key l).
Proof.
  induction l as [|x l IH]; simpl; [constructor|]. by apply insert_by_sorted.
Qed.

(** Stability: the elements of one key keep their order. *)
Lemma insert_by_stable k x l :
  filter (fun y => key y = k) (Dashboard.insert_by key x l) =
  filter (fun y => key y = k) (x :: l).
Proof.
  induction l as [|y l IH]; simpl; [done|].
  destruct (Z.leb_spec (key y) (key x)) as [Hle|Hgt]; [done|].
  rewrite (filter_cons _ y), IH, !filter_cons.
  destruct (decide (key y = k)), (decide (key x = k)); try done. lia.
Qed.

Lemma sorted_desc_stable k l :
  filter (fun y => key y = k) (Dashboard.sorted_desc key l) =
  filter (fun y => key y = k) l.
Proof.
  induction l as [|x l IH]; simpl; [done|].
  rewrite insert_by_stable, !filter_cons, IH. reflexivity.
Qed.

(** In a sorted list the elements that pass a test which is kept upwards
    come first. *)
Lemma sorted_split (p : A → bool) l :
  StronglySorted above l →
  (∀ a b, key b ≤ key a → p b = true → p a = true) →
  l = filter (fun a => p a = true) l ++ filter (fun a => p a ≠ true) l.
Proof.
  intros Hl Hp. induction Hl as [|a l Hl IH Ha]; [done|].
  rewrite !filter_cons. destruct (p a) eqn:Ea.
  - rewrite decide_True, decide_False by (done || by intros []). simpl. by rewrite <-IH.
  - rewrite decide_False, decide_True by done.
    assert (Forall (fun b => p b ≠ true) l) as Hall.
    { apply Forall_forall. intros b Hb Hpb.
      rewrite Forall_forall in Ha. specialize (Hp a b (Ha b Hb) Hpb). congruence. }
    rewrite (filter_none (fun a => p a = true)) by exact Hall.
    rewrite (filter_all (fun a => p a ≠ true)) by exact Hall. reflexivity.
Qed.
End Sorting.

(** The counter order is the same sort, on the counts. *)
Lemma sort_desc_sorted_desc (c : list (string * nat)) :
  sort_desc c = Dashboard.sorted_desc (fun e => Z.of_nat e.2) c.
Proof.
  unfold sort_desc, Dashboard.sorted_desc.
  induction c as [|x c IH]; simpl; [done|]. rewrite IH. clear IH.
  induction (foldr _ _ c) as [|y l IH]; simpl; [done|].
  destruct (Nat.leb_spec (snd y) (snd x)), (Z.leb_spec (Z.of_nat y.2) (Z.of_nat x.2));
    try lia; [done|]. by rewrite IH.
Qed.

Lemma sort_desc_decreasing c : decreasing (sort_desc c).
Proof.
  rewrite sort_desc_sorted_desc. unfold decreasing.
  induction (sorted_desc_sorted (fun e : string * nat => Z.of_nat e.2) c)
    as [|x l Hl IH Hx]; constructor; [exact IH|].
  eapply Forall_impl; [exact Hx|]. simpl. intros y. lia.
Qed.

Lemma decreasing_take n (l : list (string * nat)) : decreasing l → decreasing (take n l).
Proof.
  unfold decreasing. intros Hl. revert n.
  induction Hl as [|x l Hl IH Hx]; intros [|n]; simpl; try constructor; [apply IH|].
  rewrite Forall_forall in *. intros y Hy. apply Hx. by eapply subseteq_take.
Qed.

(** The entries of one count keep the order of the counter. *)
Lemma sort_desc_stable (c : list (string * nat)) k :
  filter (fun e : string * nat => e.2 = k) (sort_desc c) =
  filter (fun e : string * nat => e.2 = k) c.
Proof.
  rewrite sort_desc_sorted_desc.
  pose proof (sorted_desc_stable (fun e : string * nat => Z.of_nat e.2)
                (Z.of_nat k) c) as Hst.
  erewrite (list_filter_iff _ (fun e : string * nat => Z.of_nat e.2 = Z.of_nat k)),
    Hst by (intros; lia).
  apply list_filter_iff. intros; lia.
Qed.

(** Two decreasing arrangements in which the entries of every count come in
    the same order are equal. *)
Lemma stable_decreasing_unique (s1 s2 : list (string * nat)) :
  decreasing s1 → decreasing s2 →
  (∀ k, filter (fun e : string * nat => e.2 = k) s1 =
        filter (fun e : string * nat => e.2 = k) s2) →
  s1 = s2.
Proof.
  unfold decreasing. intros H1. revert s2.
  induction H1 as [|x s1 Hs1 IH Hx]; intros s2 H2 Hf.
  - destruct s2 as [|y s2]; [done|].
    specialize (Hf y.2). rewrite filter_nil, filter_cons, decide_True in Hf by done.
    discriminate Hf.
  - destruct H2 as [|y s2 Hs2 Hy].
    { specialize (Hf x.2). rewrite filter_nil, filter_cons, decide_True in Hf by done.
      discriminate Hf. }
    assert (x = y) as <-.
    { destruct (decide (y.2 = x.2)) as [Heq|Hne].
      - specialize (Hf x.2). rewrite !filter_cons, !decide_True in Hf by done.
        by injection Hf.
      - exfalso.
        assert (x ∈ s2) as Hxs.
        { assert (x ∈ filter (fun e : string * nat => e.2 = x.2) (y :: s2)) as Hin.
          { rewrite <-Hf, filter_cons, decide_True by done. left. }
          apply list_elem_of_filter in Hin as [_ Hin].
          apply elem_of_cons in Hin as [->|Hin]; [done|exact Hin]. }
        assert (y ∈ s1) as Hys.
        { assert (y ∈ filter (fun e : string * nat => e.2 = y.2) (x :: s1)) as Hin.
          { rewrite Hf, filter_cons, decide_True by done. left. }
          apply list_elem_of_filter in Hin as [_ Hin].
          apply elem_of_cons in Hin as [->|Hin]; [done|exact Hin]. }
        rewrite Forall_forall in Hx, Hy.
        specialize (Hx y Hys). specialize (Hy x Hxs). simpl in Hx, Hy. lia. }
    f_equal. apply IH; [exact Hs2|]. intros k. specialize (Hf k).
    rewrite !filter_cons in Hf. destruct (decide (x.2 = k)); [by injection Hf|exact Hf].
Qed.

(** X6.  [most_common n] of a counter returns [min n (len c)] entries of the
    counter, by decreasing count; every entry it leaves out has a count that
    is at most the count of every entry it returns; entries of equal count
    keep the order of the counter, for every [n]: the returned entries of
    one count are the first entries of that count in the counter, in the
    order of the counter.  The result is determined: it is the first [n]
    entries of the one arrangement of the counter by decreasing count in
    which the entries of every count come in the order of the counter. *)
Theorem most_common_spec (n : nat) (c : list (string * nat)) :
  length (most_common n c) = Nat.min n (length c)
  ∧ decreasing (most_common n c)
  ∧ (∃ rest, c ≡ₚ most_common n c ++ rest
       ∧ ∀ e e', e ∈ most_common n c → e' ∈ rest → (e'.2 ≤ e.2)%nat)
  ∧ (∀ k, filter (fun e : string * nat => e.2 = k) (most_common n c)
          `prefix_of` filter (fun e : string * nat => e.2 = k) c)
  ∧ (∀ k, filter (fun e : string * nat => e.2 = k) (most_common (length c) c) =
          filter (fun e : string * nat => e.2 = k) c)
  ∧ (∃ s, c ≡ₚ s ∧ decreasing s
        ∧ (∀ k, filter (fun e : string * nat => e.2 = k) s =
                filter (fun e : string * nat => e.2 = k) c)
        ∧ most_common n c = take n s)
  ∧ (∀ s, decreasing s →
          (∀ k, filter (fun e : string * nat => e.2 = k) s =
                filter (fun e : string * nat => e.2 = k) c) →
          most_common n c = take n s).
Proof.
  assert (sort_desc c ≡ₚ c) as Hperm.
  { rewrite sort_desc_sorted_desc. apply sorted_desc_perm. }
  unfold most_common. split; [|split; [|split; [|split; [|split; [|split]]]]].
  - rewrite length_take. f_equal. by apply Permutation_length.
  - apply decreasing_take, sort_desc_decreasing.
  - exists (drop n (sort_desc c)). split.
    + by rewrite take_drop.
    + intros e e' He He'.
      pose proof (sort_desc_decreasing c) as Hs. unfold decreasing in Hs.
      rewrite <-(take_drop n (sort_desc c)) in Hs.
      by apply (StronglySorted_app_1_elem_of _ _ _ e e' Hs).
  - intros k. rewrite <-(sort_desc_stable c k).
    exists (filter (fun e : string * nat => e.2 = k) (drop n (sort_desc c))).
    by rewrite <-filter_app, take_drop.
  - intros k. rewrite take_ge by (by rewrite (Permutation_length Hperm)).
    apply sort_desc_stable.
  - exists (sort_desc c). split; [by symmetry|]. split; [apply sort_desc_decreasing|].
    split; [apply sort_desc_stable|reflexivity].
  - intros s Hs Hf. f_equal. apply stable_decreasing_unique.
    + apply sort_desc_decreasing.
    + exact Hs.
    + intros k. by rewrite sort_desc_stable, Hf.
Qed.

(** ** Groups of a grouping loop *)

Section GroupTotals.
Context {K A : Type} (eqb : K → K → bool) (key : A → option K).

Lemma group_append_total k x (groups : list (K * list A)) :
  grouped_total (group_append eqb k x groups) = S (grouped_total groups).
Proof.
  unfold grouped_total. induction groups as [|[k' xs] groups IH]; simpl; [done|].
  destruct (eqb k' k); simpl.
  - rewrite length_app. simpl. lia.
  - rewrite IH. lia.
Qed.

Lemma group_fold_total xs (groups : list (K * list A)) :
  (grouped_total (fold_left (group_step eqb key) xs groups)
   ≤ grouped_total groups + length xs)%nat.
Proof.
  revert groups. induction xs as [|x xs IH]; intros groups; simpl; [lia|].
  etransitivity; [apply IH|]. unfold group_step.
  destruct (key x); [rewrite group_append_total|]; lia.
Qed.

Lemma group_append_keys (P : K → Prop) k x (groups : list (K * list A)) :
  P k → Forall (fun g => P g.1) groups →
  Forall (fun g => P g.1) (group_append eqb k x groups).
Proof.
  intros Hk. induction 1 as [|[k' xs] groups Hg Hgs IH]; simpl.
  - by repeat constructor.
  - destruct (eqb k' k); constructor; done.
Qed.

Lemma group_fold_keys (P : K → Prop) xs (groups : list (K * list A)) :
  (∀ x k, key x = Some k → P k) →
  Forall (fun g => P g.1) groups →
  Forall (fun g => P g.1) (fold_left (group_step eqb key) xs groups).
Proof.
  intros HP. revert groups. induction xs as [|x xs IH]; intros groups Hg; simpl; [done|].
  apply IH. unfold group_step. destruct (key x) as [k|] eqn:E; [|done].
  apply group_append_keys; [by apply (HP x)|done].
Qed.

(** The groups a threshold keeps: their sizes add up to no more than the
    number of elements, and each is above the threshold. *)
Lemma kept_groups_total {B} (n : nat) (mk : K → list A → B) (size : B → nat)
    (groups : list (K * list A)) :
  (∀ k xs, size (mk k xs) = length xs) →
  let kept := omap (fun g : K * list A =>
                      if (n <? length g.2)%nat then Some (mk g.1 g.2) else None) groups in
  (nsum size kept ≤ grouped_total groups)%nat
  ∧ (S n * length kept ≤ nsum size kept)%nat
  ∧ Forall (fun b => n < size b)%nat kept.
Proof.
  intros Hsize. cbv zeta. unfold nsum, grouped_total.
  induction groups as [|[k xs] groups (IH1 & IH2 & IH3)]; [simpl; auto with lia|].
  cbn [omap list_omap fst snd]. destruct (Nat.ltb_spec n (length xs)) as [Hlt|Hge].
  - cbn [map fold_right length]. rewrite Hsize. cbn [snd].
    split; [lia|]. split; [|constructor; [by rewrite Hsize|done]].
    change (list_omap ?f ?l) with (omap f l) in *. lia.
  - cbn [map fold_right snd]. change (list_omap ?f ?l) with (omap f l) in *.
    split; [lia|]. split; [lia|done].
Qed.
End GroupTotals.

Lemma omap_pointwise {A B} (f g : A → option B) (l : list A) :
  (∀ x, f x = g x) → omap f l = omap g l.
Proof.
  intros Hfg. induction l as [|x l IH]; [done|].
  cbn [omap list_omap]. rewrite Hfg. destruct (g x); [f_equal|]; exact IH.
Qed.

Lemma window_of_aligned t : aligned (window_of t).
Proof.
  unfold aligned, window_of. simpl. split; [|done]. apply Z.mod_mul. lia.
Qed.

(** X8.  Alert storms.  Every storm has more than 10 alerts and lists at
    most 5 resources, and its window starts on a multiple of 5 minutes, at
    second 0.  An activity alert counts in at most one storm: the counts of
    the storms add up to at most the number of activity alerts, so there
    are at most [len(activity_alerts) / 11] storms. *)
Theorem alert_storms_bounded (fromisoformat : string → option datetime)
    (set_iter : list string → list string) (activity_alerts : list alert) :
  let storms := Analyzer.detect_alert_storms fromisoformat set_iter activity_alerts in
  Forall (fun s => (10 < Analyzer.storm_count s)%nat
                   ∧ (length (Analyzer.storm_resources s) ≤ 5)%nat
                   ∧ aligned (Analyzer.storm_time s)) storms
  ∧ (nsum Analyzer.storm_count storms ≤ length activity_alerts)%nat
  ∧ (11 * length storms ≤ length activity_alerts)%nat.
Proof.
  cbv zeta. unfold Analyzer.detect_alert_storms.
  assert (Analyzer.time_windows fromisoformat activity_alerts =
          fold_left (group_step dt_eqb (window_key fromisoformat)) activity_alerts [])
    as Hgroups.
  { unfold Analyzer.time_windows. apply fold_left_pointwise.
    intros groups x. unfold group_step, window_key.
    by destruct (Analyzer.parse_time fromisoformat (get "timestamp" x)). }
  set (mk := fun (w : datetime) (xs : list alert) =>
               {| Analyzer.storm_time := w;
                  Analyzer.storm_count := length xs;
                  Analyzer.storm_resources :=
                    take 5 (set_iter (Analyzer.resource_ids xs)) |}).
  rewrite (omap_pointwise _
             (fun g : datetime * list alert =>
                if (10 <? length g.2)%nat then Some (mk g.1 g.2) else None))
    by (by intros [w xs]).
  destruct (kept_groups_total 10 mk Analyzer.storm_count
              (Analyzer.time_windows fromisoformat activity_alerts))
    as (Hsum & Hlen & Hsize); [done|].
  pose proof (group_fold_total dt_eqb (window_key fromisoformat) activity_alerts [])
    as Htotal.
  rewrite <-Hgroups in Htotal. change (grouped_total []) with 0%nat in Htotal.
  split; [|split; lia].
  apply Forall_forall. intros s Hs. split.
  { rewrite Forall_forall in Hsize. by apply Hsize. }
  apply list_elem_of_omap in Hs as ([w xs] & Hg & Hs). cbn [fst snd] in Hs.
  destruct (10 <? length xs)%nat; [|done]. injection Hs as <-. cbn. split.
  - rewrite length_take. lia.
  - assert (Forall (fun g : datetime * list alert => aligned g.1)
              (Analyzer.time_windows fromisoformat activity_alerts)) as Hkeys.
    { rewrite Hgroups.
      apply (group_fold_keys dt_eqb (window_key fromisoformat) aligned);
        [|constructor].
      intros x k. unfold window_key.
      destruct (Analyzer.parse_time fromisoformat (get "timestamp" x)); [|done].
      intros [= <-]. apply window_of_aligned. }
    rewrite Forall_forall in Hkeys. exact (Hkeys _ Hg).
Qed.

(** X9.  Correlation patterns.  Every pattern has more than 2 alerts, lists
    at most 5 resources, has a non-empty identifier and the fixed time span
    text.  An activity alert counts in at most one pattern: the counts add
    up to at most the number of activity alerts, so there are at most
    [len(activity_alerts) / 3] patterns. *)
Theorem correlation_patterns_bounded (set_iter : list string → list string)
    (activity_alerts : list alert) :
  let patterns := Analyzer.detect_correlations set_iter activity_alerts in
  Forall (fun p => (2 < Analyzer.pattern_alert_count p)%nat
                   ∧ (length (Analyzer.pattern_resources p) ≤ 5)%nat
                   ∧ Analyzer.correlation_id p ≠ ""
                   ∧ Analyzer.time_span p = "Multiple related alerts") patterns
  ∧ (nsum Analyzer.pattern_alert_count patterns ≤ length activity_alerts)%nat
  ∧ (3 * length patterns ≤ length activity_alerts)%nat.
Proof.
  cbv zeta. unfold Analyzer.detect_correlations.
  assert (Analyzer.correlation_groups activity_alerts =
          fold_left (group_step String.eqb correlation_key) activity_alerts [])
    as Hgroups by reflexivity.
  set (mk := fun (c : string) (xs : list alert) =>
               {| Analyzer.correlation_id := c;
                  Analyzer.pattern_alert_count := length xs;
                  Analyzer.pattern_resources :=
                    take 5 (set_iter (Analyzer.resource_ids xs));
                  Analyzer.time_span := "Multiple related alerts" |}).
  rewrite (omap_pointwise _
             (fun g : string * list alert =>
                if (2 <? length g.2)%nat then Some (mk g.1 g.2) else None))
    by (by intros [w xs]).
  destruct (kept_groups_total 2 mk Analyzer.pattern_alert_count
              (Analyzer.correlation_groups activity_alerts))
    as (Hsum & Hlen & Hsize); [done|].
  pose proof (group_fold_total String.eqb correlation_key activity_alerts [])
    as Htotal.
  rewrite <-Hgroups in Htotal. change (grouped_total []) with 0%nat in Htotal.
  split; [|split; lia].
  apply Forall_forall. intros p Hp. split.
  { rewrite Forall_forall in Hsize. by apply Hsize. }
  apply list_elem_of_omap in Hp as ([c xs] & Hg & Hp). cbn [fst snd] in Hp.
  destruct (2 <? length xs)%nat; [|done]. injection Hp as <-. cbn. split; [|split].
  - rewrite length_take. lia.
  - assert (Forall (fun g : string * list alert => g.1 ≠ "")
              (Analyzer.correlation_groups activity_alerts)) as Hkeys.
    { rewrite Hgroups.
      apply (group_fold_keys String.eqb correlation_key (fun c => c ≠ ""));
        [|constructor].
      intros x k. unfold correlation_key, nonempty_str.
      destruct (get "correlationId" x); try done.
      destruct (String.eqb_spec s ""); [done|]. by intros [= <-]. }
    rewrite Forall_forall in Hkeys. exact (Hkeys _ Hg).
  - reflexivity.
Qed.

(** X10.  The 5-minute window of a time.  The window of a window is itself;
    a window starts on a multiple of 5 minutes at second 0; it starts at
    most 4 minutes before the time, never after it; the date, the hour and
    the offset are those of the time. *)
Theorem window_of_spec (t : datetime) :
  window_of (window_of t) = window_of t
  ∧ aligned (window_of t)
  ∧ minute (window_of t) ≤ minute t < minute (window_of t) + 5
  ∧ (year (window_of t), month (window_of t), day (window_of t), hour (window_of t),
     tzoffset (window_of t)) = (year t, month t, day t, hour t, tzoffset t).
Proof.
  split; [|split; [apply window_of_aligned|split; [|reflexivity]]].
  - unfold window_of. cbn. f_equal. rewrite Z.div_mul by lia. reflexivity.
  - unfold window_of. cbn. pose proof (Z.mod_pos_bound (minute t) 5).
    pose proof (Z.div_mod (minute t) 5). lia.
Qed.

(** ** Tuning recommendations *)

Lemma olookup_elem (c : list (string * nat)) k n :
  NoDup (map fst c) → (k, n) ∈ c → olookup k c = Some n.
Proof.
  induction c as [|[k' n'] c IH]; intros Hnd Hin; [by apply elem_of_nil in Hin|].
  simpl in *. apply NoDup_cons in Hnd as [Hk' Hnd].
  apply elem_of_cons in Hin as [[= -> ->]|Hin].
  - by rewrite String.eqb_refl.
  - destruct (String.eqb_spec k k') as [->|_]; [|by apply IH].
    exfalso. apply Hk'. apply list_elem_of_fmap. by exists (k', n).
Qed.

Lemma count_if_pos {A} (p : A → bool) (xs : list A) :
  (0 < count_if p xs)%nat → ∃ x, x ∈ xs ∧ p x = true.
Proof.
  induction xs as [|x xs IH]; [unfold count_if; simpl; lia|].
  rewrite count_if_cons. destruct (p x) eqn:E.
  - intros _. exists x. split; [left|done].
  - intros H. destruct (IH H) as (y & Hy & Hp). exists y. split; [by right|done].
Qed.

Lemma nonempty_str_nonempty v s : nonempty_str v = Some s → s ≠ "" ∧ v = JStr s.
Proof.
  destruct v; try done. simpl. destruct (String.eqb_spec s0 ""); [done|].
  by intros [= <-].
Qed.

Lemma low_sev_count_le (r : string) (activity_alerts : list alert) :
  r ≠ "" →
  (Analyzer.low_sev_count r activity_alerts ≤ count_if (has_resource r) activity_alerts)%nat.
Proof.
  intros Hr. unfold Analyzer.low_sev_count. fold (count_if (Analyzer.is_low_severity r)
    activity_alerts). apply count_if_impl. intros x.
  unfold Analyzer.is_low_severity, has_resource, activity_resource, nonempty_str.
  destruct (get "resourceId" x); try done. destruct (get "level" x); try done.
  intros [Hs _]%andb_true_iff. apply String.eqb_eq in Hs as ->.
  destruct (String.eqb_spec r ""); [done|]. by apply bool_decide_eq_true.
Qed.

Lemma recommended_resources (activity_alerts : list alert) (l : list (string * nat)) :
  map Analyzer.resource (omap (Analyzer.recommend activity_alerts) l)
  `sublist_of` map fst l.
Proof.
  induction l as [|[r n] l IH]; [done|]. cbn [omap list_omap Analyzer.recommend].
  destruct (Analyzer.tuning_flag _ n); cbn.
  - by apply sublist_skip.
  - by apply sublist_cons.
Qed.

Lemma omap_length_le {A B} (f : A → option B) (l : list A) :
  (length (omap f l) ≤ length l)%nat.
Proof.
  induction l as [|x l IH]; [done|]. cbn [omap list_omap].
  destruct (f x); simpl; lia.
Qed.

(** X7.  Tuning recommendations.  There are at most 20, no resource is
    recommended twice, and each recommended resource has more than 5 alerts,
    its [alert_count] being the number of activity alerts plus the number of
    history alerts on it, and at least one low-severity activity alert; its
    low-severity count is at most the number of its activity alerts. *)
Theorem tuning_recommendations_bounded
    (fromisoformat : string → option datetime) (py_repr : json → string)
    (strftime_ymd : datetime → string) (set_iter : list string → list string)
    (activity_alerts alert_history : list alert) :
  countable_input py_repr activity_alerts alert_history = true →
  ∃ a,
    Analyzer.analyze_alerts fromisoformat py_repr strftime_ymd set_iter
      activity_alerts alert_history = Ok a
    ∧ (length (Analyzer.tuning_recommendations a) ≤ 20)%nat
    ∧ NoDup (map Analyzer.resource (Analyzer.tuning_recommendations a))
    ∧ Forall
        (fun rec =>
           (5 < Analyzer.alert_count rec)%nat
           ∧ Analyzer.alert_count rec =
             (count_if (has_resource (Analyzer.resource rec)) activity_alerts
              + count_if (has_target (Analyzer.resource rec)) alert_history)%nat
           ∧ (1 ≤ Analyzer.low_sev_count (Analyzer.resource rec) activity_alerts)%nat
           ∧ (Analyzer.low_sev_count (Analyzer.resource rec) activity_alerts
              ≤ count_if (has_resource (Analyzer.resource rec)) activity_alerts)%nat)
        (Analyzer.tuning_recommendations a).
Proof.
  intros Hin.
  destruct (analyze_alerts_total fromisoformat py_repr strftime_ymd set_iter
              _ _ Hin) as [a Ha].
  exists a. split; [exact Ha|].
  pose proof (analyze_alerts_details _ _ _ _ _ _ _ Ha) as (_ & _ & Htun).
  apply analyze_alerts_counters in Ha as (_ & _ & _ & _ & Htop & _).
  destruct (obump_fold_invariant activity_resource activity_alerts [])
    as (Hn1 & Hp1 & _); [constructor|constructor|].
  destruct (obump_fold_invariant history_resource alert_history
              (fold_left (fun c x => obump (activity_resource x) c) activity_alerts []))
    as (Hnd & _ & _); [exact Hn1|exact Hp1|].
  rewrite <-Htop in Hnd.
  assert (∀ r, default 0%nat (olookup r (Analyzer.top_alerting_resources a)) =
               (count_if (has_resource r) activity_alerts
                + count_if (has_target r) alert_history)%nat) as Hcount.
  { intros r. rewrite Htop, !obump_fold_lookup. reflexivity. }
  assert (most_common 20 (Analyzer.top_alerting_resources a)
          `sublist_of` sort_desc (Analyzer.top_alerting_resources a)) as Hsub
    by apply sublist_take.
  assert (sort_desc (Analyzer.top_alerting_resources a) ≡ₚ
          Analyzer.top_alerting_resources a) as Hperm.
  { rewrite sort_desc_sorted_desc. apply sorted_desc_perm. }
  rewrite Htun. unfold Analyzer.tuning. split; [|split].
  - etransitivity; [apply omap_length_le|]. unfold most_common. rewrite length_take. lia.
  - eapply sublist_NoDup; [|apply recommended_resources].
    eapply sublist_NoDup; [|apply (fmap_sublist fst), Hsub]. by rewrite Hperm.
  - apply Forall_forall. intros rec Hrec.
    change (rec ∈ Analyzer.tuning (Analyzer.top_alerting_resources a) activity_alerts)
      in Hrec.
    apply tuning_spec in Hrec as (r & count & Hmc & Hflag & ->). cbn.
    assert ((r, count) ∈ Analyzer.top_alerting_resources a) as Hel.
    { rewrite <-Hperm. eapply elem_of_sublist; [exact Hmc|exact Hsub]. }
    pose proof (olookup_elem _ _ _ Hnd Hel) as Hlook.
    specialize (Hcount r). rewrite Hlook in Hcount. cbn in Hcount.
    pose proof Hflag as Hflag'. unfold Analyzer.tuning_flag in Hflag'.
    apply andb_true_iff in Hflag' as [_ H5%Nat.ltb_lt].
    assert (r ≠ "") as Hr.
    { assert (0 < count_if (has_resource r) activity_alerts
              ∨ 0 < count_if (has_target r) alert_history)%nat as [H|H] by lia.
      - apply count_if_pos in H as (x & _ & Hx).
        apply bool_decide_eq_true in Hx. by apply nonempty_str_nonempty in Hx as [? _].
      - apply count_if_pos in H as (x & _ & Hx).
        apply bool_decide_eq_true in Hx. by apply nonempty_str_nonempty in Hx as [? _]. }
    split; [exact H5|]. split; [exact Hcount|]. split; [|by apply low_sev_count_le].
    destruct (Analyzer.low_sev_count r activity_alerts) eqn:E; [|lia].
    by rewrite tuning_flag_zero in Hflag.
Qed.

(** X7, worked example: six warnings on [vm1] give one recommendation. *)
Lemma tuning_recommendations_bounded_witness :
  ∃ a,
    Reference.analyze_alerts Samples.noisy_alerts [] = Ok a
    ∧ map Analyzer.resource (Analyzer.tuning_recommendations a) = ["vm1"]
    ∧ Forall (fun rec => (5 < Analyzer.alert_count rec)%nat)
        (Analyzer.tuning_recommendations a).
Proof.
  destruct (tuning_recommendations_bounded
              Reference.fromisoformat Reference.py_repr Reference.strftime_ymd
              Reference.set_iter Samples.noisy_alerts [])
    as (a & Ha & _ & _ & Hall).
  - vm_compute. reflexivity.
  - exists a. split; [exact Ha|]. split.
    + pose proof Ha as Ha'. vm_compute in Ha'. injection Ha' as <-. reflexivity.
    + eapply Forall_impl; [exact Hall|]. simpl. tauto.
Defined.

(** ** Resource-health details *)

Lemma analyze_alerts_health fromisoformat py_repr strftime_ymd set_iter
    (activity_alerts alert_history : list alert) a :
  Analyzer.analyze_alerts fromisoformat py_repr strftime_ymd set_iter
    activity_alerts alert_history = Ok a →
  Analyzer.resource_health_alerts a =
  Analyzer.collect_resource_health py_repr (activity_alerts ++ alert_history).
Proof.
  unfold Analyzer.analyze_alerts.
  destruct (for_each _ activity_alerts _) as [a1|]; [|done]. simpl.
  destruct (for_each _ alert_history _) as [a2|]; [|done]. simpl.
  by intros [= <-].
Qed.

Lemma health_detail_name py_repr (x : alert) d :
  Analyzer.health_detail py_repr x = Some d →
  py_or (get "name" x) (get_or "alertRule" (JStr "") x) = JStr (Analyzer.rh_name d)
  ∧ contains "ResourceHealthUnhealthyAlert" (Analyzer.rh_name d) = true
  ∧ Analyzer.rh_state d = py_or (get "alertState" x) (JStr "Unknown").
Proof.
  unfold Analyzer.health_detail.
  destruct (py_or (get "name" x) (get_or "alertRule" (JStr "") x)) as [| | |name| |];
    try done.
  destruct (contains "ResourceHealthUnhealthyAlert" name) eqn:E; [|done].
  by intros [= <-].
Qed.

Lemma health_detail_found py_repr (x : alert) name :
  py_or (get "name" x) (get_or "alertRule" (JStr "") x) = JStr name →
  contains "ResourceHealthUnhealthyAlert" name = true →
  ∃ d, Analyzer.health_detail py_repr x = Some d ∧ Analyzer.rh_name d = name.
Proof.
  intros Hname Hc. unfold Analyzer.health_detail. rewrite Hname, Hc. by eexists.
Qed.

(** X11.  Resource-health details.  The details are those of the activity
    alerts followed by those of the history alerts, at most one per alert.
    An alert gives a detail exactly when its name, or its [alertRule] when
    the name is missing or falsy, is a string that contains
    [ResourceHealthUnhealthyAlert]; the detail carries that string.  An
    alert whose name is truthy and not a string gives no detail, whatever
    its [alertRule]. *)
Theorem resource_health_collection
    (fromisoformat : string → option datetime) (py_repr : json → string)
    (strftime_ymd : datetime → string) (set_iter : list string → list string)
    (activity_alerts alert_history : list alert) :
  countable_input py_repr activity_alerts alert_history = true →
  ∃ a,
    Analyzer.analyze_alerts fromisoformat py_repr strftime_ymd set_iter
      activity_alerts alert_history = Ok a
    ∧ Analyzer.resource_health_alerts a =
      Analyzer.collect_resource_health py_repr activity_alerts
      ++ Analyzer.collect_resource_health py_repr alert_history
    ∧ (length (Analyzer.resource_health_alerts a) ≤ Analyzer.total_alerts a)%nat
    ∧ (∀ d, d ∈ Analyzer.resource_health_alerts a →
         contains "ResourceHealthUnhealthyAlert" (Analyzer.rh_name d) = true
         ∧ ∃ x, x ∈ activity_alerts ++ alert_history
              ∧ py_or (get "name" x) (get_or "alertRule" (JStr "") x) =
                JStr (Analyzer.rh_name d))
    ∧ (∀ x name, x ∈ activity_alerts ++ alert_history →
         py_or (get "name" x) (get_or "alertRule" (JStr "") x) = JStr name →
         contains "ResourceHealthUnhealthyAlert" name = true →
         ∃ d, d ∈ Analyzer.resource_health_alerts a ∧ Analyzer.rh_name d = name)
    ∧ (∀ (x : alert) v,
         x !! "name" = Some v → truthy v = true → (∀ s, v ≠ JStr s) →
         Analyzer.health_detail py_repr x = None).
Proof.
  intros Hin.
  destruct (analyze_alerts_total fromisoformat py_repr strftime_ymd set_iter
              _ _ Hin) as [a Ha].
  exists a. split; [exact Ha|].
  pose proof (analyze_alerts_health _ _ _ _ _ _ _ Ha) as Hrh.
  apply analyze_alerts_counters in Ha as (_ & _ & _ & _ & _ & Htot).
  rewrite Hrh, Htot. unfold Analyzer.collect_resource_health.
  split; [apply omap_app|]. split; [|split; [|split]].
  - etransitivity; [apply omap_length_le|]. by rewrite length_app.
  - intros d (x & Hx & Hd)%list_elem_of_omap.
    apply health_detail_name in Hd as (Hname & Hc & _). eauto.
  - intros x name Hx Hname Hc.
    destruct (health_detail_found py_repr x name Hname Hc) as (d & Hd & Hn).
    exists d. split; [|done]. apply list_elem_of_omap. eauto.
  - intros x v Hv Ht Hs.
    assert (py_or (get "name" x) (get_or "alertRule" (JStr "") x) = v) as Hname.
    { unfold py_or, get. rewrite Hv. simpl. by rewrite Ht. }
    unfold Analyzer.health_detail. rewrite Hname.
    destruct v; try done. by destruct (Hs s).
Qed.

(** X11, worked example: the name is empty and the rule names the
    resource-health alert. *)
Lemma resource_health_collection_witness :
  ∃ a,
    Reference.analyze_alerts Samples.activity_alerts Samples.health_history = Ok a
    ∧ map Analyzer.rh_name (Analyzer.resource_health_alerts a) =
      ["ResourceHealthUnhealthyAlert-vm1"].
Proof.
  destruct (resource_health_collection
              Reference.fromisoformat Reference.py_repr Reference.strftime_ymd
              Reference.set_iter Samples.activity_alerts Samples.health_history)
    as (a & Ha & Hrh & _).
  - vm_compute. reflexivity.
  - exists a. split; [exact Ha|]. rewrite Hrh. vm_compute. reflexivity.
Defined.

(** ** The report of an analysis *)

(** X12.  The report of an analysis.  On every input the loops can count
    and every number of days other than 0, the analysis followed by the
    figures of the report (its ratios, percentages, rates and findings)
    raises nothing.  The acknowledgment and resolution rates are left out
    exactly when no history alert is in state [New]; the finding on
    correlation patterns is made exactly when the activity alerts give more
    than 5 patterns. *)
Theorem report_of_analysis
    (fromisoformat : string → option datetime) (py_repr : json → string)
    (strftime_ymd : datetime → string) (set_iter : list string → list string)
    (activity_alerts alert_history : list alert) (days_back : Z) :
  countable_input py_repr activity_alerts alert_history = true →
  days_back ≠ 0 →
  ∃ a r,
    Analyzer.analyze_alerts fromisoformat py_repr strftime_ymd set_iter
      activity_alerts alert_history = Ok a
    ∧ Analyzer.generate_report a days_back = Ok r
    ∧ (Analyzer.acknowledgment_rate r = None ↔
       count_if (has_state "New") alert_history = 0%nat)
    ∧ (Analyzer.resolution_rate r = None ↔
       count_if (has_state "New") alert_history = 0%nat)
    ∧ Analyzer.many_correlation_patterns r =
      (5 <? length (Analyzer.detect_correlations set_iter activity_alerts))%nat.
Proof.
  intros Hin Hd.
  destruct (analyze_alerts_total fromisoformat py_repr strftime_ymd set_iter
              _ _ Hin) as [a Ha].
  destruct (generate_report_total a days_back Hd) as [r Hr].
  exists a, r. split; [exact Ha|]. split; [exact Hr|].
  pose proof (analyze_alerts_details _ _ _ _ _ _ _ Ha) as (Hcp & _ & _).
  apply analyze_alerts_counters in Ha as (_ & _ & _ & Hlc & _).
  destruct (lifecycle_fold alert_history (Analyzer.mk_lifecycle 0 0 0 0 0))
    as (Hn & _). rewrite <-Hlc in Hn. cbn in Hn.
  revert Hr. unfold Analyzer.generate_report, py_truediv.
  replace (days_back =? 0) with false by (symmetry; by apply Z.eqb_neq).
  replace (Z.max _ 1 =? 0) with false by (symmetry; apply Z.eqb_neq; lia).
  cbn [mbind res_mbind res_bind].
  destruct (Analyzer.percentage_table (Analyzer.severity_breakdown a) _) as [t1|];
    [|done].
  destruct (Analyzer.percentage_table (Analyzer.alert_state_breakdown a) _) as [t2|];
    [|done].
  cbn [res_bind]. unfold Analyzer.lifecycle_rate, py_truediv. rewrite Hn.
  destruct (Nat.ltb_spec 0 (count_if (has_state "New") alert_history)) as [Hpos|Hzero].
  - replace (Z.of_nat _ =? 0) with false by (symmetry; apply Z.eqb_neq; lia).
    cbn [mbind res_mbind res_bind]. intros [= <-]. cbn.
    rewrite Hcp. split; [split; [done|lia]|]. split; [split; [done|lia]|].
    reflexivity.
  - cbn [mbind res_mbind res_bind]. intros [= <-]. cbn.
    rewrite Hcp. split; [split; [lia|done]|]. split; [split; [lia|done]|].
    reflexivity.
Qed.

(** X12, worked example: a report over 7 days. *)
Lemma report_of_analysis_witness :
  ∃ a r,
    Reference.analyze_alerts Samples.activity_alerts Samples.alert_history = Ok a
    ∧ Analyzer.generate_report a 7 = Ok r
    ∧ Analyzer.acknowledgment_rate r ≠ None
    ∧ Analyzer.many_correlation_patterns r = false.
Proof.
  destruct (report_of_analysis
              Reference.fromisoformat Reference.py_repr Reference.strftime_ymd
              Reference.set_iter Samples.activity_alerts Samples.alert_history 7)
    as (a & r & Ha & Hr & Hack & _ & Hmany).
  - vm_compute. reflexivity.
  - lia.
  - exists a, r. split; [exact Ha|]. split; [exact Hr|]. split.
    + rewrite Hack. vm_compute. lia.
    + rewrite Hmany. vm_compute. reflexivity.
Defined.

(** ** The summaries of the tenant rollup *)

Lemma step_summary c s :
  Rollup.subscription_summary (Rollup.step c s) =
  Rollup.subscription_summary c ++ [summary_of s].
Proof.
  unfold Rollup.step, summary_of, doc_total, doc_map.
  destruct (Rollup.analysis_file s); reflexivity.
Qed.

Lemma fold_summary l c :
  Rollup.subscription_summary (fold_left Rollup.step l c) =
  Rollup.subscription_summary c ++ map summary_of l.
Proof.
  revert c. induction l as [|s l IH]; intros c; simpl; [by rewrite app_nil_r|].
  rewrite IH, step_summary, <-app_assoc. reflexivity.
Qed.

Lemma aggregate_summary subs :
  Rollup.subscription_summary (Rollup.aggregate_subscription_data subs) =
  map summary_of subs.
Proof. unfold Rollup.aggregate_subscription_data. by rewrite fold_summary. Qed.

Lemma aggregate_total subs :
  Rollup.total_alerts (Rollup.aggregate_subscription_data subs) = zsum doc_total subs.
Proof.
  unfold Rollup.aggregate_subscription_data.
  rewrite RollupProofs.fold_total_alerts. simpl. lia.
Qed.

(** X13.  The summaries of the tenant rollup.  There is one summary per
    subscription directory, in the order of the directories, with the
    directory, the name and the identifier of the subscription and the
    total of its analysis file, 0 when the file or the key is missing;
    [has_data] holds exactly when that total is above 0; the tenant total
    is the sum of the totals of the summaries. *)
Theorem rollup_summaries (subs : list Rollup.subscription) :
  let data := Rollup.aggregate_subscription_data subs in
  map Rollup.directory (Rollup.subscription_summary data) = map Rollup.sub_dir subs
  ∧ map Rollup.name (Rollup.subscription_summary data) = map Rollup.sub_name subs
  ∧ map Rollup.id (Rollup.subscription_summary data) = map Rollup.sub_id subs
  ∧ map Rollup.summary_total_alerts (Rollup.subscription_summary data) =
    map doc_total subs
  ∧ Forall (fun sub => Rollup.has_data sub = (0 <? Rollup.summary_total_alerts sub))
      (Rollup.subscription_summary data)
  ∧ Rollup.total_alerts data =
    zsum Rollup.summary_total_alerts (Rollup.subscription_summary data).
Proof.
  cbv zeta. rewrite aggregate_summary, aggregate_total, !map_map.
  repeat split.
  - apply Forall_forall. intros sub (s & -> & _)%list_elem_of_fmap. reflexivity.
  - unfold zsum. by rewrite map_map.
Qed.

(** X14.  What the rollup does not merge.  Whatever the subscriptions, the
    hourly and daily distributions of the tenant document are empty and its
    lists of correlation patterns, tuning recommendations and alert storms
    are empty: the loop over the subscriptions never touches them. *)
Theorem rollup_keeps_details_empty (subs : list Rollup.subscription) :
  let data := Rollup.aggregate_subscription_data subs in
  Rollup.hourly_distribution data = ∅
  ∧ Rollup.daily_distribution data = ∅
  ∧ Rollup.correlation_patterns data = []
  ∧ Rollup.tuning_recommendations data = []
  ∧ Rollup.alert_storms data = [].
Proof.
  cbv zeta. unfold Rollup.aggregate_subscription_data.
  destruct (RollupProofs.fold_constant subs Rollup.init) as (-> & -> & -> & -> & ->).
  repeat split.
Qed.

Lemma fold_top_alerts_keys l c sev :
  is_Some (Rollup.top_alerts_by_severity (fold_left Rollup.step l c) !! sev) ↔
  is_Some (Rollup.top_alerts_by_severity c !! sev).
Proof.
  revert c. induction l as [|s l IH]; intros c; simpl; [done|].
  rewrite IH, RollupProofs.step_top_alerts. apply RollupProofs.add_top_alerts_keys.
Qed.

Lemma init_top_alerts_keys sev :
  is_Some (Rollup.top_alerts_by_severity Rollup.init !! sev) ↔
  sev ∈ Rollup.five_severities.
Proof.
  split; [|apply RollupProofs.init_five_keys].
  cbn [Rollup.init Rollup.top_alerts_by_severity]. intros [m Hm].
  apply elem_of_list_to_map_2 in Hm.
  apply list_elem_of_fmap in Hm as (s & [= -> _] & Hs). exact Hs.
Qed.

(** X15.  The per-severity names of the tenant document have the five keys
    [Sev0] to [Sev4] and no other: what a subscription counts under another
    severity is dropped. *)
Theorem rollup_top_alert_keys (subs : list Rollup.subscription) (sev : string) :
  (is_Some (Rollup.top_alerts_by_severity (Rollup.aggregate_subscription_data subs)
              !! sev) ↔ sev ∈ Rollup.five_severities)
  ∧ (∀ name, sev ∉ Rollup.five_severities →
       count_at2
         (Rollup.top_alerts_by_severity (Rollup.aggregate_subscription_data subs))
         sev name = 0).
Proof.
  assert (is_Some (Rollup.top_alerts_by_severity
                     (Rollup.aggregate_subscription_data subs) !! sev) ↔
          sev ∈ Rollup.five_severities) as Hkeys.
  { unfold Rollup.aggregate_subscription_data.
    rewrite fold_top_alerts_keys. apply init_top_alerts_keys. }
  split; [exact Hkeys|]. intros name Hsev. unfold count_at2.
  destruct (Rollup.top_alerts_by_severity _ !! sev) as [m|] eqn:E.
  - destruct Hsev. apply Hkeys. eauto.
  - simpl. by rewrite lookup_empty.
Qed.

(** X16.  The lifecycle counters of the tenant document are the sums, over
    the subscriptions, of the counters of their analysis files; a missing
    file, a missing [alert_lifecycle_metrics] and a missing counter count
    0. *)
Theorem rollup_lifecycle_sums (subs : list Rollup.subscription) :
  let lc := Rollup.alert_lifecycle_metrics (Rollup.aggregate_subscription_data subs) in
  Rollup.new_alerts lc =
    zsum (fun s => default 0 (Rollup.ld_new_alerts (doc_lifecycle s))) subs
  ∧ Rollup.acknowledged_alerts lc =
    zsum (fun s => default 0 (Rollup.ld_acknowledged_alerts (doc_lifecycle s))) subs
  ∧ Rollup.closed_alerts lc =
    zsum (fun s => default 0 (Rollup.ld_closed_alerts (doc_lifecycle s))) subs.
Proof.
  cbv zeta. unfold Rollup.aggregate_subscription_data.
  destruct (RollupProofs.fold_lifecycle subs Rollup.init) as (-> & -> & ->).
  simpl. repeat split; lia.
Qed.

(** ** The cards of the tenant dashboard *)

Lemma summary_has_data subs :
  Forall (fun sub => Rollup.has_data sub = (0 <? Rollup.summary_total_alerts sub))
    (Rollup.subscription_summary (Rollup.aggregate_subscription_data subs)).
Proof.
  rewrite aggregate_summary. apply Forall_forall.
  intros sub (s & -> & _)%list_elem_of_fmap. reflexivity.
Qed.

(** X17.  The subscription cards of the dashboard.  The cards are the
    summaries, by decreasing total; subscriptions of equal total keep the
    order of the directories; the cards with data come before the cards
    without; the number of cards with data is the figure shown as
    "Subscriptions with Alerts"; a card reads "No alerts found" exactly when
    its total is at most 0. *)
Theorem subscription_cards_order (subs : list Rollup.subscription) :
  let data := Rollup.aggregate_subscription_data subs in
  let cards := Dashboard.subscription_cards data in
  cards ≡ₚ Rollup.subscription_summary data
  ∧ StronglySorted
      (fun a b => Rollup.summary_total_alerts b ≤ Rollup.summary_total_alerts a) cards
  ∧ cards =
    filter (fun sub => Rollup.has_data sub = true) cards
    ++ filter (fun sub => Rollup.has_data sub ≠ true) cards
  ∧ (∀ total,
       filter (fun sub => Rollup.summary_total_alerts sub = total) cards =
       filter (fun sub => Rollup.summary_total_alerts sub = total)
         (Rollup.subscription_summary data))
  ∧ length (filter (fun sub => Rollup.has_data sub = true) cards) =
    Dashboard.subscriptions_with_alerts data
  ∧ Forall (fun sub =>
              Dashboard.status_text sub = Dashboard.NoAlertsFound ↔
              Rollup.summary_total_alerts sub ≤ 0) cards.
Proof.
  cbv zeta. unfold Dashboard.subscription_cards, Dashboard.subscriptions_with_alerts.
  set (summaries := Rollup.subscription_summary (Rollup.aggregate_subscription_data subs)).
  pose proof (sorted_desc_perm Rollup.summary_total_alerts summaries) as Hperm.
  pose proof (summary_has_data subs) as Hdata. fold summaries in Hdata.
  assert (Forall (fun sub => Rollup.has_data sub = (0 <? Rollup.summary_total_alerts sub))
            (Dashboard.sorted_desc Rollup.summary_total_alerts summaries)) as Hdata'
    by (by rewrite Hperm).
  split; [exact Hperm|]. split; [apply sorted_desc_sorted|].
  split; [|split; [|split]].
  - pose proof (sorted_desc_sorted Rollup.summary_total_alerts summaries) as Hs.
    revert Hs Hdata'. generalize (Dashboard.sorted_desc Rollup.summary_total_alerts summaries).
    intros l Hs. induction Hs as [|a l Hl IH Ha]; intros Hd; [done|].
    apply Forall_cons in Hd as [Hda Hd]. rewrite !filter_cons.
    destruct (Rollup.has_data a) eqn:Ea.
    + rewrite decide_True, decide_False by (done || by intros []). simpl.
      by rewrite <-IH.
    + rewrite decide_False, decide_True by done.
      assert (Forall (fun b => Rollup.has_data b ≠ true) l) as Hall.
      { apply Forall_forall. intros b Hb. rewrite Forall_forall in Ha, Hd.
        specialize (Ha b Hb). rewrite (Hd b Hb). simpl in Ha.
        symmetry in Hda. apply Z.ltb_ge in Hda.
        intros Hlt%Z.ltb_lt. lia. }
      rewrite (filter_none (fun b => Rollup.has_data b = true)) by exact Hall.
      rewrite (filter_all (fun b => Rollup.has_data b ≠ true)) by exact Hall.
      reflexivity.
  - intros total. apply sorted_desc_stable.
  - by rewrite Hperm.
  - eapply Forall_impl; [exact Hdata'|]. simpl. intros sub Hsub.
    unfold Dashboard.status_text. rewrite Hsub.
    destruct (Z.ltb_spec 0 (Rollup.summary_total_alerts sub)); split; try done; lia.
Qed.

(** X18.  "Subscriptions with Alerts".  When no subscription has a negative
    total, the figure is the number of subscriptions whose total is above
    0; it is at most the number of subscriptions analysed and at most the
    tenant total; the tenant total is above 0 exactly when the figure
    is. *)
Theorem tenant_has_alerts (subs : list Rollup.subscription) :
  Forall (fun s => 0 ≤ doc_total s) subs →
  let data := Rollup.aggregate_subscription_data subs in
  (Dashboard.subscriptions_with_alerts data ≤ length (Rollup.subscription_summary data))%nat
  ∧ length (Rollup.subscription_summary data) = length subs
  ∧ Dashboard.subscriptions_with_alerts data =
    length (filter (fun s => 0 < doc_total s) subs)
  ∧ (0 < Rollup.total_alerts data ↔
     (0 < Dashboard.subscriptions_with_alerts data)%nat)
  ∧ (Z.of_nat (Dashboard.subscriptions_with_alerts data) ≤ Rollup.total_alerts data).
Proof.
  intros Hnn. cbv zeta. unfold Dashboard.subscriptions_with_alerts.
  rewrite aggregate_summary, aggregate_total, length_map.
  assert (length (filter (fun sub => Rollup.has_data sub = true) (map summary_of subs)) =
          length (filter (fun s => 0 < doc_total s) subs)) as Hlen.
  { clear Hnn. induction subs as [|s l IH]; [done|]. cbn [map].
    rewrite !filter_cons. cbn [summary_of Rollup.has_data].
    destruct (Z.ltb_spec 0 (doc_total s)).
    - rewrite !decide_True by done. simpl. by rewrite IH.
    - rewrite !decide_False by (done || lia). exact IH. }
  rewrite Hlen. clear Hlen. split; [apply length_filter|]. split; [done|]. split; [done|].
  induction Hnn as [|s l Hs Hl [IH1 IH2]].
  - unfold zsum. simpl. split; [lia|]. lia.
  - rewrite RollupProofs.zsum_cons, filter_cons.
    destruct (decide (0 < doc_total s)); simpl; split; lia.
Qed.

(** X18, worked example: two subscriptions with alerts, one without an
    analysis file. *)
Lemma tenant_has_alerts_witness :
  Dashboard.subscriptions_with_alerts
    (Rollup.aggregate_subscription_data
       [Reference.subscription_a; Reference.subscription_b; Reference.subscription_c]) =
  2%nat
  ∧ 0 < Rollup.total_alerts
          (Rollup.aggregate_subscription_data
             [Reference.subscription_a; Reference.subscription_b;
              Reference.subscription_c]).
Proof.
  destruct (tenant_has_alerts
              [Reference.subscription_a; Reference.subscription_b;
               Reference.subscription_c])
    as (_ & _ & Hn & Hiff & _).
  - repeat constructor; vm_compute; discriminate.
  - split.
    + rewrite Hn. vm_compute. reflexivity.
    + apply Hiff. rewrite Hn. vm_compute. lia.
Defined.

(** ** The name a resource is displayed under *)

(** X19.  The name a resource is displayed under has
    [min (len resource) 100] characters; it is the resource itself exactly
    when the resource has at most 100 characters; its first 97 characters
    are those of the resource, and what follows them is what follows them
    in the resource when it has at most 100 characters, three full stops
    otherwise.  Characters are code points, as [len] and slices count
    them. *)
Theorem display_name_spec (resource : Dashboard.text) :
  length (Dashboard.display_name resource) = Nat.min (length resource) 100
  ∧ (Dashboard.display_name resource = resource ↔ (length resource ≤ 100)%nat)
  ∧ take 97 (Dashboard.display_name resource) = take 97 resource
  ∧ drop 97 (Dashboard.display_name resource) =
    if (length resource <=? 100)%nat then drop 97 resource else Dashboard.ellipsis.
Proof.
  unfold Dashboard.display_name.
  destruct (Nat.leb_spec (length resource) 100) as [Hle|Hgt].
  - split; [lia|]. repeat split; done.
  - assert (length (take 97 resource) = 97%nat) as Htake
      by (rewrite length_take; lia).
    assert (length (take 97 resource ++ Dashboard.ellipsis) = 100%nat) as Hlen.
    { rewrite length_app, Htake. reflexivity. }
    split; [lia|]. split; [|split].
    + split; [|lia]. intros Heq. rewrite Heq in Hlen. lia.
    + rewrite take_app_le by lia. apply take_take.
    + rewrite drop_app_ge by lia. rewrite Htake. reflexivity.
Qed.

(** A name of 60 accented letters, each one code point and two bytes of
    UTF-8, is displayed unchanged. *)
Example display_name_accented :
  Dashboard.display_name (replicate 60 233%N) = replicate 60 233%N.
Proof. reflexivity. Qed.

(** ** The first variant indexes its activity alerts *)

Section FirstVariant.
Variable fromisoformat : string → option datetime.
Variable strftime_ymd : datetime → string.

Lemma activity_step0_keys b (x : alert) b' :
  Analyzer0.activity_step fromisoformat strftime_ymd b x = Ok b' →
  (∀ k, k ∈ indexed_keys → is_Some (x !! k))
  ∧ (truthy (get "timestamp" x) = true →
     ∃ ts dt, x !! "timestamp" = Some (JStr ts)
              ∧ fromisoformat (replace_Z ts) = Some dt).
Proof.
  unfold Analyzer0.activity_step.
  repeat (match goal with
          | |- context [Analyzer0.getitem ?k x] =>
              destruct (Analyzer0.getitem k x) as [?v|] eqn:?E; [|done]
          | |- context [Analyzer0.count_if_truthy ?v ?c] =>
              destruct (Analyzer0.count_if_truthy v c); [|done]
          end; cbn [mbind res_mbind res_bind]).
  destruct (Analyzer0.count_time _ _ _ _ _) as [[h' d']|] eqn:Et; [|done].
  intros _.
  repeat match goal with
         | H : Analyzer0.getitem ?k x = Ok ?v |- _ =>
             assert (x !! k = Some v)
               by (unfold Analyzer0.getitem in H; destruct (x !! k); congruence);
             clear H
         end.
  split.
  - intros k Hk. unfold indexed_keys in Hk.
    repeat (apply elem_of_cons in Hk as [->|Hk]; [eauto|]).
    by apply elem_of_nil in Hk.
  - unfold get. replace (x !! "timestamp") with (Some v3) by done. simpl.
    intros Ht. unfold Analyzer0.count_time in Et. rewrite Ht in Et.
    destruct v3 as [| | |ts| |]; try done.
    destruct (fromisoformat (replace_Z ts)) as [dt|] eqn:Ep; [|done]. eauto.
Qed.
End FirstVariant.

(** X20.  In the analyzer of run 20250822_132921 the two breakdown loops
    return only if every activity alert has the five keys [level],
    [resourceType], [resourceGroup], [resourceId] and [timestamp], and every
    truthy timestamp is a string that parses: the loop indexes the record
    and parses outside any [try]. *)
Theorem first_variant_indexes_activity
    (fromisoformat : string → option datetime) (strftime_ymd : datetime → string)
    (activity_alerts alert_history : list alert) (b : Analyzer0.breakdowns) :
  Analyzer0.breakdown_loops fromisoformat strftime_ymd
    activity_alerts alert_history = Ok b →
  ∀ x, x ∈ activity_alerts →
    (∀ k, k ∈ indexed_keys → is_Some (x !! k))
    ∧ (truthy (get "timestamp" x) = true →
       ∃ ts dt, x !! "timestamp" = Some (JStr ts)
                ∧ fromisoformat (replace_Z ts) = Some dt).
Proof.
  unfold Analyzer0.breakdown_loops.
  destruct (for_each _ activity_alerts _) as [b1|] eqn:E1; [|done].
  intros _ x Hx. apply list_elem_of_In in Hx.
  destruct (for_each_ok_inv _ _ _ _ E1 x Hx) as (s1 & s2 & Hs).
  by apply activity_step0_keys in Hs.
Qed.

(** X20, worked example: an activity alert with the five keys. *)
Lemma first_variant_indexes_activity_witness :
  Forall (fun k => is_Some (Samples.indexed_alert !! k)) indexed_keys.
Proof.
  apply Forall_forall.
  refine (proj1 (first_variant_indexes_activity
                   Reference.fromisoformat Reference.strftime_ymd
                   [Samples.indexed_alert] [] _ _ Samples.indexed_alert _)).
  - vm_compute. reflexivity.
  - apply list_elem_of_here.
Defined.

Lemma step_without_data c s :
  Rollup.analysis_file s = None ∨ Rollup.analysis_file s = Some empty_document →
  Rollup.totals (Rollup.step c s) = Rollup.totals c.
Proof.
  intros [Hs|Hs]; unfold Rollup.step; rewrite Hs; [reflexivity|].
  apply RollupProofs.totals_eq; cbn;
    rewrite ?RollupProofs.add_counts_empty_l, ?RollupProofs.add_counts2_empty_l,
      ?RollupProofs.add_top_alerts_empty_l; try reflexivity; try lia.
  unfold Rollup.add_lifecycle. cbn. apply RollupProofs.lifecycle_eq; cbn; lia.
Qed.

(** X21.  A subscription without data adds nothing.  A subscription whose
    analysis file is missing, or cannot be read (it loads as [{}]), leaves
    the total and every counting map of the tenant document as they are
    without it, wherever it stands in the list; it still has its summary,
    with total 0 and without data. *)
Theorem subscription_without_data_adds_nothing
    (l1 l2 : list Rollup.subscription) (s : Rollup.subscription) :
  Rollup.analysis_file s = None ∨ Rollup.analysis_file s = Some empty_document →
  Rollup.totals (Rollup.aggregate_subscription_data (l1 ++ s :: l2)) =
    Rollup.totals (Rollup.aggregate_subscription_data (l1 ++ l2))
  ∧ ∃ sub,
      Rollup.subscription_summary (Rollup.aggregate_subscription_data (l1 ++ s :: l2))
        !! length l1 = Some sub
      ∧ Rollup.directory sub = Rollup.sub_dir s
      ∧ Rollup.summary_total_alerts sub = 0
      ∧ Rollup.has_data sub = false.
Proof.
  intros Hs. split.
  - unfold Rollup.aggregate_subscription_data. rewrite !fold_left_app.
    cbn [fold_left]. apply RollupProofs.fold_totals_congr. by apply step_without_data.
  - rewrite aggregate_summary. exists (summary_of s). split.
    + rewrite map_app. cbn [map].
      rewrite lookup_app_r by (by rewrite length_map).
      by rewrite length_map, Nat.sub_diag.
    + unfold summary_of, doc_total. cbn.
      destruct Hs as [-> | ->]; repeat split.
Qed.

(** X21, worked example: an unreadable analysis file between two
    subscriptions. *)
Lemma subscription_without_data_adds_nothing_witness :
  Rollup.totals
    (Rollup.aggregate_subscription_data
       [Reference.subscription_a; Samples.unreadable; Reference.subscription_b]) =
  Rollup.totals
    (Rollup.aggregate_subscription_data [Reference.subscription_a; Reference.subscription_b]).
Proof.
  apply (subscription_without_data_adds_nothing
           [Reference.subscription_a] [Reference.subscription_b] Samples.unreadable).
  right. reflexivity.
Defined.

(** ** Record normalization can fail *)

Lemma count_listed_type_raises py_repr (v : json) (vs : list json) a :
  Analyzer.count_resource_type py_repr (JObj {[ "value" := JArr (v :: vs) ]}) a =
  Err TypeError.
Proof.
  unfold Analyzer.count_resource_type. cbn [truthy].
  rewrite bool_decide_eq_false_2 by apply map_non_empty_singleton. cbn [negb].
  unfold Analyzer.resource_type_str, py_or, get.
  rewrite lookup_singleton_eq. reflexivity.
Qed.

Lemma get_listed_type (v : json) (vs : list json) (x : alert) :
  get "resourceType" (with_listed_type v vs x) = JObj {[ "value" := JArr (v :: vs) ]}.
Proof. unfold with_listed_type, get. by rewrite lookup_insert_eq. Qed.

Lemma listed_type_not_countable py_repr (v : json) (vs : list json) (x : alert) :
  countable_resource_type py_repr (get "resourceType" (with_listed_type v vs x)) = false.
Proof.
  rewrite get_listed_type.
  unfold countable_resource_type. cbn [truthy].
  rewrite bool_decide_eq_false_2 by apply map_non_empty_singleton. cbn [negb orb].
  unfold Analyzer.resource_type_str, py_or, get.
  rewrite lookup_singleton_eq. reflexivity.
Qed.

(** C7.  Record normalization can fail, in both analyzers.  In the analyzer
    of run 20250822_171957 an activity record whose [resourceType] is a
    structured value with a non-empty list as [value] raises [TypeError],
    whatever its other fields and whatever was counted before: the list is
    used as a key of the counter.  The analysis of any input that holds
    such a record raises [TypeError] and returns no document, so the record
    contributes to no breakdown and neither does any other record.  In the
    analyzer of run 20250822_132921 the loop indexes the record: an
    activity record without [level] raises [KeyError], and so does the loop
    on an input that starts with it; a record that lacks any of the five
    indexed keys raises. *)
Theorem record_normalization_raises
    (fromisoformat : string → option datetime) (py_repr : json → string)
    (strftime_ymd : datetime → string) (set_iter : list string → list string) :
  (∀ a (x : alert) v vs,
     Analyzer.activity_step fromisoformat py_repr strftime_ymd a
       (with_listed_type v vs x) = Err TypeError)
  ∧ (∀ (x : alert) v vs (before after alert_history : list alert),
       Analyzer.analyze_alerts fromisoformat py_repr strftime_ymd set_iter
         (before ++ with_listed_type v vs x :: after) alert_history = Err TypeError)
  ∧ (∀ b (x : alert),
       Analyzer0.activity_step fromisoformat strftime_ymd b (delete "level" x) =
       Err KeyError)
  ∧ (∀ (x : alert) (after alert_history : list alert),
       Analyzer0.breakdown_loops fromisoformat strftime_ymd
         (delete "level" x :: after) alert_history = Err KeyError)
  ∧ (∀ k b (x : alert), k ∈ indexed_keys →
       ∃ e, Analyzer0.activity_step fromisoformat strftime_ymd b (delete k x) = Err e).
Proof.
  assert (∀ b (x : alert),
            Analyzer0.activity_step fromisoformat strftime_ymd b (delete "level" x) =
            Err KeyError) as Hlevel.
  { intros b x. unfold Analyzer0.activity_step, Analyzer0.getitem.
    rewrite lookup_delete_eq. reflexivity. }
  split; [|split; [|split; [exact Hlevel|split]]].
  - intros a x v vs. unfold Analyzer.activity_step.
    rewrite get_listed_type, count_listed_type_raises. reflexivity.
  - intros x v vs before after alert_history.
    destruct (Analyzer.analyze_alerts fromisoformat py_repr strftime_ymd set_iter
                (before ++ with_listed_type v vs x :: after) alert_history)
      as [a|e] eqn:E.
    + apply analyze_alerts_ok_countable in E. unfold countable_input in E.
      apply andb_true_iff in E as [E _]. rewrite forallb_app in E.
      apply andb_true_iff in E as [_ E]. cbn [forallb] in E.
      apply andb_true_iff in E as [E _].
      by rewrite listed_type_not_countable in E.
    + by apply analyze_alerts_err in E as ->.
  - intros x after alert_history. unfold Analyzer0.breakdown_loops.
    cbn [for_each]. rewrite Hlevel. reflexivity.
  - intros k b x Hk.
    destruct (Analyzer0.activity_step fromisoformat strftime_ymd b (delete k x))
      as [b'|e] eqn:E; [|by exists e].
    apply activity_step0_keys in E as [Hkeys _].
    destruct (Hkeys k Hk) as [v Hv]. by rewrite lookup_delete_eq in Hv.
Qed.
